(** * Forminator insert generator: a shallow embedding and its properties

    The development follows [forminator_insert_generator.py]: the PHP
    serialisers ([php_serialize_string], [php_serialize_name],
    [php_serialize_calculation], [php_serialize_stripe]), the SQL quoting
    rule ([escape_sql_string]), the statement renderer
    ([generate_insert_query]), the row builder ([generate_entry_inserts])
    and the batch loop ([generate_multiple_entries]).

    Python values are modelled as follows.
    - [str] is a list of Unicode code points ([pystr]); the UTF-8 encoder
      is written out, including its refusal of lone surrogates.
    - [int] is [Z], printed in decimal.
    - [float] is a binary floating-point value (sign, mantissa, exponent,
      infinities, NaN); [int(x)] is exact truncation.
    - exceptions are the [Raise] branch of [result].
    - the interpreter services the script calls but does not define
      (parsing and printing of floats, [strptime]/[strftime], the clock)
      are the fields of a [runtime] record; every general theorem holds for
      all runtimes, and [Reference.rt] is an executable one. *)

From Stdlib Require Import String Ascii ZArith List Bool Lia.
From Stdlib Require Import DecimalString DecimalZ DecimalPos.
Import ListNotations.
Open Scope Z_scope.

Set Implicit Arguments.

(* ================================================================== *)
(** ** Exceptions *)

Inductive exn : Type :=
| ValueError
| OverflowError
| UnicodeEncodeError.

Inductive result (A : Type) : Type :=
| Ok (a : A)
| Raise (e : exn).

Arguments Ok {A} a.
Arguments Raise {A} e.

Definition rbind {A B : Type} (r : result A) (k : A -> result B) : result B :=
  match r with
  | Ok a => k a
  | Raise e => Raise e
  end.

Declare Scope result_scope.
Delimit Scope result_scope with result.
Notation "x <- r ;; k" := (rbind r (fun x => k))
  (at level 61, r at next level, right associativity) : result_scope.

(* ================================================================== *)
(** ** Python strings *)

(** A [str] is a sequence of code points. *)
Definition pystr : Type := list Z.

Definition ord (a : ascii) : Z := Z.of_nat (nat_of_ascii a).

(** String literals of this file are UTF-8 text; [lit] decodes them to
    code points, so that [lit "€"] is the one-character string U+20AC. *)
Fixpoint decode_utf8 (need : nat) (acc : Z) (bs : list Z) : pystr :=
  match bs with
  | [] => []
  | b :: r =>
      match need with
      | O =>
          if b <? 128 then b :: decode_utf8 0 0 r
          else if b <? 224 then decode_utf8 1 (Z.land b 31) r
          else if b <? 240 then decode_utf8 2 (Z.land b 15) r
          else decode_utf8 3 (Z.land b 7) r
      | S O => (Z.shiftl acc 6 + Z.land b 63) :: decode_utf8 0 0 r
      | S n => decode_utf8 n (Z.shiftl acc 6 + Z.land b 63) r
      end
  end.

Definition lit (s : string) : pystr :=
  decode_utf8 0 0 (map ord (list_ascii_of_string s)).

(** The double quote, which a literal of this file cannot contain. *)
Definition dq : Z := 34.

(** The text [s] between two double quotes. *)
Definition quoted (s : pystr) : pystr := dq :: s ++ [dq].

Definition pystr_eqb (a b : pystr) : bool :=
  if list_eq_dec Z.eq_dec a b then true else false.

(** Truthiness of a [str] and of an [Optional[str]]. *)
Definition truthy (s : pystr) : bool :=
  match s with [] => false | _ :: _ => true end.

Definition truthy_opt (o : option pystr) : bool :=
  match o with None => false | Some s => truthy s end.

(** The string held by a truthy [Optional[str]]. *)
Definition opt_str (o : option pystr) : pystr :=
  match o with None => [] | Some s => s end.

(** [sep.join(parts)] *)
Fixpoint join (sep : pystr) (parts : list pystr) : pystr :=
  match parts with
  | [] => []
  | [p] => p
  | p :: rest => p ++ sep ++ join sep rest
  end.

(** *** [str.encode('utf-8')] *)

Definition is_surrogate (c : Z) : bool := (55296 <=? c) && (c <=? 57343).

(** The bytes of one code point.  A lone surrogate is refused
    ("surrogates not allowed"). *)
Definition encode_char (c : Z) : result (list Z) :=
  if c <? 128 then Ok [c]
  else if c <? 2048 then
    Ok [Z.lor 192 (Z.shiftr c 6); Z.lor 128 (Z.land c 63)]
  else if is_surrogate c then Raise UnicodeEncodeError
  else if c <? 65536 then
    Ok [Z.lor 224 (Z.shiftr c 12);
        Z.lor 128 (Z.land (Z.shiftr c 6) 63);
        Z.lor 128 (Z.land c 63)]
  else
    Ok [Z.lor 240 (Z.shiftr c 18);
        Z.lor 128 (Z.land (Z.shiftr c 12) 63);
        Z.lor 128 (Z.land (Z.shiftr c 6) 63);
        Z.lor 128 (Z.land c 63)].

Fixpoint encode_utf8 (s : pystr) : result (list Z) :=
  match s with
  | [] => Ok []
  | c :: r =>
      (bs <- encode_char c ;;
       rest <- encode_utf8 r ;;
       Ok (bs ++ rest))%result
  end.

(** The number of bytes a code point takes, for a code point that can be
    encoded. *)
Definition char_width (c : Z) : nat :=
  if c <? 128 then 1 else if c <? 2048 then 2 else if c <? 65536 then 3 else 4.

Definition utf8_width (s : pystr) : nat :=
  fold_right (fun c n => (char_width c + n)%nat) O s.

(** No lone surrogate: the string has a UTF-8 encoding. *)
Definition encodable (s : pystr) : bool :=
  forallb (fun c => negb (is_surrogate c)) s.

(** *** [str(n)] for an [int] *)

Definition digit_char (d : Z) : Z := 48 + d.

Fixpoint uint_chars (u : Decimal.uint) : pystr :=
  match u with
  | Decimal.Nil => []
  | Decimal.D0 r => digit_char 0 :: uint_chars r
  | Decimal.D1 r => digit_char 1 :: uint_chars r
  | Decimal.D2 r => digit_char 2 :: uint_chars r
  | Decimal.D3 r => digit_char 3 :: uint_chars r
  | Decimal.D4 r => digit_char 4 :: uint_chars r
  | Decimal.D5 r => digit_char 5 :: uint_chars r
  | Decimal.D6 r => digit_char 6 :: uint_chars r
  | Decimal.D7 r => digit_char 7 :: uint_chars r
  | Decimal.D8 r => digit_char 8 :: uint_chars r
  | Decimal.D9 r => digit_char 9 :: uint_chars r
  end.

(** Decimal digits, with a leading minus sign for a negative number. *)
Definition str_of_int (z : Z) : pystr :=
  match Z.to_int z with
  | Decimal.Pos u => uint_chars u
  | Decimal.Neg u => 45 :: uint_chars u
  end.

(** *** [str.replace(old, new)] for a non-empty [old] *)

Fixpoint starts_with (p s : pystr) : bool :=
  match p, s with
  | [], _ => true
  | _ :: _, [] => false
  | a :: p', b :: s' => (a =? b) && starts_with p' s'
  end.

(** Left-to-right, non-overlapping: after a match the scan resumes behind
    it ([skip] counts the characters of the match still to pass). *)
Fixpoint replace_from (old new : pystr) (skip : nat) (s : pystr) : pystr :=
  match s with
  | [] => []
  | c :: r =>
      match skip with
      | S k => replace_from old new k r
      | O =>
          if starts_with old s
          then new ++ replace_from old new (Nat.pred (length old)) r
          else c :: replace_from old new 0 r
      end
  end.

Definition replace (old new s : pystr) : pystr := replace_from old new 0 s.

(* ================================================================== *)
(** ** The composite value encoder *)

(** [php_serialize_string]: [s:<byte length>:"<value>"]. *)
Definition php_serialize_string (value : pystr) : result pystr :=
  (bytes <- encode_utf8 value ;;
   let byte_length := Z.of_nat (length bytes) in
   Ok (lit "s:" ++ str_of_int byte_length ++ lit ":" ++ quoted value))%result.

(** [php_serialize_name] *)
Definition php_serialize_name (first_name last_name : pystr) : result pystr :=
  (first_serialized <- php_serialize_string first_name ;;
   last_serialized <- php_serialize_string last_name ;;
   Ok (lit "a:2:{s:10:" ++ quoted (lit "first-name") ++ lit ";"
       ++ first_serialized
       ++ lit ";s:9:" ++ quoted (lit "last-name") ++ lit ";"
       ++ last_serialized ++ lit ";}"))%result.

(** [escape_sql_string] *)
Definition escape_sql_string (value : pystr) : pystr :=
  replace (lit "'") [92; 39] (replace [92] [92; 92] value).

(* ================================================================== *)
(** ** Numbers *)

(** A [float]: [PyFin neg m e] is [(-1)^neg * m * 2^e]. *)
Inductive pyfloat : Type :=
| PyNan
| PyInf (neg : bool)
| PyFin (neg : bool) (m : N) (e : Z).

(** The [amount] of [php_serialize_calculation] is an [int] at one call
    site and a [float] at the other. *)
Inductive number : Type :=
| PyInt (z : Z)
| PyFloat (f : pyfloat).

(** [int(x)] for a float: the integral part, exactly; an infinity and a
    NaN have none. *)
Definition int_of_float (f : pyfloat) : result Z :=
  match f with
  | PyNan => Raise ValueError
  | PyInf _ => Raise OverflowError
  | PyFin neg m e =>
      let magnitude := Z.shiftl (Z.of_N m) e in
      Ok (if neg then - magnitude else magnitude)
  end.

Definition int_of_number (x : number) : result Z :=
  match x with
  | PyInt z => Ok z
  | PyFloat f => int_of_float f
  end.

(** The value of a finite float as a fraction of two integers. *)
Definition float_num (neg : bool) (m : N) (e : Z) : Z :=
  let n := if 0 <=? e then Z.of_N m * 2 ^ e else Z.of_N m in
  if neg then - n else n.

Definition float_den (e : Z) : Z :=
  if 0 <=? e then 1 else 2 ^ (- e).

(* ================================================================== *)
(** ** The interpreter services *)

Record runtime : Type := {
  (** [datetime] objects *)
  datetime : Type;
  (** the successive readings of [datetime.now()] *)
  now : nat -> datetime;
  (** [d.strftime('%Y-%m-%d %H:%M:%S')] *)
  strftime_stamp : datetime -> pystr;
  (** [d.strftime('%d/%m/%Y')] *)
  strftime_day : datetime -> pystr;
  (** [datetime.strptime(s, '%Y-%m-%d %H:%M:%S')] *)
  strptime_stamp : pystr -> result datetime;
  (** [float(s)] *)
  float_of_str : pystr -> result pyfloat;
  (** [f"{x}"] for a float [x] *)
  str_of_float : pyfloat -> pystr
}.

(** Computations that may read the clock: the state is the number of
    readings taken so far. *)
Definition prog (A : Type) : Type := nat -> result (A * nat).

Definition ret {A : Type} (a : A) : prog A := fun t => Ok (a, t).

Definition bind {A B : Type} (c : prog A) (k : A -> prog B) : prog B :=
  fun t =>
    match c t with
    | Ok (a, t') => k a t'
    | Raise e => Raise e
    end.

Definition lift {A : Type} (r : result A) : prog A :=
  fun t =>
    match r with
    | Ok a => Ok (a, t)
    | Raise e => Raise e
    end.

Declare Scope prog_scope.
Delimit Scope prog_scope with prog.
Notation "x <- c ;; k" := (bind c (fun x => k))
  (at level 61, c at next level, right associativity) : prog_scope.

Definition datetime_now (rt : runtime) : prog (datetime rt) :=
  fun t => Ok (now rt t, S t).

(* ================================================================== *)
(** ** The composite value encoder, continued *)

(** [f"{amount}"] *)
Definition format_number (rt : runtime) (amount : number) : pystr :=
  match amount with
  | PyInt z => str_of_int z
  | PyFloat f => str_of_float rt f
  end.

(** The default of [currency_symbol]. *)
Definition default_currency_symbol : pystr := lit "€".

(** [php_serialize_calculation] *)
Definition php_serialize_calculation (rt : runtime)
    (amount : number) (currency_symbol : pystr) : result pystr :=
  (truncated <- int_of_number amount ;;
   let formatted_amount := currency_symbol ++ lit " " ++ str_of_int truncated in
   formatted_serialized <- php_serialize_string formatted_amount ;;
   Ok (lit "a:2:{s:6:" ++ quoted (lit "result") ++ lit ";d:"
       ++ format_number rt amount
       ++ lit ";s:17:" ++ quoted (lit "formatting_result") ++ lit ";"
       ++ formatted_serialized ++ lit ";}"))%result.

(** The list [parts] of [php_serialize_stripe]. *)
Definition stripe_parts (transaction_id amount currency mode product_name
    payment_type status : pystr) : result (list pystr) :=
  let transaction_link :=
    lit "https://dashboard.stripe.com/payments/" ++ transaction_id in
  (p1 <- php_serialize_string mode ;;
   p2 <- php_serialize_string product_name ;;
   p3 <- php_serialize_string payment_type ;;
   p4 <- php_serialize_string amount ;;
   p5 <- php_serialize_string (lit "1") ;;
   p6 <- php_serialize_string currency ;;
   p7 <- php_serialize_string transaction_id ;;
   p8 <- php_serialize_string transaction_link ;;
   p9 <- php_serialize_string status ;;
   Ok [ lit "s:4:" ++ quoted (lit "mode") ++ lit ";" ++ p1;
        lit "s:12:" ++ quoted (lit "product_name") ++ lit ";" ++ p2;
        lit "s:12:" ++ quoted (lit "payment_type") ++ lit ";" ++ p3;
        lit "s:6:" ++ quoted (lit "amount") ++ lit ";" ++ p4;
        lit "s:8:" ++ quoted (lit "quantity") ++ lit ";" ++ p5;
        lit "s:8:" ++ quoted (lit "currency") ++ lit ";" ++ p6;
        lit "s:14:" ++ quoted (lit "transaction_id") ++ lit ";" ++ p7;
        lit "s:16:" ++ quoted (lit "transaction_link") ++ lit ";" ++ p8;
        lit "s:6:" ++ quoted (lit "status") ++ lit ";" ++ p9 ])%result.

(** [php_serialize_stripe] *)
Definition php_serialize_stripe (transaction_id amount currency mode
    product_name payment_type status : pystr) : result pystr :=
  (parts <- stripe_parts transaction_id amount currency mode product_name
              payment_type status ;;
   Ok (lit "a:9:{" ++ join (lit ";") parts ++ lit ";}"))%result.

(** The defaults of [php_serialize_stripe]. *)
Definition default_currency : pystr := lit "EUR".
Definition default_mode : pystr := lit "live".
Definition default_product_name : pystr := lit "Plan 1".
Definition default_payment_type : pystr := lit "One Time".
Definition default_status : pystr := lit "COMPLETED".

(* ================================================================== *)
(** ** The entry row builder *)

Definition TABLE_NAME : pystr := lit "wp_frmt_form_entry_meta".

(** The statement text for a creation timestamp that is given. *)
Definition insert_statement (meta_id entry_id : Z)
    (meta_key meta_value date_created : pystr) : pystr :=
  let escaped_value := escape_sql_string meta_value in
  lit "INSERT INTO `" ++ TABLE_NAME ++ lit "` "
  ++ lit "(`meta_id`, `entry_id`, `meta_key`, `meta_value`, `date_created`, `date_updated`) "
  ++ lit "VALUES "
  ++ lit "(" ++ str_of_int meta_id ++ lit ", " ++ str_of_int entry_id
  ++ lit ", '" ++ meta_key ++ lit "', '" ++ escaped_value
  ++ lit "', '" ++ date_created ++ lit "', '0000-00-00 00:00:00');".

(** [generate_insert_query] *)
Definition generate_insert_query (rt : runtime) (meta_id entry_id : Z)
    (meta_key meta_value : pystr) (date_created : option pystr) : prog pystr :=
  (date_created <-
     match date_created with
     | None => d <- datetime_now rt ;; ret (strftime_stamp rt d)
     | Some s => ret s
     end ;;
   ret (insert_statement meta_id entry_id meta_key meta_value date_created))%prog.

(** A [dict] literal and [d.get(key, default)]. *)
Fixpoint dict_get (d : list (pystr * pystr)) (key default : pystr) : pystr :=
  match d with
  | [] => default
  | (k, v) :: rest => if pystr_eqb k key then v else dict_get rest key default
  end.

Definition gender_map : list (pystr * pystr) :=
  [ (lit "M", lit "Masculin / Male");
    (lit "F", lit "Féminin / Female") ].

(** The local variables [queries] and [current_meta_id]. *)
Record locals : Type := {
  queries : list pystr;
  current_meta_id : Z
}.

(** [queries.append(self.generate_insert_query(current_meta_id, entry_id,
    meta_key, meta_value, date_created)); current_meta_id += 1] *)
Definition append_query (rt : runtime) (entry_id : Z)
    (meta_key meta_value date_created : pystr) (loc : locals) : prog locals :=
  (q <- generate_insert_query rt (current_meta_id loc) entry_id
          meta_key meta_value (Some date_created) ;;
   ret {| queries := queries loc ++ [q];
          current_meta_id := current_meta_id loc + 1 |})%prog.

(** The body of [generate_entry_inserts] up to its [return]; the result is
    the state of the two locals there. *)
Definition generate_entry_locals (rt : runtime)
    (entry_id meta_id_start : Z)
    (first_name last_name email phone grade dojo_name birth_date gender
       stripe_transaction_id stripe_amount : pystr)
    (party t_shirt : bool) (t_shirt_size date_created : option pystr)
    (currency : pystr) : prog locals :=
  (date_created <-
     match date_created with
     | None => d <- datetime_now rt ;; ret (strftime_stamp rt d)
     | Some s => ret s
     end ;;
   let gender_value := dict_get gender_map gender gender in
   let loc := {| queries := []; current_meta_id := meta_id_start |} in
   submission_date <-
     (if truthy date_created
      then dt_obj <- lift (strptime_stamp rt date_created) ;;
           ret (strftime_day rt dt_obj)
      else d <- datetime_now rt ;; ret (strftime_day rt d)) ;;
   (* 1 *)
   loc <- append_query rt entry_id (lit "hidden-1") (str_of_int entry_id)
            date_created loc ;;
   (* 2 *)
   loc <- append_query rt entry_id (lit "hidden-2") submission_date
            date_created loc ;;
   (* 3 *)
   let calculation_amount := if t_shirt then PyInt 20 else PyInt 0 in
   calculation_value <-
     lift (php_serialize_calculation rt calculation_amount
             default_currency_symbol) ;;
   loc <- append_query rt entry_id (lit "calculation-1") calculation_value
            date_created loc ;;
   (* 4 *)
   amount <- lift (float_of_str rt stripe_amount) ;;
   calculation2_value <-
     lift (php_serialize_calculation rt (PyFloat amount)
             default_currency_symbol) ;;
   loc <- append_query rt entry_id (lit "calculation-2") calculation2_value
            date_created loc ;;
   (* 5 *)
   name_value <- lift (php_serialize_name first_name last_name) ;;
   loc <- append_query rt entry_id (lit "name-1") name_value date_created loc ;;
   (* 6 *)
   loc <- append_query rt entry_id (lit "email-1") email date_created loc ;;
   (* 7 *)
   loc <- append_query rt entry_id (lit "phone-1") phone date_created loc ;;
   (* 8 *)
   loc <- append_query rt entry_id (lit "select-1") grade date_created loc ;;
   (* 9 *)
   loc <- append_query rt entry_id (lit "text-3") dojo_name date_created loc ;;
   (* 10 *)
   loc <- append_query rt entry_id (lit "date-1") birth_date date_created loc ;;
   (* 11 *)
   loc <- (if t_shirt
           then append_query rt entry_id (lit "select-2") gender_value
                  date_created loc
           else ret loc) ;;
   (* 12 *)
   loc <- (if t_shirt && truthy_opt t_shirt_size
           then append_query rt entry_id (lit "select-3")
                  (opt_str t_shirt_size) date_created loc
           else ret loc) ;;
   (* 13 *)
   loc <- (if t_shirt
           then append_query rt entry_id (lit "select-4") (lit "1")
                  date_created loc
           else ret loc) ;;
   (* 14 *)
   loc <- append_query rt entry_id (lit "select-5") (lit "1") date_created loc ;;
   (* 15 *)
   loc <- (if party || t_shirt
           then
             let checkbox_values := [] in
             let checkbox_values :=
               if party
               then checkbox_values ++ [lit "Fête Finale / Final Party"]
               else checkbox_values in
             let checkbox_values :=
               if t_shirt
               then checkbox_values ++ [lit "T-Shirt"]
               else checkbox_values in
             let checkbox_value := join (lit ", ") checkbox_values in
             append_query rt entry_id (lit "checkbox-2") checkbox_value
               date_created loc
           else ret loc) ;;
   (* 16 *)
   stripe_value <-
     lift (php_serialize_stripe stripe_transaction_id stripe_amount currency
             default_mode default_product_name default_payment_type
             default_status) ;;
   loc <- append_query rt entry_id (lit "stripe-ocs-1") stripe_value
            date_created loc ;;
   ret loc)%prog.

(** [generate_entry_inserts]: [return queries]. *)
Definition generate_entry_inserts (rt : runtime)
    (entry_id meta_id_start : Z)
    (first_name last_name email phone grade dojo_name birth_date gender
       stripe_transaction_id stripe_amount : pystr)
    (party t_shirt : bool) (t_shirt_size date_created : option pystr)
    (currency : pystr) : prog (list pystr) :=
  (loc <- generate_entry_locals rt entry_id meta_id_start first_name last_name
            email phone grade dojo_name birth_date gender
            stripe_transaction_id stripe_amount party t_shirt t_shirt_size
            date_created currency ;;
   ret (queries loc))%prog.

(** An entry as a dictionary: the keys of the example data of [main].
    [date_created] and [currency] may be absent. *)
Module Entry.
Record t : Type := {
  entry_id : Z;
  meta_id_start : Z;
  first_name : pystr;
  last_name : pystr;
  email : pystr;
  phone : pystr;
  grade : pystr;
  dojo_name : pystr;
  birth_date : pystr;
  gender : pystr;
  stripe_transaction_id : pystr;
  stripe_amount : pystr;
  party : bool;
  t_shirt : bool;
  t_shirt_size : option pystr;
  date_created : option pystr;
  currency : option pystr
}.
End Entry.

(** [d.get('currency', 'EUR')], and the default of the parameter. *)
Definition currency_or_default (c : option pystr) : pystr :=
  match c with
  | Some s => s
  | None => default_currency
  end.

(** [generator.generate_entry_inserts( **entry )], as [main] calls it. *)
Definition generate_entry_inserts_kw (rt : runtime) (entry : Entry.t)
    : prog (list pystr) :=
  generate_entry_inserts rt
    (Entry.entry_id entry) (Entry.meta_id_start entry)
    (Entry.first_name entry) (Entry.last_name entry)
    (Entry.email entry) (Entry.phone entry) (Entry.grade entry)
    (Entry.dojo_name entry) (Entry.birth_date entry) (Entry.gender entry)
    (Entry.stripe_transaction_id entry) (Entry.stripe_amount entry)
    (Entry.party entry) (Entry.t_shirt entry) (Entry.t_shirt_size entry)
    (Entry.date_created entry) (currency_or_default (Entry.currency entry)).

(** The call in the loop of [generate_multiple_entries]: [party],
    [t_shirt] and [t_shirt_size] are not passed and take their defaults. *)
Definition generate_entry_inserts_batch (rt : runtime) (entry : Entry.t)
    : prog (list pystr) :=
  generate_entry_inserts rt
    (Entry.entry_id entry) (Entry.meta_id_start entry)
    (Entry.first_name entry) (Entry.last_name entry)
    (Entry.email entry) (Entry.phone entry) (Entry.grade entry)
    (Entry.dojo_name entry) (Entry.birth_date entry) (Entry.gender entry)
    (Entry.stripe_transaction_id entry) (Entry.stripe_amount entry)
    false false None
    (Entry.date_created entry) (currency_or_default (Entry.currency entry)).

(** The empty string, the line that closes an entry in a batch. *)
Definition empty_str : pystr := [].

(** The [for] loop of [generate_multiple_entries], with the accumulator
    [all_queries]. *)
Fixpoint for_entries (rt : runtime) (entries : list Entry.t)
    (all_queries : list pystr) : prog (list pystr) :=
  match entries with
  | [] => ret all_queries
  | entry :: rest =>
      (queries <- generate_entry_inserts_batch rt entry ;;
       let all_queries := all_queries ++ queries in
       let all_queries := all_queries ++ [empty_str] in
       for_entries rt rest all_queries)%prog
  end.

(** [generate_multiple_entries] *)
Definition generate_multiple_entries (rt : runtime) (entries : list Entry.t)
    : prog (list pystr) :=
  for_entries rt entries [].

(* ================================================================== *)
(** ** An executable runtime

    [Reference.rt clock] implements the interpreter services for text
    whose digits are ASCII: [strptime] and [strftime] for the two formats
    of the script, [float] with correct rounding to binary64, and the
    shortest round-trip printing of floats. *)

Module Reference.

Record date_time : Type := {
  year : Z; month : Z; day : Z;
  hour : Z; minute : Z; second : Z
}.

(** *** [strftime]: day, month, hour, minute and second take two digits;
    the year is printed as it is, which is four digits from the year 1000
    on. *)

Definition pad2 (n : Z) : pystr :=
  if n <? 10 then digit_char 0 :: str_of_int n else str_of_int n.

Definition strftime_stamp (d : date_time) : pystr :=
  str_of_int (year d) ++ lit "-" ++ pad2 (month d) ++ lit "-" ++ pad2 (day d)
  ++ lit " " ++ pad2 (hour d) ++ lit ":" ++ pad2 (minute d)
  ++ lit ":" ++ pad2 (second d).

Definition strftime_day (d : date_time) : pystr :=
  pad2 (day d) ++ lit "/" ++ pad2 (month d) ++ lit "/" ++ str_of_int (year d).

(** *** [strptime]: the pattern
    [(\d\d\d\d)-(1[0-2]|0[1-9]|[1-9])-(3[0-1]|[1-2]\d|0[1-9]|[1-9]| [1-9])\s+(2[0-3]|[0-1]\d|\d):([0-5]\d|\d):(6[0-1]|[0-5]\d|\d)],
    matched at the start of the text with backtracking; the matches of a
    matcher are listed in the order the regular expression tries them. *)

Definition matcher (A : Type) : Type := pystr -> list (A * pystr).

Definition m_ret {A : Type} (a : A) : matcher A := fun s => [(a, s)].

Definition m_bind {A B : Type} (p : matcher A) (k : A -> matcher B)
    : matcher B :=
  fun s => flat_map (fun ar => k (fst ar) (snd ar)) (p s).

Definition m_alt {A : Type} (p q : matcher A) : matcher A :=
  fun s => p s ++ q s.

Definition m_digit (lo hi : Z) : matcher Z :=
  fun s =>
    match s with
    | c :: r =>
        if (digit_char lo <=? c) && (c <=? digit_char hi)
        then [(c - 48, r)] else []
    | [] => []
    end.

Definition m_char (c : Z) : matcher unit :=
  fun s =>
    match s with
    | x :: r => if x =? c then [(tt, r)] else []
    | [] => []
    end.

Definition m_two (a b c d : Z) : matcher Z :=
  m_bind (m_digit a b) (fun x => m_bind (m_digit c d) (fun y =>
    m_ret (10 * x + y))).

(** White space as [\s] and [str.isspace] see it. *)
Definition is_space (c : Z) : bool :=
  ((9 <=? c) && (c <=? 13)) || ((28 <=? c) && (c <=? 32))
  || (c =? 133) || (c =? 160) || (c =? 5760)
  || ((8192 <=? c) && (c <=? 8202))
  || (c =? 8232) || (c =? 8233) || (c =? 8239) || (c =? 8287)
  || (c =? 12288).

(** [\s+], longest run first. *)
Fixpoint m_spaces (s : pystr) : list (unit * pystr) :=
  match s with
  | c :: r => if is_space c then m_spaces r ++ [(tt, r)] else []
  | [] => []
  end.

Definition m_year : matcher Z :=
  m_bind (m_digit 0 9) (fun a => m_bind (m_digit 0 9) (fun b =>
  m_bind (m_digit 0 9) (fun c => m_bind (m_digit 0 9) (fun d =>
    m_ret (1000 * a + 100 * b + 10 * c + d))))).

Definition m_month : matcher Z :=
  m_alt (m_two 1 1 0 2) (m_alt (m_two 0 0 1 9) (m_digit 1 9)).

Definition m_day : matcher Z :=
  m_alt (m_two 3 3 0 1) (m_alt (m_two 1 2 0 9) (m_alt (m_two 0 0 1 9)
    (m_alt (m_digit 1 9) (m_bind (m_char 32) (fun _ => m_digit 1 9))))).

Definition m_hour : matcher Z :=
  m_alt (m_two 2 2 0 3) (m_alt (m_two 0 1 0 9) (m_digit 0 9)).

Definition m_minute : matcher Z :=
  m_alt (m_two 0 5 0 9) (m_digit 0 9).

Definition m_second : matcher Z :=
  m_alt (m_two 6 6 0 1) (m_alt (m_two 0 5 0 9) (m_digit 0 9)).

Definition m_stamp : matcher date_time :=
  m_bind m_year (fun Y => m_bind (m_char 45) (fun _ =>
  m_bind m_month (fun m => m_bind (m_char 45) (fun _ =>
  m_bind m_day (fun d => m_bind m_spaces (fun _ =>
  m_bind m_hour (fun H => m_bind (m_char 58) (fun _ =>
  m_bind m_minute (fun M => m_bind (m_char 58) (fun _ =>
  m_bind m_second (fun S =>
    m_ret {| year := Y; month := m; day := d;
             hour := H; minute := M; second := S |}))))))))))).

Definition is_leap (y : Z) : bool :=
  (y mod 4 =? 0) && (negb (y mod 100 =? 0) || (y mod 400 =? 0)).

Definition days_in_month (y m : Z) : Z :=
  if m =? 2 then (if is_leap y then 29 else 28)
  else if (m =? 4) || (m =? 6) || (m =? 9) || (m =? 11) then 30
  else 31.

(** The first match must use up the text, and the fields must make a
    [datetime]. *)
Definition strptime_stamp (s : pystr) : result date_time :=
  match m_stamp s with
  | (d, []) :: _ =>
      if (1 <=? year d) && (day d <=? days_in_month (year d) (month d))
         && (second d <=? 59)
      then Ok d
      else Raise ValueError
  | _ => Raise ValueError
  end.

(** *** Rounding a positive fraction to binary64 *)

(** [num / den], with [0 < num] and [0 < den], rounded to the nearest
    float, ties to the even mantissa. *)
Definition round_fraction (neg : bool) (num den : Z) : pyfloat :=
  let e1 := Z.log2 num - Z.log2 den - 52 in
  let scaled e := if 0 <=? e then num / (den * 2 ^ e)
                  else (num * 2 ^ (- e)) / den in
  let e2 := if scaled e1 <? 2 ^ 52 then e1 - 1 else e1 in
  let e := Z.max e2 (-1074) in
  let n := if 0 <=? e then num else num * 2 ^ (- e) in
  let d := if 0 <=? e then den * 2 ^ e else den in
  let q := n / d in
  let r := n mod d in
  let q := if (d <? 2 * r) || ((d =? 2 * r) && Z.odd q) then q + 1 else q in
  let e := if q =? 2 ^ 53 then e + 1 else e in
  let q := if q =? 2 ^ 53 then 2 ^ 52 else q in
  if 971 <? e then PyInf neg
  else if q =? 0 then PyFin neg 0 0
  else PyFin neg (Z.to_N q) e.

(** *** [float(s)] *)

Definition is_digit (c : Z) : bool := (48 <=? c) && (c <=? 57).

(** Non-ASCII white space counts as a blank; any other non-ASCII
    character is not part of a number. *)
Definition to_ascii (c : Z) : Z :=
  if c <? 127 then c else if is_space c then 32 else 63.

Definition is_blank (c : Z) : bool :=
  (c =? 32) || ((9 <=? c) && (c <=? 13)).

Fixpoint strip_left (s : pystr) : pystr :=
  match s with
  | c :: r => if is_blank c then strip_left r else s
  | [] => []
  end.

Definition strip (s : pystr) : pystr :=
  rev (strip_left (rev (strip_left s))).

Definition lower (c : Z) : Z :=
  if (65 <=? c) && (c <=? 90) then c + 32 else c.

(** A run of digits in which single underscores may separate digits:
    the number read so far, the count of digits, and the rest.  [first]
    says that no digit of the run has been read yet. *)
Fixpoint digit_run (first : bool) (acc : Z) (count : Z) (s : pystr)
    : option (Z * Z * pystr) :=
  match s with
  | c :: r =>
      if is_digit c then digit_run false (10 * acc + (c - 48)) (count + 1) r
      else if (c =? 95) && negb first then
        match r with
        | c' :: _ => if is_digit c' then digit_run true acc count r else None
        | [] => None
        end
      else if first then None else Some (acc, count, s)
  | [] => if first then None else Some (acc, count, s)
  end.

(** An optional sign. *)
Definition read_sign (s : pystr) : bool * pystr :=
  match s with
  | 45 :: r => (true, r)
  | 43 :: r => (false, r)
  | _ => (false, s)
  end.

(** The exponent part, which must end the text. *)
Definition read_exponent (s : pystr) : option Z :=
  match s with
  | [] => Some 0
  | c :: r =>
      if lower c =? 101 then
        let '(neg, r) := read_sign r in
        match digit_run true 0 0 r with
        | Some (x, _, []) => Some (if neg then - x else x)
        | _ => None
        end
      else None
  end.

(** The digits before and after the point as one integer, the count of
    digits after the point, and the exponent. *)
Definition read_decimal (s : pystr) : option (Z * Z * Z) :=
  match s with
  | 46 :: r =>
      match digit_run true 0 0 r with
      | Some (m, k, r) =>
          match read_exponent r with
          | Some x => Some (m, k, x)
          | None => None
          end
      | None => None
      end
  | _ =>
      match digit_run true 0 0 s with
      | Some (m, _, 46 :: r) =>
          match r with
          | c :: _ =>
              if is_digit c then
                match digit_run true m 0 r with
                | Some (m, k, r) =>
                    match read_exponent r with
                    | Some x => Some (m, k, x)
                    | None => None
                    end
                | None => None
                end
              else
                match read_exponent r with
                | Some x => Some (m, 0, x)
                | None => None
                end
          | [] => Some (m, 0, 0)
          end
      | Some (m, _, r) =>
          match read_exponent r with
          | Some x => Some (m, 0, x)
          | None => None
          end
      | None => None
      end
  end.

Definition float_of_str (s : pystr) : result pyfloat :=
  let '(neg, body) := read_sign (strip (map to_ascii s)) in
  let word := map lower body in
  if pystr_eqb word (lit "inf") || pystr_eqb word (lit "infinity")
  then Ok (PyInf neg)
  else if pystr_eqb word (lit "nan") then Ok PyNan
  else
    match read_decimal body with
    | Some (m, k, x) =>
        if m =? 0 then Ok (PyFin neg 0 0)
        else
          let p := x - k in
          Ok (if 0 <=? p then round_fraction neg (m * 10 ^ p) 1
              else round_fraction neg m (10 ^ (- p)))
    | None => Raise ValueError
    end.

(** *** [repr] of a float: the shortest digits that read back *)

(** [x * 10^k] as a fraction. *)
Definition scale10 (x k : Z) : Z * Z :=
  if 0 <=? k then (x * 10 ^ k, 1) else (x, 10 ^ (- k)).

(** [a/b <= c/d] and [a/b < c/d] for positive denominators. *)
Definition frac_le (p q : Z * Z) : bool := fst p * snd q <=? fst q * snd p.
Definition frac_lt (p q : Z * Z) : bool := fst p * snd q <? fst q * snd p.

(** The largest [t] with [10^t <= x], searched from an estimate. *)
Fixpoint log10_up (fuel : nat) (x : Z * Z) (t : Z) : Z :=
  match fuel with
  | O => t
  | S f => if frac_le (scale10 1 (t + 1)) x then log10_up f x (t + 1) else t
  end.

Fixpoint log10_down (fuel : nat) (x : Z * Z) (t : Z) : Z :=
  match fuel with
  | O => t
  | S f => if frac_le (scale10 1 t) x then t else log10_down f x (t - 1)
  end.

Definition log10_floor (x : Z * Z) : Z :=
  let guess := ((Z.log2 (fst x) - Z.log2 (snd x)) * 30103) / 100000 in
  log10_up 4 x (log10_down 4 x guess).

(** The digits [c] and the exponent [k] of the shortest decimal [c * 10^k]
    that rounds to [m * 2^e], the closest one among the shortest. *)
Fixpoint shortest_from (fuel : nat) (n : Z) (m e t : Z) : Z * Z :=
  let below := if (m =? 2 ^ 52) && (-1074 <? e) then 1 else 2 in
  let quarter x := if 0 <=? e - 2 then (x * 2 ^ (e - 2), 1)
                   else (x, 2 ^ (2 - e)) in
  let x := quarter (4 * m) in
  let lo := quarter (4 * m - below) in
  let hi := quarter (4 * m + 2) in
  let k := t - n + 1 in
  let unit := scale10 1 k in
  let c_lo := (fst x * snd unit) / (snd x * fst unit) in
  let c_hi := c_lo + 1 in
  let v_lo := scale10 c_lo k in
  let v_hi := scale10 c_hi k in
  let lo_in := if Z.even m then frac_le lo v_lo else frac_lt lo v_lo in
  let hi_in := if Z.even m then frac_le v_hi hi else frac_lt v_hi hi in
  (* twice the value against the sum of the two candidates *)
  let twice := (2 * fst x, snd x) in
  let sum := scale10 (c_lo + c_hi) k in
  let nearer_lo := frac_lt twice sum || (frac_le twice sum && Z.even c_lo) in
  match fuel with
  | O => (c_lo, k)
  | S f =>
      if lo_in && hi_in then (if nearer_lo then (c_lo, k) else (c_hi, k))
      else if lo_in then (c_lo, k)
      else if hi_in then (c_hi, k)
      else shortest_from f (n + 1) m e t
  end.

Fixpoint strip_zeros (fuel : nat) (c k : Z) : Z * Z :=
  match fuel with
  | O => (c, k)
  | S f => if (c mod 10 =? 0) && negb (c =? 0)
           then strip_zeros f (c / 10) (k + 1) else (c, k)
  end.

Definition zeros (n : Z) : pystr := repeat (digit_char 0) (Z.to_nat n).

(** The layout of [repr]: plain digits while the point falls within
    sixteen digits and no more than three zeros lead, an exponent
    otherwise. *)
Definition layout (digits : pystr) (decpt : Z) : pystr :=
  let n := Z.of_nat (length digits) in
  if (decpt <=? -4) || (16 <? decpt) then
    let x := decpt - 1 in
    let mantissa :=
      match digits with
      | d :: (_ :: _) as rest => d :: 46 :: rest
      | _ => digits
      end in
    let magnitude := str_of_int (Z.abs x) in
    mantissa ++ lit "e" ++ (if x <? 0 then lit "-" else lit "+")
    ++ (if Z.abs x <? 10 then digit_char 0 :: magnitude else magnitude)
  else if decpt <=? 0 then
    lit "0." ++ zeros (- decpt) ++ digits
  else if n <=? decpt then
    digits ++ zeros (decpt - n) ++ lit ".0"
  else
    firstn (Z.to_nat decpt) digits ++ lit "." ++ skipn (Z.to_nat decpt) digits.

Definition str_of_float (f : pyfloat) : pystr :=
  match f with
  | PyNan => lit "nan"
  | PyInf neg => if neg then lit "-inf" else lit "inf"
  | PyFin neg m e =>
      let sign := if neg then lit "-" else [] in
      if (m =? 0)%N then sign ++ lit "0.0"
      else
        (* the canonical mantissa and exponent of the value *)
        match round_fraction neg
                (Z.of_N m * (if 0 <=? e then 2 ^ e else 1))
                (if 0 <=? e then 1 else 2 ^ (- e)) with
        | PyFin _ m' e' =>
            let m' := Z.of_N m' in
            let x := if 0 <=? e' then (m' * 2 ^ e', 1) else (m', 2 ^ (- e')) in
            let '(c, k) := shortest_from 17 1 m' e' (log10_floor x) in
            let '(c, k) := strip_zeros 400 c k in
            let digits := str_of_int c in
            sign ++ layout digits (Z.of_nat (length digits) + k)
        | PyInf _ => sign ++ lit "inf"
        | PyNan => lit "nan"
        end
  end.

(** *** The runtime *)

Definition rt (clock : nat -> date_time) : runtime :=
  Build_runtime clock strftime_stamp strftime_day strptime_stamp
    float_of_str str_of_float.

End Reference.

(* ================================================================== *)
(** ** Reading a statement back

    The row identifier of a statement is the integer written between the
    fixed head of the statement and the first comma. *)

Definition statement_head : pystr :=
  lit "INSERT INTO `" ++ TABLE_NAME ++ lit "` "
  ++ lit "(`meta_id`, `entry_id`, `meta_key`, `meta_value`, `date_created`, `date_updated`) "
  ++ lit "VALUES " ++ lit "(".

Fixpoint until (c : Z) (s : pystr) : pystr :=
  match s with
  | [] => []
  | x :: r => if x =? c then [] else x :: until c r
  end.

Fixpoint chars_uint (s : pystr) : option Decimal.uint :=
  match s with
  | [] => Some Decimal.Nil
  | c :: r =>
      match chars_uint r with
      | None => None
      | Some u =>
          if c =? 48 then Some (Decimal.D0 u)
          else if c =? 49 then Some (Decimal.D1 u)
          else if c =? 50 then Some (Decimal.D2 u)
          else if c =? 51 then Some (Decimal.D3 u)
          else if c =? 52 then Some (Decimal.D4 u)
          else if c =? 53 then Some (Decimal.D5 u)
          else if c =? 54 then Some (Decimal.D6 u)
          else if c =? 55 then Some (Decimal.D7 u)
          else if c =? 56 then Some (Decimal.D8 u)
          else if c =? 57 then Some (Decimal.D9 u)
          else None
      end
  end.

Definition read_int (s : pystr) : option Z :=
  match s with
  | 45 :: r => option_map (fun u => Z.of_int (Decimal.Neg u)) (chars_uint r)
  | _ => option_map (fun u => Z.of_int (Decimal.Pos u)) (chars_uint s)
  end.

Definition meta_id_of (statement : pystr) : option Z :=
  if starts_with statement_head statement
  then read_int (until 44 (skipn (length statement_head) statement))
  else None.

(* ================================================================== *)
(** ** The row builder as a table

    The values an entry needs from the encoder and the runtime, computed
    in the order of the script, and the table of section 4.2 of the
    specification over them. *)

Record entry_values : Type := {
  created : pystr;
  submission_date : pystr;
  calculation_value : pystr;
  calculation2_value : pystr;
  name_value : pystr;
  stripe_value : pystr
}.

Definition entry_prelude (rt : runtime)
    (first_name last_name stripe_transaction_id stripe_amount : pystr)
    (t_shirt : bool) (date_created : option pystr) (currency : pystr)
    : prog entry_values :=
  (stamp <-
     match date_created with
     | None => d <- datetime_now rt ;; ret (strftime_stamp rt d)
     | Some s => ret s
     end ;;
   day <-
     (if truthy stamp
      then d <- lift (strptime_stamp rt stamp) ;; ret (strftime_day rt d)
      else d <- datetime_now rt ;; ret (strftime_day rt d)) ;;
   c1 <- lift (php_serialize_calculation rt
                 (if t_shirt then PyInt 20 else PyInt 0)
                 default_currency_symbol) ;;
   amount <- lift (float_of_str rt stripe_amount) ;;
   c2 <- lift (php_serialize_calculation rt (PyFloat amount)
                 default_currency_symbol) ;;
   nm <- lift (php_serialize_name first_name last_name) ;;
   st <- lift (php_serialize_stripe stripe_transaction_id stripe_amount
                 currency default_mode default_product_name
                 default_payment_type default_status) ;;
   ret {| created := stamp; submission_date := day;
          calculation_value := c1; calculation2_value := c2;
          name_value := nm; stripe_value := st |})%prog.

(** Column "Value" of row 11: the gender code mapped. *)
Definition gender_label (gender : pystr) : pystr :=
  if pystr_eqb (lit "M") gender then lit "Masculin / Male"
  else if pystr_eqb (lit "F") gender then lit "Féminin / Female"
  else gender.

(** Column "Value" of row 15. *)
Definition checkbox_text (party t_shirt : bool) : pystr :=
  match party, t_shirt with
  | true, true => lit "Fête Finale / Final Party, T-Shirt"
  | true, false => lit "Fête Finale / Final Party"
  | false, true => lit "T-Shirt"
  | false, false => []
  end.

(** The table: key and value of the rows that are included, in order. *)
Definition field_table (entry_id : Z) (v : entry_values)
    (email phone grade dojo_name birth_date gender : pystr)
    (party t_shirt : bool) (t_shirt_size : option pystr)
    : list (pystr * pystr) :=
  [ (lit "hidden-1", str_of_int entry_id);
    (lit "hidden-2", submission_date v);
    (lit "calculation-1", calculation_value v);
    (lit "calculation-2", calculation2_value v);
    (lit "name-1", name_value v);
    (lit "email-1", email);
    (lit "phone-1", phone);
    (lit "select-1", grade);
    (lit "text-3", dojo_name);
    (lit "date-1", birth_date) ]
  ++ (if t_shirt then [(lit "select-2", gender_label gender)] else [])
  ++ (if t_shirt && truthy_opt t_shirt_size
      then [(lit "select-3", opt_str t_shirt_size)] else [])
  ++ (if t_shirt then [(lit "select-4", lit "1")] else [])
  ++ [ (lit "select-5", lit "1") ]
  ++ (if party || t_shirt
      then [(lit "checkbox-2", checkbox_text party t_shirt)] else [])
  ++ [ (lit "stripe-ocs-1", stripe_value v) ].

(** One statement per row of a table, the identifiers counted up from
    [meta_id]. *)
Fixpoint statements (meta_id entry_id : Z) (date_created : pystr)
    (rows : list (pystr * pystr)) : list pystr :=
  match rows with
  | [] => []
  | (key, value) :: rest =>
      insert_statement meta_id entry_id key value date_created
      :: statements (meta_id + 1) entry_id date_created rest
  end.

(** The statements each entry of a batch yields, in order. *)
Fixpoint entries_outputs (rt : runtime) (entries : list Entry.t)
    : prog (list (list pystr)) :=
  match entries with
  | [] => ret []
  | entry :: rest =>
      (q <- generate_entry_inserts_batch rt entry ;;
       qs <- entries_outputs rt rest ;;
       ret (q :: qs))%prog
  end.

(** An entry's statements followed by the empty line, for each entry. *)
Definition with_separators (outputs : list (list pystr)) : list pystr :=
  concat (map (fun q => q ++ [empty_str]) outputs).

(** Escaping one character: what [escape_sql_string] does to each
    character of its argument. *)
Definition escape_char (c : Z) : pystr :=
  if c =? 92 then [92; 92] else if c =? 39 then [92; 39] else [c].

(** The statement the specification describes, with the key escaped as
    well as the value. *)
Definition insert_statement_key_escaped (meta_id entry_id : Z)
    (meta_key meta_value date_created : pystr) : pystr :=
  insert_statement meta_id entry_id (escape_sql_string meta_key) meta_value
    date_created.

(** A character of a printed integer is a digit or the minus sign. *)
Definition int_char (c : Z) : bool := ((48 <=? c) && (c <=? 57)) || (c =? 45).

(** The keys [generate_entry_inserts] passes to [generate_insert_query]. *)
Definition field_keys : list pystr :=
  [ lit "hidden-1"; lit "hidden-2"; lit "calculation-1"; lit "calculation-2";
    lit "name-1"; lit "email-1"; lit "phone-1"; lit "select-1"; lit "text-3";
    lit "date-1"; lit "select-2"; lit "select-3"; lit "select-4";
    lit "select-5"; lit "checkbox-2"; lit "stripe-ocs-1" ].

(** The creation timestamp an entry is generated with: the override, or
    the clock's reading when there is none. *)
Definition effective_stamp (rt : runtime) (date_created : option pystr)
    (t : nat) : pystr :=
  match date_created with
  | Some s => s
  | None => strftime_stamp rt (now rt t)
  end.

(** The number of lines a generation returned. *)
Definition lines_returned (r : result (list pystr * nat)) : option nat :=
  match r with
  | Ok (qs, _) => Some (length qs)
  | Raise _ => None
  end.

(** The [i]-th line a generation returned. *)
Definition line_returned (i : nat) (r : result (list pystr * nat))
    : option pystr :=
  match r with
  | Ok (qs, _) => nth_error qs i
  | Raise _ => None
  end.

(* ================================================================== *)
(** ** Example data *)

Module Example.

Definition clock (n : nat) : Reference.date_time :=
  {| Reference.year := 2025; Reference.month := 7; Reference.day := 24;
     Reference.hour := 10; Reference.minute := 30;
     Reference.second := Z.of_nat n mod 60 |}.

Definition rt : runtime := Reference.rt clock.

(** [example_entry] of [main] in [forminator_insert_generator.py]. *)
Definition example_entry : Entry.t :=
  {| Entry.entry_id := 668;
     Entry.meta_id_start := 6031;
     Entry.first_name := lit "Xander";
     Entry.last_name := lit "Beemer";
     Entry.email := lit "xjbeemer@hotmail.com";
     Entry.phone := lit "+31 613865831";
     Entry.grade := lit "6 Dan";
     Entry.dojo_name := lit "Miko Dojo";
     Entry.birth_date := lit "02/03/1973";
     Entry.gender := lit "M";
     Entry.stripe_transaction_id := lit "pi_3RnbxeBvS0tjVNMi1g2TFBHk";
     Entry.stripe_amount := lit "350.00";
     Entry.party := true;
     Entry.t_shirt := true;
     Entry.t_shirt_size := Some (lit "L");
     Entry.date_created := None;
     Entry.currency := None |}.

(** The entry of [generate_entries.py], with the keys that
    [generate_entry_inserts] accepts and a starting identifier. *)
Definition john_doe : Entry.t :=
  {| Entry.entry_id := 338;
     Entry.meta_id_start := 1;
     Entry.first_name := lit "John";
     Entry.last_name := lit "Doe";
     Entry.email := lit "john.doe@example.com";
     Entry.phone := lit "+33 6 12 34 56 78";
     Entry.grade := lit "Daishihan";
     Entry.dojo_name := lit "Example Dojo";
     Entry.birth_date := lit "15/06/1980";
     Entry.gender := lit "M";
     Entry.stripe_transaction_id := lit "pi_1A2B3C4D5E6F7G8H9I0J1K2L";
     Entry.stripe_amount := lit "450.00";
     Entry.party := true;
     Entry.t_shirt := false;
     Entry.t_shirt_size := Some (lit "S");
     Entry.date_created := Some (lit "15/06/2025");
     Entry.currency := None |}.

(** An entry without party and t-shirt, created at a given time. *)
Definition plain_entry : Entry.t :=
  {| Entry.entry_id := 12;
     Entry.meta_id_start := 100;
     Entry.first_name := lit "Zoé";
     Entry.last_name := lit "O'Brien";
     Entry.email := lit "zoe@example.com";
     Entry.phone := empty_str;
     Entry.grade := lit "1 Kyu";
     Entry.dojo_name := lit "Dojo";
     Entry.birth_date := lit "01/02/1990";
     Entry.gender := lit "F";
     Entry.stripe_transaction_id := lit "pi_test";
     Entry.stripe_amount := lit "99.50";
     Entry.party := false;
     Entry.t_shirt := false;
     Entry.t_shirt_size := None;
     Entry.date_created := Some (lit "2025-06-15 09:00:00");
     Entry.currency := Some (lit "USD") |}.

(** The float 20.0. *)
Definition twenty : pyfloat := PyFin false 5 2.

End Example.

(* ================================================================== *)
(** ** The entry points

    [main] of [forminator_insert_generator.py] and [main] of
    [generate_entries.py]; standard output is the list of the lines
    printed. *)

(** [main] of [forminator_insert_generator.py]. *)
Definition main (rt : runtime) : prog (list pystr) :=
  (queries <- generate_entry_inserts_kw rt Example.example_entry ;;
   d <- datetime_now rt ;;
   ret ([ lit "-- Forminator Form Entry Meta INSERT Queries";
          lit "-- Generated: " ++ strftime_stamp rt d;
          lit "-- Entry ID: "
            ++ str_of_int (Entry.entry_id Example.example_entry);
          empty_str ]
        ++ queries
        ++ [ empty_str;
             lit "-- Total queries generated: "
               ++ str_of_int (Z.of_nat (length queries)) ]))%prog.

(** The values of a dictionary of keyword arguments. *)
Inductive pyvalue : Type :=
| VInt (z : Z)
| VStr (s : pystr)
| VBool (b : bool)
| VNone.

(** The parameters of [generate_entry_inserts] after [self]: those
    without a default, and those with one. *)
Definition required_parameters : list pystr :=
  [ lit "entry_id"; lit "meta_id_start"; lit "first_name"; lit "last_name";
    lit "email"; lit "phone"; lit "grade"; lit "dojo_name"; lit "birth_date";
    lit "gender"; lit "stripe_transaction_id"; lit "stripe_amount" ].

Definition optional_parameters : list pystr :=
  [ lit "party"; lit "t_shirt"; lit "t_shirt_size"; lit "date_created";
    lit "currency" ].

Definition mem (k : pystr) (l : list pystr) : bool := existsb (pystr_eqb k) l.

(** What the call [f( **kwargs )] does before the body runs: a keyword
    that is no parameter, or a parameter without default that is not
    given, is a [TypeError]. *)
Inductive binding : Type :=
| Bound
| UnexpectedKeyword (key : pystr)
| MissingArgument (name : pystr).

Definition bind_keywords (kwargs : list (pystr * pyvalue)) : binding :=
  match find (fun k => negb (mem k (required_parameters ++ optional_parameters)))
             (map fst kwargs) with
  | Some k => UnexpectedKeyword k
  | None =>
      match find (fun p => negb (mem p (map fst kwargs))) required_parameters with
      | Some p => MissingArgument p
      | None => Bound
      end
  end.

(** [example_entry] of [main] in [generate_entries.py]. *)
Definition generate_entries_example : list (pystr * pyvalue) :=
  [ (lit "entry_id", VInt 338);
    (lit "first_name", VStr (lit "John"));
    (lit "last_name", VStr (lit "Doe"));
    (lit "email", VStr (lit "john.doe@example.com"));
    (lit "phone", VStr (lit "+33 6 12 34 56 78"));
    (lit "grade", VStr (lit "Daishihan"));
    (lit "dojo_name", VStr (lit "Example Dojo"));
    (lit "birth_date", VStr (lit "15/06/1980"));
    (lit "gender", VStr (lit "M"));
    (lit "stripe_transaction_id", VStr (lit "pi_1A2B3C4D5E6F7G8H9I0J1K2L"));
    (lit "stripe_amount", VStr (lit "450.00"));
    (lit "party", VBool true);
    (lit "t_shirt", VBool false);
    (lit "t_shirt_size", VStr (lit "S"));
    (lit "party_participants", VStr (lit "2"));
    (lit "date_created", VStr (lit "15/06/2025"));
    (lit "ffst_id", VStr (lit "M000000")) ].

(** [d[key]] for a key that is present. *)
Fixpoint lookup (key : pystr) (d : list (pystr * pyvalue)) : option pyvalue :=
  match d with
  | [] => None
  | (k, v) :: rest => if pystr_eqb k key then Some v else lookup key rest
  end.

(** The arguments of a call that is bound, with the defaults filled in;
    [None] when a value is not of the annotated type. *)
Definition entry_of_keywords (d : list (pystr * pyvalue)) : option Entry.t :=
  let str (k : string) := match lookup (lit k) d with Some (VStr s) => Some s | _ => None end in
  let int (k : string) := match lookup (lit k) d with Some (VInt z) => Some z | _ => None end in
  let flag (k : string) := match lookup (lit k) d with
                | Some (VBool b) => Some b
                | None => Some false
                | _ => None
                end in
  let opt (k : string) := match lookup (lit k) d with
               | Some (VStr s) => Some (Some s)
               | Some VNone | None => Some None
               | _ => None
               end in
  match int "entry_id"%string, int "meta_id_start"%string,
        str "first_name"%string, str "last_name"%string,
        str "email"%string, str "phone"%string, str "grade"%string,
        str "dojo_name"%string with
  | Some a1, Some a2, Some a3, Some a4, Some a5, Some a6, Some a7, Some a8 =>
      match str "birth_date"%string, str "gender"%string,
            str "stripe_transaction_id"%string, str "stripe_amount"%string,
            flag "party"%string, flag "t_shirt"%string,
            opt "t_shirt_size"%string, opt "date_created"%string with
      | Some a9, Some a10, Some a11, Some a12, Some a13, Some a14,
        Some a15, Some a16 =>
          match lookup (lit "currency") d with
          | Some (VStr c) =>
              Some (Entry.Build_t a1 a2 a3 a4 a5 a6 a7 a8 a9 a10 a11 a12
                      a13 a14 a15 a16 (Some c))
          | None =>
              Some (Entry.Build_t a1 a2 a3 a4 a5 a6 a7 a8 a9 a10 a11 a12
                      a13 a14 a15 a16 None)
          | _ => None
          end
      | _, _, _, _, _, _, _, _ => None
      end
  | _, _, _, _, _, _, _, _ => None
  end.

(** How a run of [main] of [generate_entries.py] ends. *)
Inductive outcome : Type :=
| Printed (lines : list pystr) (t : nat)
| Raised (e : exn)
| RaisedTypeError (b : binding)
| Untyped.

(** [main] of [generate_entries.py]. *)
Definition generate_entries_main (rt : runtime) (t : nat) : outcome :=
  match bind_keywords generate_entries_example with
  | Bound =>
      match entry_of_keywords generate_entries_example with
      | Some entry =>
          match (queries <- generate_entry_inserts_kw rt entry ;;
                 d <- datetime_now rt ;;
                 ret ([ lit "-- Forminator Form Entry Meta INSERT Queries";
                        lit "-- Generated: " ++ strftime_stamp rt d;
                        lit "-- Entry ID: "
                          ++ match lookup (lit "entry_id")
                                     generate_entries_example with
                             | Some (VInt z) => str_of_int z
                             | _ => []
                             end;
                        empty_str ]
                      ++ queries
                      ++ [ empty_str;
                           lit "-- Total queries generated: "
                             ++ str_of_int (Z.of_nat (length queries)) ]))%prog
                  t with
          | Ok (lines, t') => Printed lines t'
          | Raise e => Raised e
          end
      | None => Untyped
      end
  | b => RaisedTypeError b
  end.

(* ================================================================== *)
(** ** Reading the output back

    The readers below are the consumers of the generator's output, used
    to state what the output means: MySQL reading a quoted string and an
    [INSERT] statement, and PHP reading a serialized value by its byte
    counts. *)

(** The text after the prefix [p]. *)
Definition expect (p s : list Z) : option (list Z) :=
  if starts_with p s then Some (skipn (length p) s) else None.

(** What a backslash followed by [x] stands for in a MySQL string. *)
Definition sql_unescape (x : Z) : pystr :=
  if x =? 48 then [0]
  else if x =? 98 then [8]
  else if x =? 110 then [10]
  else if x =? 114 then [13]
  else if x =? 116 then [9]
  else if x =? 90 then [26]
  else if (x =? 37) || (x =? 95) then [92; x]
  else [x].

(** The string that starts behind an opening quote: its characters up to
    the quote that closes it, and the text behind that quote.  A backslash
    escapes the next character and a doubled quote is a quote; [None] when
    the string is not closed. *)
Fixpoint read_sql_literal (s : pystr) : option (pystr * pystr) :=
  match s with
  | [] => None
  | c :: r =>
      if c =? 39 then
        match r with
        | x :: r' =>
            if x =? 39 then
              match read_sql_literal r' with
              | Some (body, rest) => Some (39 :: body, rest)
              | None => None
              end
            else Some ([], r)
        | [] => Some ([], [])
        end
      else if c =? 92 then
        match r with
        | x :: r' =>
            match read_sql_literal r' with
            | Some (body, rest) => Some (sql_unescape x ++ body, rest)
            | None => None
            end
        | [] => None
        end
      else
        match read_sql_literal r with
        | Some (body, rest) => Some (c :: body, rest)
        | None => None
        end
  end.

(** An integer up to the next comma. *)
Definition read_number (s : pystr) : option (Z * pystr) :=
  let digits := until 44 s in
  if truthy digits then
    match read_int digits with
    | Some n => Some (n, skipn (length digits) s)
    | None => None
    end
  else None.

(** A row of the table [wp_frmt_form_entry_meta]. *)
Record row : Type := {
  row_meta_id : Z;
  row_entry_id : Z;
  row_meta_key : pystr;
  row_meta_value : pystr;
  row_date_created : pystr;
  row_date_updated : pystr
}.

(** The row a statement inserts. *)
Definition read_statement (statement : pystr) : option row :=
  match expect statement_head statement with
  | None => None
  | Some s =>
  match read_number s with
  | None => None
  | Some (meta_id, s) =>
  match expect (lit ", ") s with
  | None => None
  | Some s =>
  match read_number s with
  | None => None
  | Some (entry_id, s) =>
  match expect (lit ", '") s with
  | None => None
  | Some s =>
  match read_sql_literal s with
  | None => None
  | Some (key, s) =>
  match expect (lit ", '") s with
  | None => None
  | Some s =>
  match read_sql_literal s with
  | None => None
  | Some (value, s) =>
  match expect (lit ", '") s with
  | None => None
  | Some s =>
  match read_sql_literal s with
  | None => None
  | Some (created, s) =>
  match expect (lit ", '") s with
  | None => None
  | Some s =>
  match read_sql_literal s with
  | None => None
  | Some (updated, s) =>
      if pystr_eqb s (lit ");")
      then Some {| row_meta_id := meta_id; row_entry_id := entry_id;
                   row_meta_key := key; row_meta_value := value;
                   row_date_created := created; row_date_updated := updated |}
      else None
  end end end end end end end end end end end end.

(** Neither a single quote nor a backslash. *)
Definition plain (s : pystr) : bool :=
  forallb (fun c => negb ((c =? 39) || (c =? 92))) s.

(** The number of single quotes and backslashes. *)
Definition specials (s : pystr) : nat :=
  length (filter (fun c => (c =? 39) || (c =? 92)) s).

(** Only code points below 128. *)
Definition is_ascii (s : pystr) : bool := forallb (fun c => c <? 128) s.

(** The rows a table of keys and values stands for. *)
Fixpoint rows_of (meta_id entry_id : Z) (date_created : pystr)
    (fields : list (pystr * pystr)) : list (option row) :=
  match fields with
  | [] => []
  | (key, value) :: rest =>
      Some {| row_meta_id := meta_id; row_entry_id := entry_id;
              row_meta_key := key; row_meta_value := value;
              row_date_created := date_created;
              row_date_updated := lit "0000-00-00 00:00:00" |}
      :: rows_of (meta_id + 1) entry_id date_created rest
  end.

(** No two strings of the list are equal. *)
Fixpoint distinct (l : list pystr) : bool :=
  match l with
  | [] => true
  | k :: rest => negb (mem k rest) && distinct rest
  end.

(** *** PHP's reader *)

(** A serialized string [s:<n>:"<n bytes>"]: the bytes, and what is
    behind the closing quote. *)
Definition unserialize_string (bytes : list Z) : option (list Z * list Z) :=
  match expect (lit "s:") bytes with
  | None => None
  | Some s =>
      let digits := until 58 s in
      match read_int digits with
      | None => None
      | Some n =>
          if truthy digits && (0 <=? n) then
            match expect [58; dq] (skipn (length digits) s) with
            | None => None
            | Some s =>
                let payload := firstn (Z.to_nat n) s in
                if Z.of_nat (length payload) =? n then
                  match expect [dq] (skipn (Z.to_nat n) s) with
                  | Some rest => Some (payload, rest)
                  | None => None
                  end
                else None
            end
          else None
      end
  end.

(** A value is a string or a double, the latter kept as its text. *)
Inductive php_value : Type :=
| PhpString (bytes : list Z)
| PhpDouble (text : list Z).

(** A value and the semicolon that ends it. *)
Definition unserialize_value (bytes : list Z) : option (php_value * list Z) :=
  match expect (lit "d:") bytes with
  | Some s =>
      let text := until 59 s in
      if truthy text then
        match expect [59] (skipn (length text) s) with
        | Some rest => Some (PhpDouble text, rest)
        | None => None
        end
      else None
  | None =>
      match unserialize_string bytes with
      | Some (payload, s) =>
          match expect [59] s with
          | Some rest => Some (PhpString payload, rest)
          | None => None
          end
      | None => None
      end
  end.

Fixpoint unserialize_values (count : nat) (bytes : list Z)
    : option (list php_value * list Z) :=
  match count with
  | O => Some ([], bytes)
  | S k =>
      match unserialize_value bytes with
      | Some (v, s) =>
          match unserialize_values k s with
          | Some (vs, rest) => Some (v :: vs, rest)
          | None => None
          end
      | None => None
      end
  end.

Fixpoint pair_up (l : list php_value) : list (php_value * php_value) :=
  match l with
  | k :: v :: rest => (k, v) :: pair_up rest
  | _ => []
  end.

(** An array [a:<n>:{...}] of [n] keys and values, which must be the
    whole text. *)
Definition unserialize_array (bytes : list Z)
    : option (list (php_value * php_value)) :=
  match expect (lit "a:") bytes with
  | None => None
  | Some s =>
      let digits := until 58 s in
      match read_int digits with
      | None => None
      | Some n =>
          if truthy digits && (0 <=? n) then
            match expect (lit ":{") (skipn (length digits) s) with
            | None => None
            | Some s =>
                match unserialize_values (2 * Z.to_nat n) s with
                | Some (vs, rest) =>
                    if pystr_eqb rest (lit "}") then Some (pair_up vs)
                    else None
                | None => None
                end
            end
          else None
      end
  end.

(** The bytes of a serialized string whose payload is [payload]. *)
Definition serialized (payload : list Z) : list Z :=
  lit "s:" ++ str_of_int (Z.of_nat (length payload)) ++ lit ":"
  ++ [dq] ++ payload ++ [dq].

(* ================================================================== *)
(** * Properties *)

Lemma ok_pair_inj {A B : Type} (a a' : A) (b b' : B) :
  Ok (a, b) = Ok (a', b') -> a = a' /\ b = b'.
Proof. intros H. inversion H. split; reflexivity. Qed.

(** ** Strings *)

Lemma starts_with_app (p s : pystr) : starts_with p (p ++ s) = true.
Proof.
  induction p as [|a p IH]; simpl.
  - reflexivity.
  - rewrite Z.eqb_refl. exact IH.
Qed.

Lemma skipn_length_app (p s : pystr) : skipn (length p) (p ++ s) = s.
Proof. induction p as [|a p IH]; simpl; [reflexivity | exact IH]. Qed.

Lemma chars_uint_chars (u : Decimal.uint) : chars_uint (uint_chars u) = Some u.
Proof. induction u; simpl; try rewrite IHu; reflexivity. Qed.

Lemma uint_chars_digits (u : Decimal.uint) :
  forallb int_char (uint_chars u) = true.
Proof. induction u; simpl; try rewrite IHu; reflexivity. Qed.

Lemma str_of_int_chars (z : Z) : forallb int_char (str_of_int z) = true.
Proof.
  unfold str_of_int. destruct (Z.to_int z); simpl; apply uint_chars_digits.
Qed.

Lemma uint_chars_head (u : Decimal.uint) :
  match uint_chars u with
  | [] => True
  | c :: _ => (c =? 45) = false
  end.
Proof. destruct u; simpl; auto. Qed.

Lemma read_int_str_of_int (z : Z) : read_int (str_of_int z) = Some z.
Proof.
  unfold str_of_int.
  destruct (Z.to_int z) as [u|u] eqn:E.
  - pose proof (uint_chars_head u) as H.
    pose proof (chars_uint_chars u) as R.
    assert (Hr : read_int (uint_chars u)
                 = option_map (fun u => Z.of_int (Decimal.Pos u))
                     (chars_uint (uint_chars u))).
    { destruct (uint_chars u) as [|c r]; [reflexivity|].
      unfold read_int.
      destruct c as [|p|p]; try reflexivity.
      do 6 (destruct p as [p|p|]; try reflexivity).
      discriminate H. }
    rewrite Hr, R. cbn [option_map]. rewrite <- E. f_equal.
    apply DecimalZ.of_to.
  - unfold read_int. rewrite chars_uint_chars. cbn [option_map].
    rewrite <- E. f_equal. apply DecimalZ.of_to.
Qed.

Lemma until_app (c : Z) (s r : pystr) :
  forallb (fun x => negb (x =? c)) s = true ->
  until c (s ++ c :: r) = s.
Proof.
  induction s as [|x s IH]; simpl; intros H.
  - rewrite Z.eqb_refl. reflexivity.
  - apply andb_prop in H. destruct H as [Hx Hs].
    destruct (x =? c); [discriminate|]. rewrite IH by exact Hs. reflexivity.
Qed.

Lemma forallb_impl {A : Type} (f g : A -> bool) (l : list A) :
  (forall x, f x = true -> g x = true) ->
  forallb f l = true -> forallb g l = true.
Proof.
  intros Hfg. induction l as [|a l IH]; simpl; [reflexivity|].
  intros H. apply andb_prop in H. destruct H as [Ha Hl].
  rewrite (Hfg _ Ha), (IH Hl). reflexivity.
Qed.

Lemma str_of_int_no_comma (z : Z) :
  forallb (fun x => negb (x =? 44)) (str_of_int z) = true.
Proof.
  apply forallb_impl with (f := int_char); [|apply str_of_int_chars].
  intros x. unfold int_char. intros H.
  destruct (x =? 44) eqn:E; [|reflexivity].
  apply Z.eqb_eq in E. subst x. discriminate H.
Qed.

Lemma str_of_int_inj (a b : Z) : str_of_int a = str_of_int b -> a = b.
Proof.
  intros H. apply (f_equal read_int) in H.
  rewrite !read_int_str_of_int in H. congruence.
Qed.

(** ** UTF-8 *)

Lemma encode_char_ok (c : Z) :
  is_surrogate c = false ->
  exists bs, encode_char c = Ok bs /\ length bs = char_width c.
Proof.
  intros H. unfold encode_char, char_width. rewrite H.
  destruct (c <? 128); [eexists; split; reflexivity|].
  destruct (c <? 2048); [eexists; split; reflexivity|].
  destruct (c <? 65536); eexists; split; reflexivity.
Qed.

Lemma encode_char_surrogate (c : Z) :
  is_surrogate c = true -> encode_char c = Raise UnicodeEncodeError.
Proof.
  intros H. unfold encode_char. rewrite H.
  unfold is_surrogate in H. apply andb_prop in H. destruct H as [H1 H2].
  apply Z.leb_le in H1. apply Z.leb_le in H2.
  destruct (c <? 128) eqn:E1; [apply Z.ltb_lt in E1; lia|].
  destruct (c <? 2048) eqn:E2; [apply Z.ltb_lt in E2; lia|].
  reflexivity.
Qed.

Lemma encode_utf8_encodable (s : pystr) :
  encodable s = true ->
  exists bytes, encode_utf8 s = Ok bytes /\ length bytes = utf8_width s.
Proof.
  induction s as [|c s IH]; simpl; intros H.
  - exists []. split; reflexivity.
  - apply andb_prop in H. destruct H as [Hc Hs].
    apply negb_true_iff in Hc.
    destruct (encode_char_ok c Hc) as [bs [Eb Lb]].
    destruct (IH Hs) as [rest [Er Lr]].
    exists (bs ++ rest). rewrite Eb, Er. simpl. split; [reflexivity|].
    rewrite length_app. congruence.
Qed.

Lemma encode_utf8_not_encodable (s : pystr) :
  encodable s = false -> encode_utf8 s = Raise UnicodeEncodeError.
Proof.
  induction s as [|c s IH]; simpl; intros H; [discriminate|].
  destruct (is_surrogate c) eqn:Hc.
  - rewrite (encode_char_surrogate c Hc). reflexivity.
  - simpl in H. destruct (encode_char_ok c Hc) as [bs [Eb _]].
    rewrite Eb. simpl. rewrite (IH H). reflexivity.
Qed.

Lemma php_serialize_string_encodable (s : pystr) :
  encodable s = true ->
  php_serialize_string s
  = Ok (lit "s:" ++ str_of_int (Z.of_nat (utf8_width s)) ++ lit ":" ++ quoted s).
Proof.
  intros H. destruct (encode_utf8_encodable s H) as [bytes [E L]].
  unfold php_serialize_string. rewrite E. simpl. rewrite L. reflexivity.
Qed.

Lemma php_serialize_string_not_encodable (s : pystr) :
  encodable s = false -> php_serialize_string s = Raise UnicodeEncodeError.
Proof.
  intros H. unfold php_serialize_string.
  rewrite (encode_utf8_not_encodable s H). reflexivity.
Qed.

Lemma encodable_app (a b : pystr) :
  encodable (a ++ b) = encodable a && encodable b.
Proof. unfold encodable. apply forallb_app. Qed.

Lemma encodable_str_of_int (z : Z) : encodable (str_of_int z) = true.
Proof.
  apply forallb_impl with (f := int_char); [|apply str_of_int_chars].
  intros x. unfold int_char, is_surrogate. intros H.
  apply negb_true_iff. apply andb_false_iff.
  destruct (55296 <=? x) eqn:E; [|left; reflexivity].
  apply Z.leb_le in E. right.
  apply orb_prop in H. destruct H as [H|H].
  - apply andb_prop in H. destruct H as [_ H]. apply Z.leb_le in H. lia.
  - apply Z.eqb_eq in H. lia.
Qed.

(** The encoder at the ends of the one-, two-, three- and four-byte
    ranges and around the surrogates. *)
Example encode_utf8_boundaries :
  encode_utf8 [127; 128; 2047; 2048; 55295; 57344; 65535; 65536; 1114111]
  = Ok [127; 194; 128; 223; 191; 224; 160; 128; 237; 159; 191; 238; 128; 128;
        239; 191; 191; 240; 144; 128; 128; 244; 143; 191; 191].
Proof. vm_compute. reflexivity. Qed.

Example lit_decodes :
  lit "Féminin / Female € Zoé"
  = [70; 233; 109; 105; 110; 105; 110; 32; 47; 32; 70; 101; 109; 97; 108; 101;
     32; 8364; 32; 90; 111; 233].
Proof. vm_compute. reflexivity. Qed.

(** C1, the claim as stated fails: a string that holds a lone surrogate
    (here the one-character string U+D800) has no UTF-8 encoding, and
    [php_serialize_string] raises [UnicodeEncodeError] instead of
    returning a string. *)
Lemma php_serialize_string_lone_surrogate :
  php_serialize_string [55296] = Raise UnicodeEncodeError.
Proof. reflexivity. Qed.

(** C1, amended: for every string [s] without a lone surrogate,
    [php_serialize_string s] returns exactly [s:<n>:"<s>"], where [n] is
    the number of bytes of the UTF-8 encoding of [s] (the width of each
    code point summed, not the number of characters), the quotes are
    literal and [s] stands between them unchanged; for a string with a lone
    surrogate it raises [UnicodeEncodeError].  The byte count and the
    character count differ on ["€ 20"]: six bytes, four characters. *)
Theorem php_serialize_string_format (s : pystr) :
  (encodable s = true ->
   exists bytes,
     encode_utf8 s = Ok bytes /\
     length bytes = utf8_width s /\
     php_serialize_string s
     = Ok (lit "s:" ++ str_of_int (Z.of_nat (length bytes)) ++ lit ":"
           ++ [dq] ++ s ++ [dq])) /\
  (encodable s = false -> php_serialize_string s = Raise UnicodeEncodeError) /\
  (utf8_width (lit "€ 20") = 6%nat /\ length (lit "€ 20") = 4%nat).
Proof.
  split; [|split].
  - intros H. destruct (encode_utf8_encodable s H) as [bytes [E L]].
    exists bytes. split; [exact E|]. split; [exact L|].
    unfold php_serialize_string. rewrite E. reflexivity.
  - apply php_serialize_string_not_encodable.
  - split; reflexivity.
Qed.

Lemma php_serialize_string_format_witness :
  encodable (lit "€ 20") = true /\
  php_serialize_string (lit "€ 20") = Ok (lit "s:6:" ++ [dq] ++ lit "€ 20" ++ [dq]).
Proof.
  split; [reflexivity|].
  destruct (php_serialize_string_format (lit "€ 20")) as [H _].
  destruct (H eq_refl) as [bytes [E [L P]]].
  rewrite P. rewrite L. reflexivity.
Defined.

(** ** The reference runtime on examples *)

Example reference_strptime :
  map (fun s => match Reference.strptime_stamp s with
                | Ok d => Reference.strftime_day d
                | Raise _ => lit "ValueError"
                end)
    [ lit "2025-06-15 12:00:00"; lit "2025-6-5 1:2:3"; lit "2024-02-29 00:00:00";
      lit "2025-02-29 00:00:00"; lit "2025-06-15 12:00:60";
      lit "2025-06-15 12:00:00 "; lit "2025-13-15 12:00:00";
      lit "0000-01-01 00:00:00"; lit "15/06/2025" ]
  = [ lit "15/06/2025"; lit "05/06/2025"; lit "29/02/2024";
      lit "ValueError"; lit "ValueError"; lit "ValueError"; lit "ValueError";
      lit "ValueError"; lit "ValueError" ].
Proof. vm_compute. reflexivity. Qed.

Example reference_float :
  map (fun s => match Reference.float_of_str s with
                | Ok x => Reference.str_of_float x
                | Raise _ => lit "ValueError"
                end)
    [ lit "0.1"; lit "1e16"; lit "1e15"; lit "0.0001"; lit "0.00001";
      lit "-0.0"; lit "1e400"; lit "350.00"; lit " 99.50 "; lit "2.5e-3";
      lit "123456789012345678"; lit "1_000.5"; lit "nan"; lit "-Infinity";
      lit "1,5"; lit "12 euros"; empty_str ]
  = [ lit "0.1"; lit "1e+16"; lit "1000000000000000.0"; lit "0.0001";
      lit "1e-05"; lit "-0.0"; lit "inf"; lit "350.0"; lit "99.5";
      lit "0.0025"; lit "1.2345678901234568e+17"; lit "1000.5"; lit "nan";
      lit "-inf"; lit "ValueError"; lit "ValueError"; lit "ValueError" ].
Proof. vm_compute. reflexivity. Qed.

Example reference_int_of_float :
  map (fun s => match Reference.float_of_str s with
                | Ok x => int_of_float x
                | Raise e => Raise e
                end)
    [ lit "99.50"; lit "-7.9"; lit "20.9"; lit "inf"; lit "nan"; lit "1e999" ]
  = [ Ok 99; Ok (-7); Ok 20; Raise OverflowError; Raise ValueError;
      Raise OverflowError ].
Proof. vm_compute. reflexivity. Qed.

(** ** Escaping *)

Lemma replace_char (c : Z) (new s : pystr) :
  replace [c] new s = flat_map (fun x => if x =? c then new else [x]) s.
Proof.
  unfold replace. induction s as [|x s IH]; [reflexivity|].
  cbn [replace_from starts_with length Nat.pred flat_map].
  rewrite (Z.eqb_sym c x), andb_true_r.
  destruct (x =? c); cbn [app]; rewrite IH; reflexivity.
Qed.

Lemma escape_sql_string_chars (s : pystr) :
  escape_sql_string s = flat_map escape_char s.
Proof.
  unfold escape_sql_string. change (lit "'") with [39].
  rewrite !replace_char.
  induction s as [|x s IH]; [reflexivity|].
  cbn [flat_map]. rewrite flat_map_app, IH. f_equal.
  unfold escape_char.
  destruct (x =? 92) eqn:E92; [reflexivity|].
  cbn [flat_map app]. rewrite app_nil_r. reflexivity.
Qed.

(** C6: [escape_sql_string] doubles each backslash and then turns each
    single quote into backslash-quote, so that every character of the
    input is escaped once (the backslash that escapes a quote is not
    doubled); [O'Brien\] becomes [O\'Brien\\]; in the other order the
    backslash put before a quote would be doubled. *)
Theorem escape_sql_string_backslash_first :
  (forall s, escape_sql_string s = replace [39] [92; 39] (replace [92] [92; 92] s)) /\
  (forall s, escape_sql_string s = flat_map escape_char s) /\
  escape_sql_string (lit "O'Brien" ++ [92]) = lit "O" ++ [92] ++ lit "'Brien" ++ [92; 92] /\
  replace [92] [92; 92] (replace [39] [92; 39] (lit "O'Brien" ++ [92]))
  = lit "O" ++ [92; 92] ++ lit "'Brien" ++ [92; 92].
Proof.
  split; [|split; [|split]].
  - intros s. reflexivity.
  - apply escape_sql_string_chars.
  - reflexivity.
  - reflexivity.
Qed.

(** ** Statements *)

Lemma insert_statement_head (meta_id entry_id : Z)
    (meta_key meta_value date_created : pystr) :
  insert_statement meta_id entry_id meta_key meta_value date_created
  = statement_head ++ str_of_int meta_id ++ lit ", " ++ str_of_int entry_id
    ++ lit ", '" ++ meta_key ++ lit "', '" ++ escape_sql_string meta_value
    ++ lit "', '" ++ date_created ++ lit "', '0000-00-00 00:00:00');".
Proof.
  unfold insert_statement, statement_head.
  repeat rewrite <- app_assoc. reflexivity.
Qed.

Lemma meta_id_of_insert_statement (meta_id entry_id : Z)
    (meta_key meta_value date_created : pystr) :
  meta_id_of (insert_statement meta_id entry_id meta_key meta_value date_created)
  = Some meta_id.
Proof.
  rewrite insert_statement_head. unfold meta_id_of.
  rewrite starts_with_app, skipn_length_app.
  change (lit ", ") with (44 :: [32]). rewrite <- app_comm_cons.
  rewrite until_app by apply str_of_int_no_comma.
  apply read_int_str_of_int.
Qed.

Lemma generate_insert_query_given (rt : runtime) (meta_id entry_id : Z)
    (meta_key meta_value date_created : pystr) (t : nat) :
  generate_insert_query rt meta_id entry_id meta_key meta_value
    (Some date_created) t
  = Ok (insert_statement meta_id entry_id meta_key meta_value date_created, t).
Proof. reflexivity. Qed.

(** C5, the claim as stated fails: the key [it's] is written into the
    statement as it is, while its escaped form is [it\'s]. *)
Lemma generate_insert_query_key_verbatim :
  generate_insert_query Example.rt 7 3 (lit "it's") (lit "it's")
    (Some (lit "2025-07-24 10:30:00")) 0%nat
  = Ok (lit "INSERT INTO `wp_frmt_form_entry_meta` (`meta_id`, `entry_id`, `meta_key`, `meta_value`, `date_created`, `date_updated`) VALUES (7, 3, 'it's', 'it\'s', '2025-07-24 10:30:00', '0000-00-00 00:00:00');",
        0%nat) /\
  escape_sql_string (lit "it's") = lit "it\'s" /\
  pystr_eqb
    (insert_statement 7 3 (lit "it's") (lit "it's") (lit "2025-07-24 10:30:00"))
    (insert_statement_key_escaped 7 3 (lit "it's") (lit "it's")
       (lit "2025-07-24 10:30:00"))
  = false.
Proof. split; [|split]; vm_compute; reflexivity. Qed.

(** C5, amended: in every rendered statement the field value is escaped
    before it is embedded (backslash doubled, then single quote escaped to
    backslash-quote), and the field key is embedded as it is; the sixteen
    keys the row builder uses contain neither character, so escaping would
    leave each of them unchanged. *)
Theorem generate_insert_query_escapes_value (rt : runtime)
    (meta_id entry_id : Z) (meta_key meta_value : pystr)
    (date_created : option pystr) (t : nat) :
  generate_insert_query rt meta_id entry_id meta_key meta_value date_created t
  = Ok (statement_head ++ str_of_int meta_id ++ lit ", " ++ str_of_int entry_id
        ++ lit ", '" ++ meta_key
        ++ lit "', '" ++ replace [39] [92; 39] (replace [92] [92; 92] meta_value)
        ++ lit "', '"
        ++ match date_created with
           | Some s => s
           | None => strftime_stamp rt (now rt t)
           end
        ++ lit "', '0000-00-00 00:00:00');",
        match date_created with Some _ => t | None => S t end) /\
  Forall (fun key => escape_sql_string key = key) field_keys.
Proof.
  split.
  - destruct date_created as [s|];
      cbv [generate_insert_query bind ret datetime_now];
      rewrite insert_statement_head; unfold escape_sql_string;
      change (lit "'") with [39]; reflexivity.
  - unfold field_keys.
    repeat (apply Forall_cons; [vm_compute; reflexivity|]).
    apply Forall_nil.
Qed.

(** ** The composite values *)

Lemma int_of_float_quot (neg : bool) (m : N) (e : Z) :
  int_of_float (PyFin neg m e) = Ok (float_num neg m e ÷ float_den e).
Proof.
  unfold int_of_float, float_num, float_den. f_equal.
  pose proof (N2Z.is_nonneg m) as Hm.
  destruct (0 <=? e) eqn:He.
  - apply Z.leb_le in He. rewrite Z.shiftl_mul_pow2 by exact He.
    destruct neg; rewrite Z.quot_1_r; reflexivity.
  - apply Z.leb_gt in He.
    assert (Hp : 0 < 2 ^ (- e)) by (apply Z.pow_pos_nonneg; lia).
    rewrite <- Z.shiftr_opp_r, Z.shiftr_div_pow2 by lia.
    destruct neg.
    + rewrite Z.quot_opp_l by lia. f_equal.
      symmetry. apply Z.quot_div_nonneg; lia.
    + symmetry. apply Z.quot_div_nonneg; lia.
Qed.

(** C7: [php_serialize_calculation] builds the text "symbol, space,
    integral part of the amount" and emits
    [a:2:{s:6:"result";d:<amount>;s:17:"formatting_result";<text encoded>;}];
    the integral part is the quotient truncated toward zero (20.75 gives
    20 and -20.75 gives -20); for the amount 20.0 and the symbol [€] the
    encoded text is [s:6:"€ 20"], six bytes for four characters. *)
Theorem php_serialize_calculation_format (rt : runtime) :
  (forall amount symbol truncated serialized,
     int_of_number amount = Ok truncated ->
     php_serialize_string (symbol ++ lit " " ++ str_of_int truncated)
     = Ok serialized ->
     php_serialize_calculation rt amount symbol
     = Ok (lit "a:2:{s:6:" ++ [dq] ++ lit "result" ++ [dq] ++ lit ";d:"
           ++ format_number rt amount
           ++ lit ";s:17:" ++ [dq] ++ lit "formatting_result" ++ [dq] ++ lit ";"
           ++ serialized ++ lit ";}")) /\
  (forall neg m e,
     int_of_number (PyFloat (PyFin neg m e))
     = Ok (float_num neg m e ÷ float_den e)) /\
  int_of_number (PyFloat (PyFin false 83 (-2))) = Ok 20 /\
  int_of_number (PyFloat (PyFin true 83 (-2))) = Ok (-20) /\
  int_of_number (PyFloat Example.twenty) = Ok 20 /\
  php_serialize_calculation rt (PyFloat Example.twenty) default_currency_symbol
  = Ok (lit "a:2:{s:6:" ++ [dq] ++ lit "result" ++ [dq] ++ lit ";d:"
        ++ str_of_float rt Example.twenty
        ++ lit ";s:17:" ++ [dq] ++ lit "formatting_result" ++ [dq] ++ lit ";"
        ++ lit "s:6:" ++ [dq] ++ lit "€ 20" ++ [dq] ++ lit ";}") /\
  length (lit "€ 20") = 4%nat /\
  encode_utf8 (lit "€ 20") = Ok [226; 130; 172; 32; 50; 48].
Proof.
  split; [|split].
  - intros amount symbol truncated serialized Hi Hs.
    unfold php_serialize_calculation. rewrite Hi. cbn [rbind].
    rewrite Hs. reflexivity.
  - intros neg m e. apply int_of_float_quot.
  - repeat split; reflexivity.
Qed.

Lemma php_serialize_calculation_format_witness :
  php_serialize_calculation Example.rt (PyFloat Example.twenty) (lit "€")
  = Ok (lit "a:2:{s:6:" ++ [dq] ++ lit "result" ++ [dq] ++ lit ";d:20.0;s:17:"
        ++ [dq] ++ lit "formatting_result" ++ [dq] ++ lit ";s:6:"
        ++ [dq] ++ lit "€ 20" ++ [dq] ++ lit ";}").
Proof.
  destruct (php_serialize_calculation_format Example.rt) as [H _].
  rewrite (H (PyFloat Example.twenty) (lit "€") 20
             (lit "s:6:" ++ [dq] ++ lit "€ 20" ++ [dq]));
    reflexivity.
Defined.

(** C8: [php_serialize_stripe] emits [a:9:{...;}] around nine key/value
    pairs joined by semicolons, the keys in the order mode, product_name,
    payment_type, amount, quantity, currency, transaction_id,
    transaction_link, status; every value is what [php_serialize_string]
    gives, the quantity is ["1"] and the link is the dashboard address
    followed by the transaction id. *)
Theorem php_serialize_stripe_format
    (transaction_id amount currency mode product_name payment_type status
     v_mode v_product v_type v_amount v_currency v_id v_link v_status : pystr) :
  php_serialize_string mode = Ok v_mode ->
  php_serialize_string product_name = Ok v_product ->
  php_serialize_string payment_type = Ok v_type ->
  php_serialize_string amount = Ok v_amount ->
  php_serialize_string currency = Ok v_currency ->
  php_serialize_string transaction_id = Ok v_id ->
  php_serialize_string
    (lit "https://dashboard.stripe.com/payments/" ++ transaction_id)
  = Ok v_link ->
  php_serialize_string status = Ok v_status ->
  exists parts,
    stripe_parts transaction_id amount currency mode product_name
      payment_type status = Ok parts /\
    length parts = 9%nat /\
    parts
    = [ lit "s:4:" ++ [dq] ++ lit "mode" ++ [dq] ++ lit ";" ++ v_mode;
        lit "s:12:" ++ [dq] ++ lit "product_name" ++ [dq] ++ lit ";" ++ v_product;
        lit "s:12:" ++ [dq] ++ lit "payment_type" ++ [dq] ++ lit ";" ++ v_type;
        lit "s:6:" ++ [dq] ++ lit "amount" ++ [dq] ++ lit ";" ++ v_amount;
        lit "s:8:" ++ [dq] ++ lit "quantity" ++ [dq] ++ lit ";"
          ++ lit "s:1:" ++ [dq] ++ lit "1" ++ [dq];
        lit "s:8:" ++ [dq] ++ lit "currency" ++ [dq] ++ lit ";" ++ v_currency;
        lit "s:14:" ++ [dq] ++ lit "transaction_id" ++ [dq] ++ lit ";" ++ v_id;
        lit "s:16:" ++ [dq] ++ lit "transaction_link" ++ [dq] ++ lit ";" ++ v_link;
        lit "s:6:" ++ [dq] ++ lit "status" ++ [dq] ++ lit ";" ++ v_status ] /\
    php_serialize_stripe transaction_id amount currency mode product_name
      payment_type status
    = Ok (lit "a:9:{" ++ join (lit ";") parts ++ lit ";}").
Proof.
  intros H1 H2 H3 H4 H6 H7 H8 H9.
  eexists. split.
  - unfold stripe_parts. rewrite H1, H2, H3, H4, H6, H7, H8, H9.
    reflexivity.
  - split; [reflexivity|]. split; [reflexivity|].
    unfold php_serialize_stripe, stripe_parts.
    rewrite H1, H2, H3, H4, H6, H7, H8, H9. reflexivity.
Qed.

Lemma php_serialize_stripe_format_witness :
  php_serialize_stripe (lit "pi_3RnbxeBvS0tjVNMi1g2TFBHk") (lit "350.00")
    (lit "EUR") (lit "live") (lit "Plan 1") (lit "One Time") (lit "COMPLETED")
  = Ok (lit "a:9:{s:4:" ++ [dq] ++ lit "mode" ++ [dq] ++ lit ";s:4:"
        ++ [dq] ++ lit "live" ++ [dq] ++ lit ";s:12:"
        ++ [dq] ++ lit "product_name" ++ [dq] ++ lit ";s:6:"
        ++ [dq] ++ lit "Plan 1" ++ [dq] ++ lit ";s:12:"
        ++ [dq] ++ lit "payment_type" ++ [dq] ++ lit ";s:8:"
        ++ [dq] ++ lit "One Time" ++ [dq] ++ lit ";s:6:"
        ++ [dq] ++ lit "amount" ++ [dq] ++ lit ";s:6:"
        ++ [dq] ++ lit "350.00" ++ [dq] ++ lit ";s:8:"
        ++ [dq] ++ lit "quantity" ++ [dq] ++ lit ";s:1:"
        ++ [dq] ++ lit "1" ++ [dq] ++ lit ";s:8:"
        ++ [dq] ++ lit "currency" ++ [dq] ++ lit ";s:3:"
        ++ [dq] ++ lit "EUR" ++ [dq] ++ lit ";s:14:"
        ++ [dq] ++ lit "transaction_id" ++ [dq] ++ lit ";s:27:"
        ++ [dq] ++ lit "pi_3RnbxeBvS0tjVNMi1g2TFBHk" ++ [dq] ++ lit ";s:16:"
        ++ [dq] ++ lit "transaction_link" ++ [dq] ++ lit ";s:65:"
        ++ [dq] ++ lit "https://dashboard.stripe.com/payments/pi_3RnbxeBvS0tjVNMi1g2TFBHk"
        ++ [dq] ++ lit ";s:6:"
        ++ [dq] ++ lit "status" ++ [dq] ++ lit ";s:9:"
        ++ [dq] ++ lit "COMPLETED" ++ [dq] ++ lit ";}").
Proof.
  destruct (php_serialize_stripe_format
              (lit "pi_3RnbxeBvS0tjVNMi1g2TFBHk") (lit "350.00")
              (lit "EUR") (lit "live") (lit "Plan 1") (lit "One Time")
              (lit "COMPLETED")
              (v_mode := lit "s:4:" ++ quoted (lit "live"))
              (v_product := lit "s:6:" ++ quoted (lit "Plan 1"))
              (v_type := lit "s:8:" ++ quoted (lit "One Time"))
              (v_amount := lit "s:6:" ++ quoted (lit "350.00"))
              (v_currency := lit "s:3:" ++ quoted (lit "EUR"))
              (v_id := lit "s:27:" ++ quoted (lit "pi_3RnbxeBvS0tjVNMi1g2TFBHk"))
              (v_link := lit "s:65:" ++ quoted
                 (lit "https://dashboard.stripe.com/payments/pi_3RnbxeBvS0tjVNMi1g2TFBHk"))
              (v_status := lit "s:9:" ++ quoted (lit "COMPLETED"))
              eq_refl eq_refl eq_refl eq_refl eq_refl eq_refl eq_refl eq_refl)
    as [parts [_ [_ [Hp H]]]].
  rewrite H, Hp. reflexivity.
Defined.

(** ** The row builder *)

Lemma gender_map_label (gender : pystr) :
  dict_get gender_map gender gender = gender_label gender.
Proof. reflexivity. Qed.

Lemma checkbox_join_both :
  join (lit ", ") [lit "Fête Finale / Final Party"; lit "T-Shirt"]
  = checkbox_text true true.
Proof. vm_compute. reflexivity. Qed.

Lemma checkbox_join_party :
  join (lit ", ") [lit "Fête Finale / Final Party"] = checkbox_text true false.
Proof. vm_compute. reflexivity. Qed.

Lemma checkbox_join_t_shirt :
  join (lit ", ") [lit "T-Shirt"] = checkbox_text false true.
Proof. vm_compute. reflexivity. Qed.

Local Ltac case_result f :=
  match goal with
  | |- context [f ?a] => destruct (f a); [|reflexivity]
  end; cbv beta iota.

Lemma generate_entry_locals_table (rt : runtime)
    (entry_id meta_id_start : Z)
    (first_name last_name email phone grade dojo_name birth_date gender
       stripe_transaction_id stripe_amount : pystr)
    (party t_shirt : bool) (t_shirt_size date_created : option pystr)
    (currency : pystr) (t : nat) :
  generate_entry_locals rt entry_id meta_id_start first_name last_name email
    phone grade dojo_name birth_date gender stripe_transaction_id
    stripe_amount party t_shirt t_shirt_size date_created currency t
  = match entry_prelude rt first_name last_name stripe_transaction_id
            stripe_amount t_shirt date_created currency t with
    | Ok (v, t') =>
        let rows := field_table entry_id v email phone grade dojo_name
                      birth_date gender party t_shirt t_shirt_size in
        Ok ({| queries := statements meta_id_start entry_id (created v) rows;
               current_meta_id := meta_id_start + Z.of_nat (length rows) |},
            t')
    | Raise e => Raise e
    end.
Proof.
  cbv [generate_entry_locals entry_prelude bind ret lift append_query
       generate_insert_query datetime_now queries current_meta_id
       field_table created submission_date calculation_value
       calculation2_value name_value stripe_value].
  rewrite gender_map_label.
  destruct date_created as [stamp|]; cbv beta iota;
    match goal with |- context [truthy ?s] => destruct (truthy s) end;
    cbv beta iota;
    try case_result (strptime_stamp rt);
    destruct t_shirt; cbv beta iota;
    case_result (php_serialize_calculation rt);
    case_result (float_of_str rt);
    case_result (php_serialize_calculation rt);
    case_result php_serialize_name;
    destruct party; destruct (truthy_opt t_shirt_size);
    cbv [andb orb]; cbv beta iota;
    case_result php_serialize_stripe;
    cbv [statements app length];
    rewrite ?checkbox_join_both, ?checkbox_join_party, ?checkbox_join_t_shirt;
    do 3 f_equal; lia.
Qed.

Lemma generate_entry_inserts_table (rt : runtime)
    (entry_id meta_id_start : Z)
    (first_name last_name email phone grade dojo_name birth_date gender
       stripe_transaction_id stripe_amount : pystr)
    (party t_shirt : bool) (t_shirt_size date_created : option pystr)
    (currency : pystr) (t : nat) :
  generate_entry_inserts rt entry_id meta_id_start first_name last_name email
    phone grade dojo_name birth_date gender stripe_transaction_id
    stripe_amount party t_shirt t_shirt_size date_created currency t
  = match entry_prelude rt first_name last_name stripe_transaction_id
            stripe_amount t_shirt date_created currency t with
    | Ok (v, t') =>
        Ok (statements meta_id_start entry_id (created v)
              (field_table entry_id v email phone grade dojo_name birth_date
                 gender party t_shirt t_shirt_size),
            t')
    | Raise e => Raise e
    end.
Proof.
  unfold generate_entry_inserts, bind.
  rewrite generate_entry_locals_table.
  destruct (entry_prelude rt first_name last_name stripe_transaction_id
              stripe_amount t_shirt date_created currency t) as [[v t']|e];
    reflexivity.
Qed.

Lemma statements_length (meta_id entry_id : Z) (date_created : pystr)
    (rows : list (pystr * pystr)) :
  length (statements meta_id entry_id date_created rows) = length rows.
Proof.
  revert meta_id. induction rows as [|[k v] rows IH]; intros meta_id.
  - reflexivity.
  - cbn [statements length]. rewrite IH. reflexivity.
Qed.

Lemma statements_nth (meta_id entry_id : Z) (date_created : pystr)
    (rows : list (pystr * pystr)) (i : nat) (q : pystr) :
  nth_error (statements meta_id entry_id date_created rows) i = Some q ->
  meta_id_of q = Some (meta_id + Z.of_nat i).
Proof.
  revert meta_id i. induction rows as [|[k v] rows IH]; intros meta_id i H.
  - destruct i; discriminate H.
  - destruct i as [|i]; cbn [statements nth_error] in H.
    + injection H as <-. rewrite meta_id_of_insert_statement.
      f_equal. cbn [Z.of_nat]. lia.
    + apply IH in H. rewrite H. f_equal. lia.
Qed.

(** C2: whenever [generate_entry_inserts] returns, the statement at
    position [i] of the returned list carries the row identifier
    [meta_id_start + i], whatever rows were left out; and the counter
    [current_meta_id] ends at [meta_id_start] plus the number of statements
    emitted, so a row that is left out has consumed no identifier. *)
Theorem row_identifiers_contiguous (rt : runtime)
    (entry_id meta_id_start : Z)
    (first_name last_name email phone grade dojo_name birth_date gender
       stripe_transaction_id stripe_amount : pystr)
    (party t_shirt : bool) (t_shirt_size date_created : option pystr)
    (currency : pystr) (t t' : nat) (loc : locals) :
  generate_entry_locals rt entry_id meta_id_start first_name last_name email
    phone grade dojo_name birth_date gender stripe_transaction_id
    stripe_amount party t_shirt t_shirt_size date_created currency t
  = Ok (loc, t') ->
  generate_entry_inserts rt entry_id meta_id_start first_name last_name email
    phone grade dojo_name birth_date gender stripe_transaction_id
    stripe_amount party t_shirt t_shirt_size date_created currency t
  = Ok (queries loc, t') /\
  (forall i q,
     nth_error (queries loc) i = Some q ->
     meta_id_of q = Some (meta_id_start + Z.of_nat i)) /\
  current_meta_id loc = meta_id_start + Z.of_nat (length (queries loc)).
Proof.
  intros H. split; [|split].
  - unfold generate_entry_inserts, bind. rewrite H. reflexivity.
  - rewrite generate_entry_locals_table in H.
    destruct (entry_prelude rt first_name last_name stripe_transaction_id
                stripe_amount t_shirt date_created currency t)
      as [[v t1]|e]; [|discriminate H].
    cbv zeta in H. apply ok_pair_inj in H. destruct H as [<- _].
    cbv [queries]. intros i q. apply statements_nth.
  - rewrite generate_entry_locals_table in H.
    destruct (entry_prelude rt first_name last_name stripe_transaction_id
                stripe_amount t_shirt date_created currency t)
      as [[v t1]|e]; [|discriminate H].
    cbv zeta in H. apply ok_pair_inj in H. destruct H as [<- _].
    cbv [queries current_meta_id]. rewrite statements_length. reflexivity.
Qed.

Lemma row_identifiers_contiguous_witness :
  exists loc t',
    generate_entry_locals Example.rt 668 6031 (lit "Xander") (lit "Beemer")
      (lit "xjbeemer@hotmail.com") (lit "+31 613865831") (lit "6 Dan")
      (lit "Miko Dojo") (lit "02/03/1973") (lit "M")
      (lit "pi_3RnbxeBvS0tjVNMi1g2TFBHk") (lit "350.00") true true
      (Some (lit "L")) None (lit "EUR") 0%nat = Ok (loc, t') /\
    (forall i q,
       nth_error (queries loc) i = Some q ->
       meta_id_of q = Some (6031 + Z.of_nat i)) /\
    current_meta_id loc = 6031 + Z.of_nat (length (queries loc)).
Proof.
  destruct (generate_entry_locals Example.rt 668 6031 (lit "Xander")
              (lit "Beemer") (lit "xjbeemer@hotmail.com")
              (lit "+31 613865831") (lit "6 Dan") (lit "Miko Dojo")
              (lit "02/03/1973") (lit "M")
              (lit "pi_3RnbxeBvS0tjVNMi1g2TFBHk") (lit "350.00") true true
              (Some (lit "L")) None (lit "EUR") 0%nat)
    as [[loc t']|e] eqn:E.
  - exists loc, t'. split; [reflexivity|].
    exact (proj2 (row_identifiers_contiguous _ _ _ _ _ _ _ _ _ _ _ _ _ _ _ _
                    _ _ _ E)).
  - exfalso. vm_compute in E. discriminate E.
Defined.

(** Writes [s + 1 + 1] as [s + 2], and so on. *)
Local Ltac fold_ids s :=
  repeat match goal with
         | |- context [s + ?a + 1] =>
             let b := eval compute in (a + 1) in
             replace (s + a + 1) with (s + b) by lia
         end.

(** C9: without party and t-shirt, the rows checkbox-2, select-2, select-3
    and select-4 are absent and twelve statements are returned, their
    identifiers running from the start value; with the t-shirt and a size
    (a non-empty text), all sixteen statements are returned, with the
    identifiers [start] to [start + 15], in the order hidden-1, hidden-2,
    calculation-1, calculation-2, name-1, email-1, phone-1, select-1,
    text-3, date-1, select-2, select-3, select-4, select-5, checkbox-2,
    stripe-ocs-1.  The values [v] are those the encoder and the runtime
    give for the entry. *)
Theorem conditional_rows (rt : runtime) (entry_id meta_id_start : Z)
    (first_name last_name email phone grade dojo_name birth_date gender
       stripe_transaction_id stripe_amount : pystr)
    (date_created : option pystr) (currency : pystr) (t t' : nat)
    (v : entry_values) :
  (forall t_shirt_size,
     entry_prelude rt first_name last_name stripe_transaction_id
       stripe_amount false date_created currency t = Ok (v, t') ->
     generate_entry_inserts rt entry_id meta_id_start first_name last_name
       email phone grade dojo_name birth_date gender stripe_transaction_id
       stripe_amount false false t_shirt_size date_created currency t
     = Ok ([ insert_statement meta_id_start entry_id
               (lit "hidden-1") (str_of_int entry_id) (created v);
             insert_statement (meta_id_start + 1) entry_id
               (lit "hidden-2") (submission_date v) (created v);
             insert_statement (meta_id_start + 2) entry_id
               (lit "calculation-1") (calculation_value v) (created v);
             insert_statement (meta_id_start + 3) entry_id
               (lit "calculation-2") (calculation2_value v) (created v);
             insert_statement (meta_id_start + 4) entry_id
               (lit "name-1") (name_value v) (created v);
             insert_statement (meta_id_start + 5) entry_id
               (lit "email-1") email (created v);
             insert_statement (meta_id_start + 6) entry_id
               (lit "phone-1") phone (created v);
             insert_statement (meta_id_start + 7) entry_id
               (lit "select-1") grade (created v);
             insert_statement (meta_id_start + 8) entry_id
               (lit "text-3") dojo_name (created v);
             insert_statement (meta_id_start + 9) entry_id
               (lit "date-1") birth_date (created v);
             insert_statement (meta_id_start + 10) entry_id
               (lit "select-5") (lit "1") (created v);
             insert_statement (meta_id_start + 11) entry_id
               (lit "stripe-ocs-1") (stripe_value v) (created v) ],
           t')) /\
  (forall party size,
     truthy size = true ->
     entry_prelude rt first_name last_name stripe_transaction_id
       stripe_amount true date_created currency t = Ok (v, t') ->
     generate_entry_inserts rt entry_id meta_id_start first_name last_name
       email phone grade dojo_name birth_date gender stripe_transaction_id
       stripe_amount party true (Some size) date_created currency t
     = Ok ([ insert_statement meta_id_start entry_id
               (lit "hidden-1") (str_of_int entry_id) (created v);
             insert_statement (meta_id_start + 1) entry_id
               (lit "hidden-2") (submission_date v) (created v);
             insert_statement (meta_id_start + 2) entry_id
               (lit "calculation-1") (calculation_value v) (created v);
             insert_statement (meta_id_start + 3) entry_id
               (lit "calculation-2") (calculation2_value v) (created v);
             insert_statement (meta_id_start + 4) entry_id
               (lit "name-1") (name_value v) (created v);
             insert_statement (meta_id_start + 5) entry_id
               (lit "email-1") email (created v);
             insert_statement (meta_id_start + 6) entry_id
               (lit "phone-1") phone (created v);
             insert_statement (meta_id_start + 7) entry_id
               (lit "select-1") grade (created v);
             insert_statement (meta_id_start + 8) entry_id
               (lit "text-3") dojo_name (created v);
             insert_statement (meta_id_start + 9) entry_id
               (lit "date-1") birth_date (created v);
             insert_statement (meta_id_start + 10) entry_id
               (lit "select-2") (gender_label gender) (created v);
             insert_statement (meta_id_start + 11) entry_id
               (lit "select-3") size (created v);
             insert_statement (meta_id_start + 12) entry_id
               (lit "select-4") (lit "1") (created v);
             insert_statement (meta_id_start + 13) entry_id
               (lit "select-5") (lit "1") (created v);
             insert_statement (meta_id_start + 14) entry_id
               (lit "checkbox-2") (checkbox_text party true) (created v);
             insert_statement (meta_id_start + 15) entry_id
               (lit "stripe-ocs-1") (stripe_value v) (created v) ],
           t')).
Proof.
  split.
  - intros t_shirt_size H.
    rewrite generate_entry_inserts_table, H.
    cbv [field_table statements app andb orb].
    fold_ids meta_id_start. reflexivity.
  - intros party size Hs H.
    rewrite generate_entry_inserts_table, H.
    cbv [field_table truthy_opt opt_str andb]. rewrite Hs.
    destruct party; cbv [statements app orb];
      fold_ids meta_id_start; reflexivity.
Qed.

Lemma conditional_rows_witness :
  lines_returned
    (generate_entry_inserts Example.rt 12 100 (lit "Zoé") (lit "O'Brien")
       (lit "zoe@example.com") empty_str (lit "1 Kyu") (lit "Dojo")
       (lit "01/02/1990") (lit "F") (lit "pi_test") (lit "99.50")
       false false None (Some (lit "2025-06-15 09:00:00")) (lit "USD") 0%nat)
  = Some 12%nat /\
  lines_returned
    (generate_entry_inserts Example.rt 668 6031 (lit "Xander") (lit "Beemer")
       (lit "xjbeemer@hotmail.com") (lit "+31 613865831") (lit "6 Dan")
       (lit "Miko Dojo") (lit "02/03/1973") (lit "M")
       (lit "pi_3RnbxeBvS0tjVNMi1g2TFBHk") (lit "350.00")
       true true (Some (lit "L")) None (lit "EUR") 0%nat)
  = Some 16%nat.
Proof.
  split.
  - destruct (entry_prelude Example.rt (lit "Zoé") (lit "O'Brien")
                (lit "pi_test") (lit "99.50") false
                (Some (lit "2025-06-15 09:00:00")) (lit "USD") 0%nat)
      as [[v t']|e] eqn:E.
    + rewrite (proj1 (conditional_rows Example.rt 12 100 (lit "Zoé")
                        (lit "O'Brien") (lit "zoe@example.com") empty_str
                        (lit "1 Kyu") (lit "Dojo") (lit "01/02/1990")
                        (lit "F") (lit "pi_test") (lit "99.50")
                        (Some (lit "2025-06-15 09:00:00")) (lit "USD")
                        0%nat t' v) None E).
      cbv [lines_returned length]. reflexivity.
    + exfalso. vm_compute in E. discriminate E.
  - destruct (entry_prelude Example.rt (lit "Xander") (lit "Beemer")
                (lit "pi_3RnbxeBvS0tjVNMi1g2TFBHk") (lit "350.00") true
                None (lit "EUR") 0%nat)
      as [[v t']|e] eqn:E.
    + rewrite (proj2 (conditional_rows Example.rt 668 6031 (lit "Xander")
                        (lit "Beemer") (lit "xjbeemer@hotmail.com")
                        (lit "+31 613865831") (lit "6 Dan") (lit "Miko Dojo")
                        (lit "02/03/1973") (lit "M")
                        (lit "pi_3RnbxeBvS0tjVNMi1g2TFBHk") (lit "350.00")
                        None (lit "EUR") 0%nat t' v)
                 true (lit "L") eq_refl E).
      cbv [lines_returned length]. reflexivity.
    + exfalso. vm_compute in E. discriminate E.
Defined.

(** ** When generation fails *)

Lemma php_serialize_string_ok_encodable (s v : pystr) :
  php_serialize_string s = Ok v -> encodable s = true.
Proof.
  intros H. destruct (encodable s) eqn:E; [reflexivity|].
  rewrite (php_serialize_string_not_encodable s E) in H. discriminate H.
Qed.

Lemma php_serialize_calculation_ok (rt : runtime) (amount : number) (n : Z) :
  int_of_number amount = Ok n ->
  exists v, php_serialize_calculation rt amount default_currency_symbol = Ok v.
Proof.
  intros H. unfold php_serialize_calculation. rewrite H. cbn [rbind].
  rewrite php_serialize_string_encodable.
  - eexists. reflexivity.
  - rewrite !encodable_app, encodable_str_of_int. vm_compute. reflexivity.
Qed.

Lemma php_serialize_calculation_finite (rt : runtime) (f : pyfloat)
    (symbol v : pystr) :
  php_serialize_calculation rt (PyFloat f) symbol = Ok v ->
  exists neg m e, f = PyFin neg m e.
Proof.
  intros H. destruct f as [|neg|neg m e].
  - discriminate H.
  - discriminate H.
  - exists neg, m, e. reflexivity.
Qed.

Lemma php_serialize_name_ok (a b : pystr) :
  encodable a = true -> encodable b = true ->
  exists v, php_serialize_name a b = Ok v.
Proof.
  intros Ha Hb. unfold php_serialize_name.
  rewrite (php_serialize_string_encodable a Ha),
          (php_serialize_string_encodable b Hb).
  eexists. reflexivity.
Qed.

Lemma php_serialize_name_encodable (a b v : pystr) :
  php_serialize_name a b = Ok v -> encodable a = true /\ encodable b = true.
Proof.
  unfold php_serialize_name. intros H.
  destruct (php_serialize_string a) as [x|] eqn:Ea; [|discriminate H].
  destruct (php_serialize_string b) as [y|] eqn:Eb; [|discriminate H].
  split; eapply php_serialize_string_ok_encodable; eassumption.
Qed.

Lemma encodable_defaults :
  encodable default_mode = true /\ encodable default_product_name = true /\
  encodable default_payment_type = true /\ encodable default_status = true /\
  encodable (lit "1") = true /\
  encodable (lit "https://dashboard.stripe.com/payments/") = true.
Proof. vm_compute. repeat split. Qed.

Lemma php_serialize_stripe_ok (transaction_id amount currency : pystr) :
  encodable transaction_id = true -> encodable amount = true ->
  encodable currency = true ->
  exists v,
    php_serialize_stripe transaction_id amount currency default_mode
      default_product_name default_payment_type default_status = Ok v.
Proof.
  intros Hi Ha Hc.
  destruct encodable_defaults as [D1 [D2 [D3 [D4 [D5 D6]]]]].
  unfold php_serialize_stripe, stripe_parts.
  rewrite (php_serialize_string_encodable _ D1),
          (php_serialize_string_encodable _ D2),
          (php_serialize_string_encodable _ D3),
          (php_serialize_string_encodable _ Ha),
          (php_serialize_string_encodable _ D5),
          (php_serialize_string_encodable _ Hc),
          (php_serialize_string_encodable _ Hi),
          (php_serialize_string_encodable _ D4).
  rewrite (php_serialize_string_encodable
             (lit "https://dashboard.stripe.com/payments/" ++ transaction_id))
    by (rewrite encodable_app, D6, Hi; reflexivity).
  eexists. reflexivity.
Qed.

Lemma php_serialize_stripe_encodable
    (transaction_id amount currency mode product_name payment_type status
     v : pystr) :
  php_serialize_stripe transaction_id amount currency mode product_name
    payment_type status = Ok v ->
  encodable transaction_id = true /\ encodable amount = true /\
  encodable currency = true.
Proof.
  unfold php_serialize_stripe, stripe_parts. intros H.
  destruct (php_serialize_string mode); [|discriminate H].
  destruct (php_serialize_string product_name); [|discriminate H].
  destruct (php_serialize_string payment_type); [|discriminate H].
  destruct (php_serialize_string amount) eqn:Ea; [|discriminate H].
  destruct (php_serialize_string (lit "1")); [|discriminate H].
  destruct (php_serialize_string currency) eqn:Ec; [|discriminate H].
  destruct (php_serialize_string transaction_id) eqn:Ei; [|discriminate H].
  repeat split; eapply php_serialize_string_ok_encodable; eassumption.
Qed.

Lemma entry_prelude_runs (rt : runtime)
    (first_name last_name stripe_transaction_id stripe_amount : pystr)
    (t_shirt : bool) (date_created : option pystr) (currency : pystr)
    (t : nat) :
  (exists v t',
     entry_prelude rt first_name last_name stripe_transaction_id
       stripe_amount t_shirt date_created currency t = Ok (v, t'))
  <->
  ((truthy (effective_stamp rt date_created t) = true ->
    exists d, strptime_stamp rt (effective_stamp rt date_created t) = Ok d) /\
   (exists neg m e, float_of_str rt stripe_amount = Ok (PyFin neg m e)) /\
   encodable first_name = true /\ encodable last_name = true /\
   encodable stripe_transaction_id = true /\
   encodable stripe_amount = true /\ encodable currency = true).
Proof.
  assert (C1 : exists v,
             php_serialize_calculation rt
               (if t_shirt then PyInt 20 else PyInt 0)
               default_currency_symbol = Ok v).
  { destruct t_shirt; eapply php_serialize_calculation_ok; reflexivity. }
  destruct C1 as [c1 C1].
  split.
  - intros [v [t' H]].
    cbv [entry_prelude bind ret lift datetime_now] in H.
    rewrite C1 in H.
    assert (Hd : truthy (effective_stamp rt date_created t) = true ->
                 exists d,
                   strptime_stamp rt (effective_stamp rt date_created t)
                   = Ok d).
    { intros Ht. destruct date_created as [stamp|]; cbv [effective_stamp] in *;
        cbv beta iota in H; rewrite Ht in H;
        match type of H with
        | context [strptime_stamp rt ?s] =>
            destruct (strptime_stamp rt s) as [d|]; [|discriminate H]
        end; exists d; reflexivity. }
    split; [exact Hd|]. clear Hd.
    assert (H' : match float_of_str rt stripe_amount with
                 | Ok amount =>
                     match php_serialize_calculation rt (PyFloat amount)
                             default_currency_symbol with
                     | Ok _ =>
                         match php_serialize_name first_name last_name with
                         | Ok _ =>
                             match php_serialize_stripe stripe_transaction_id
                                     stripe_amount currency default_mode
                                     default_product_name default_payment_type
                                     default_status with
                             | Ok _ => True
                             | Raise _ => False
                             end
                         | Raise _ => False
                         end
                     | Raise _ => False
                     end
                 | Raise _ => False
                 end).
    { destruct date_created as [stamp|]; cbv beta iota in H;
        match type of H with
        | context [truthy ?s] => destruct (truthy s)
        end;
        try match type of H with
            | context [strptime_stamp rt ?s] =>
                destruct (strptime_stamp rt s); [|discriminate H]
            end;
        cbv beta iota in H;
        (destruct (float_of_str rt stripe_amount); [|discriminate H]);
        cbv beta iota in H;
        match type of H with
        | context [php_serialize_calculation rt (PyFloat ?f) ?s] =>
            destruct (php_serialize_calculation rt (PyFloat f) s);
              [|discriminate H]
        end;
        cbv beta iota in H;
        (destruct (php_serialize_name first_name last_name);
           [|discriminate H]);
        cbv beta iota in H;
        match type of H with
        | context [php_serialize_stripe ?a ?b ?c ?d ?e ?f ?g] =>
            destruct (php_serialize_stripe a b c d e f g); [|discriminate H]
        end;
        exact I. }
    clear H.
    destruct (float_of_str rt stripe_amount) as [f|]; [|contradiction].
    destruct (php_serialize_calculation rt (PyFloat f) default_currency_symbol)
      as [c2|] eqn:E2; [|contradiction].
    destruct (php_serialize_name first_name last_name) as [nm|] eqn:En;
      [|contradiction].
    destruct (php_serialize_stripe stripe_transaction_id stripe_amount currency
                default_mode default_product_name default_payment_type
                default_status) as [st|] eqn:Es; [|contradiction].
    destruct (php_serialize_calculation_finite _ _ _ E2) as [neg [m [e ->]]].
    destruct (php_serialize_name_encodable _ _ En) as [Hf Hl].
    destruct (php_serialize_stripe_encodable _ _ _ _ _ _ _ Es) as [Hi [Ha Hc]].
    split; [exists neg, m, e; reflexivity|]. repeat split; assumption.
  - intros [Hd [[neg [m [e Hf]]] [Hfn [Hln [Hi [Ha Hc]]]]]].
    destruct (php_serialize_calculation_ok rt (PyFloat (PyFin neg m e))
                (n := if neg then - Z.shiftl (Z.of_N m) e
                      else Z.shiftl (Z.of_N m) e) eq_refl) as [c2 C2].
    destruct (php_serialize_name_ok _ _ Hfn Hln) as [nm Hn].
    destruct (php_serialize_stripe_ok _ _ _ Hi Ha Hc) as [st Hs].
    cbv [entry_prelude bind ret lift datetime_now].
    rewrite C1, Hf, C2, Hn, Hs.
    destruct date_created as [stamp|]; cbv [effective_stamp] in Hd;
      cbv beta iota;
      match goal with
      | |- context [truthy ?s] => destruct (truthy s) eqn:Ht
      end;
      try (destruct (Hd eq_refl) as [d Hp]; rewrite Hp);
      eexists; eexists; reflexivity.
Qed.

(** C4, the claim as stated fails: the entry of [generate_entries.py]
    has the well-formed amount [450.00], which converts to 450.0, and the
    creation timestamp [15/06/2025]; the timestamp is not of the form
    [%Y-%m-%d %H:%M:%S], so [strptime] raises [ValueError] and nothing is
    generated. *)
Lemma generation_fails_on_timestamp :
  Entry.date_created Example.john_doe = Some (lit "15/06/2025") /\
  Entry.stripe_amount Example.john_doe = lit "450.00" /\
  float_of_str Example.rt (lit "450.00")
  = Ok (PyFin false 7916483719987200 (-44)) /\
  int_of_float (PyFin false 7916483719987200 (-44)) = Ok 450 /\
  generate_entry_inserts_kw Example.rt Example.john_doe 0%nat
  = Raise ValueError.
Proof. repeat (split; [vm_compute; reflexivity|]). vm_compute. reflexivity. Qed.

(** C4, amended: generation of an entry fails exactly when the amount is
    rejected by the numeric conversion or converts to an infinity or a
    NaN, or the creation timestamp in force (the override, else the
    clock's reading) is non-empty and is rejected by [strptime], or one of
    first name, last name, transaction id, amount and currency holds a lone
    surrogate; email, phone, grade, dojo name, birth date, gender, t-shirt
    size and the two flags accept any value and never make generation
    fail. *)
Theorem generation_failure_modes (rt : runtime)
    (entry_id meta_id_start : Z)
    (first_name last_name email phone grade dojo_name birth_date gender
       stripe_transaction_id stripe_amount : pystr)
    (party t_shirt : bool) (t_shirt_size date_created : option pystr)
    (currency : pystr) (t : nat) :
  ((exists qs t',
      generate_entry_inserts rt entry_id meta_id_start first_name last_name
        email phone grade dojo_name birth_date gender stripe_transaction_id
        stripe_amount party t_shirt t_shirt_size date_created currency t
      = Ok (qs, t'))
   <->
   ((truthy (effective_stamp rt date_created t) = true ->
     exists d, strptime_stamp rt (effective_stamp rt date_created t) = Ok d) /\
    (exists neg m e, float_of_str rt stripe_amount = Ok (PyFin neg m e)) /\
    encodable first_name = true /\ encodable last_name = true /\
    encodable stripe_transaction_id = true /\
    encodable stripe_amount = true /\ encodable currency = true)) /\
  (forall email' phone' grade' dojo_name' birth_date' gender' party' t_shirt'
          t_shirt_size',
     (exists qs t',
        generate_entry_inserts rt entry_id meta_id_start first_name last_name
          email phone grade dojo_name birth_date gender stripe_transaction_id
          stripe_amount party t_shirt t_shirt_size date_created currency t
        = Ok (qs, t'))
     <->
     (exists qs t',
        generate_entry_inserts rt entry_id meta_id_start first_name last_name
          email' phone' grade' dojo_name' birth_date' gender'
          stripe_transaction_id stripe_amount party' t_shirt' t_shirt_size'
          date_created currency t
        = Ok (qs, t'))).
Proof.
  assert (R : forall email phone grade dojo_name birth_date gender party
                     t_shirt t_shirt_size,
             (exists qs t',
                generate_entry_inserts rt entry_id meta_id_start first_name
                  last_name email phone grade dojo_name birth_date gender
                  stripe_transaction_id stripe_amount party t_shirt
                  t_shirt_size date_created currency t = Ok (qs, t'))
             <->
             (exists v t',
                entry_prelude rt first_name last_name stripe_transaction_id
                  stripe_amount t_shirt date_created currency t
                = Ok (v, t'))).
  { intros. rewrite generate_entry_inserts_table.
    destruct (entry_prelude rt first_name last_name stripe_transaction_id
                stripe_amount t_shirt0 date_created currency t)
      as [[v t1]|e].
    - split; intros _; eexists; eexists; reflexivity.
    - split; intros [x [y H]]; discriminate H. }
  split.
  - rewrite R. apply entry_prelude_runs.
  - intros. rewrite !R, !entry_prelude_runs. reflexivity.
Qed.

(** ** Batches *)

Lemma with_separators_cons (q : list pystr) (outs : list (list pystr)) :
  with_separators (q :: outs) = (q ++ [empty_str]) ++ with_separators outs.
Proof. reflexivity. Qed.

Lemma for_entries_outputs (rt : runtime) (entries : list Entry.t) :
  forall (all_queries : list pystr) (t : nat),
    for_entries rt entries all_queries t
    = match entries_outputs rt entries t with
      | Ok (outs, t') => Ok (all_queries ++ with_separators outs, t')
      | Raise e => Raise e
      end.
Proof.
  induction entries as [|entry rest IH]; intros all_queries t.
  - cbv [for_entries entries_outputs ret with_separators map concat].
    rewrite app_nil_r. reflexivity.
  - cbn [for_entries entries_outputs]. unfold bind, ret.
    destruct (generate_entry_inserts_batch rt entry t) as [[q t1]|e];
      [|reflexivity].
    cbv zeta. rewrite IH.
    destruct (entries_outputs rt rest t1) as [[outs t2]|e]; [|reflexivity].
    rewrite with_separators_cons, <- !app_assoc. reflexivity.
Qed.

Lemma entries_outputs_length (rt : runtime) (entries : list Entry.t) :
  forall (t t' : nat) (outs : list (list pystr)),
    entries_outputs rt entries t = Ok (outs, t') ->
    length outs = length entries.
Proof.
  induction entries as [|entry rest IH]; intros t t' outs H.
  - apply ok_pair_inj in H. destruct H as [<- _]. reflexivity.
  - cbn [entries_outputs] in H. unfold bind, ret in H.
    destruct (generate_entry_inserts_batch rt entry t) as [[q t1]|e];
      [|discriminate H].
    destruct (entries_outputs rt rest t1) as [[qs t2]|e] eqn:E;
      [|discriminate H].
    apply ok_pair_inj in H. destruct H as [<- _].
    cbn [length]. f_equal. eapply IH. exact E.
Qed.

Lemma with_separators_length (outs : list (list pystr)) :
  length (with_separators outs) = (length (concat outs) + length outs)%nat.
Proof.
  induction outs as [|q outs IH].
  - reflexivity.
  - rewrite with_separators_cons. cbn [concat length].
    rewrite !length_app, IH. cbn [length]. lia.
Qed.

Lemma last_app_nonempty {A : Type} (a b : list A) (d : A) :
  b <> [] -> last (a ++ b) d = last b d.
Proof.
  intros Hb. induction a as [|x a IH]; [reflexivity|].
  cbn [app]. destruct (a ++ b) as [|y r] eqn:E.
  - destruct a; [cbn in E; contradiction|discriminate E].
  - cbn [last]. exact IH.
Qed.

Lemma with_separators_last (outs : list (list pystr)) (d : pystr) :
  outs <> [] -> last (with_separators outs) d = empty_str.
Proof.
  induction outs as [|q outs IH]; intros H; [contradiction|].
  rewrite with_separators_cons.
  destruct outs as [|q' outs'].
  - cbv [with_separators map concat]. rewrite app_nil_r. apply last_last.
  - rewrite last_app_nonempty.
    + apply IH. discriminate.
    + rewrite with_separators_cons. destruct q'; discriminate.
Qed.

Lemma generate_entry_inserts_batch_rows (rt : runtime) (entry : Entry.t)
    (t t' : nat) (q : list pystr) :
  generate_entry_inserts_batch rt entry t = Ok (q, t') ->
  length q = 12%nat /\
  (forall i s,
     nth_error q i = Some s ->
     meta_id_of s = Some (Entry.meta_id_start entry + Z.of_nat i)).
Proof.
  unfold generate_entry_inserts_batch.
  rewrite generate_entry_inserts_table. intros H.
  destruct (entry_prelude rt (Entry.first_name entry) (Entry.last_name entry)
              (Entry.stripe_transaction_id entry) (Entry.stripe_amount entry)
              false (Entry.date_created entry)
              (currency_or_default (Entry.currency entry)) t)
    as [[v t1]|e]; [|discriminate H].
  apply ok_pair_inj in H. destruct H as [<- _]. split.
  - rewrite statements_length. reflexivity.
  - intros i s. apply statements_nth.
Qed.

(** C3, the claim as stated fails: for the example entry of [main], which
    opts in to party and t-shirt, [generate_entry_inserts] returns sixteen
    statements, while the batch of that one entry returns the twelve
    statements of an entry without party and t-shirt and then the empty
    line: at position 10 the entry's own sequence has the select-2 row and
    the batch has the select-5 row. *)
Lemma batch_ignores_flags :
  lines_returned
    (generate_entry_inserts_kw Example.rt Example.example_entry 0%nat)
  = Some 16%nat /\
  lines_returned
    (generate_multiple_entries Example.rt [Example.example_entry] 0%nat)
  = Some 13%nat /\
  line_returned 10
    (generate_entry_inserts_kw Example.rt Example.example_entry 0%nat)
  = Some (insert_statement 6041 668 (lit "select-2") (lit "Masculin / Male")
            (lit "2025-07-24 10:30:00")) /\
  line_returned 10
    (generate_multiple_entries Example.rt [Example.example_entry] 0%nat)
  = Some (insert_statement 6041 668 (lit "select-5") (lit "1")
            (lit "2025-07-24 10:30:00")) /\
  line_returned 12
    (generate_multiple_entries Example.rt [Example.example_entry] 0%nat)
  = Some empty_str.
Proof. repeat (split; [vm_compute; reflexivity|]). vm_compute. reflexivity. Qed.

(** C3, amended: batch generation returns, for the entries in input
    order, each entry's statements followed by one empty line (also after
    the last entry); an entry's statements are those of
    [generate_entry_inserts] for the record's entry id, starting
    identifier, names, email, phone, grade, dojo name, birth date, gender,
    transaction id, amount, creation timestamp and currency, with party
    and t-shirt off and no size whatever the record says, hence twelve
    statements; the identifiers of each entry start at that record's own
    starting identifier. *)
Theorem generate_multiple_entries_concatenates (rt : runtime) :
  (forall entries t,
     generate_multiple_entries rt entries t
     = match entries_outputs rt entries t with
       | Ok (outs, t') => Ok (with_separators outs, t')
       | Raise e => Raise e
       end) /\
  (forall e1 e2 t,
     generate_multiple_entries rt [e1; e2] t
     = match generate_entry_inserts_batch rt e1 t with
       | Ok (q1, t1) =>
           match generate_entry_inserts_batch rt e2 t1 with
           | Ok (q2, t2) => Ok (q1 ++ [empty_str] ++ q2 ++ [empty_str], t2)
           | Raise x => Raise x
           end
       | Raise x => Raise x
       end) /\
  (forall entry t,
     generate_entry_inserts_batch rt entry t
     = generate_entry_inserts rt
         (Entry.entry_id entry) (Entry.meta_id_start entry)
         (Entry.first_name entry) (Entry.last_name entry)
         (Entry.email entry) (Entry.phone entry) (Entry.grade entry)
         (Entry.dojo_name entry) (Entry.birth_date entry)
         (Entry.gender entry) (Entry.stripe_transaction_id entry)
         (Entry.stripe_amount entry) false false None
         (Entry.date_created entry)
         (currency_or_default (Entry.currency entry)) t) /\
  (forall entry t t' q,
     generate_entry_inserts_batch rt entry t = Ok (q, t') ->
     length q = 12%nat /\
     (forall i s,
        nth_error q i = Some s ->
        meta_id_of s = Some (Entry.meta_id_start entry + Z.of_nat i))).
Proof.
  split; [|split; [|split]].
  - intros entries t. unfold generate_multiple_entries.
    rewrite for_entries_outputs. reflexivity.
  - intros e1 e2 t. unfold generate_multiple_entries.
    rewrite for_entries_outputs. cbn [entries_outputs]. unfold bind, ret.
    destruct (generate_entry_inserts_batch rt e1 t) as [[q1 t1]|x];
      [|reflexivity].
    destruct (generate_entry_inserts_batch rt e2 t1) as [[q2 t2]|x];
      [|reflexivity].
    cbv [with_separators map concat]. rewrite app_nil_r, <- !app_assoc.
    reflexivity.
  - intros entry t. reflexivity.
  - intros entry t t' q. apply generate_entry_inserts_batch_rows.
Qed.

Lemma generate_multiple_entries_concatenates_witness :
  exists q t',
    generate_entry_inserts_batch Example.rt Example.example_entry 0%nat
    = Ok (q, t') /\
    length q = 12%nat /\
    (forall i s,
       nth_error q i = Some s -> meta_id_of s = Some (6031 + Z.of_nat i)).
Proof.
  destruct (generate_entry_inserts_batch Example.rt Example.example_entry
              0%nat) as [[q t']|e] eqn:E.
  - exists q, t'. split; [reflexivity|].
    exact (proj2 (proj2 (proj2
             (generate_multiple_entries_concatenates Example.rt)))
             Example.example_entry 0%nat t' q E).
  - exfalso. vm_compute in E. discriminate E.
Defined.

(** C10: for a non-empty batch that is generated, the returned list is
    each entry's statements followed by one empty string, also after the
    last entry; so it ends with an empty string, and its length is the
    number of statements emitted plus the number of entries. *)
Theorem batch_ends_with_separator (rt : runtime) (entries : list Entry.t)
    (t t' : nat) (out : list pystr) :
  entries <> [] ->
  generate_multiple_entries rt entries t = Ok (out, t') ->
  exists outs,
    entries_outputs rt entries t = Ok (outs, t') /\
    length outs = length entries /\
    out = concat (map (fun q => q ++ [empty_str]) outs) /\
    last out (lit "no line") = empty_str /\
    length out = (length (concat outs) + length entries)%nat.
Proof.
  intros Hne H. unfold generate_multiple_entries in H.
  rewrite for_entries_outputs in H.
  destruct (entries_outputs rt entries t) as [[outs t1]|e] eqn:E;
    [|discriminate H].
  apply ok_pair_inj in H. destruct H as [<- <-]. cbn [app].
  pose proof (entries_outputs_length _ _ _ E) as L.
  exists outs. split; [reflexivity|]. split; [exact L|].
  split; [reflexivity|]. split.
  - apply with_separators_last. intros ->.
    destruct entries; [contradiction|discriminate L].
  - rewrite with_separators_length, L. reflexivity.
Qed.

Lemma batch_ends_with_separator_witness :
  exists out t',
    generate_multiple_entries Example.rt
      [Example.plain_entry; Example.example_entry] 0%nat = Ok (out, t') /\
    last out (lit "no line") = empty_str /\
    length out = 26%nat.
Proof.
  destruct (generate_multiple_entries Example.rt
              [Example.plain_entry; Example.example_entry] 0%nat)
    as [[out t']|e] eqn:E.
  - exists out, t'. split; [reflexivity|].
    destruct (@batch_ends_with_separator Example.rt
                [Example.plain_entry; Example.example_entry] 0%nat t' out
                ltac:(discriminate) E)
      as [outs [Ho [_ [_ [Hlast _]]]]].
    split; [exact Hlast|].
    vm_compute in E. apply ok_pair_inj in E. destruct E as [<- _].
    reflexivity.
  - exfalso. vm_compute in E. discriminate E.
Defined.

(* ================================================================== *)
(** * Further properties *)

(** ** Escaping, read back *)

Lemma expect_app (p s : list Z) : expect p (p ++ s) = Some s.
Proof. unfold expect. rewrite starts_with_app, skipn_length_app. reflexivity. Qed.

Lemma read_sql_literal_escaped (s rest : pystr) :
  starts_with [39] rest = false ->
  read_sql_literal (flat_map escape_char s ++ 39 :: rest) = Some (s, rest).
Proof.
  intros Hr. induction s as [|c s IH].
  - cbn [flat_map app read_sql_literal]. rewrite Z.eqb_refl.
    destruct rest as [|x r']; [reflexivity|].
    cbn [starts_with] in Hr. rewrite andb_true_r in Hr.
    rewrite (Z.eqb_sym x 39), Hr. reflexivity.
  - cbn [flat_map]. rewrite <- app_assoc. unfold escape_char at 1.
    destruct (c =? 92) eqn:E92.
    + apply Z.eqb_eq in E92. subst c.
      cbn [app read_sql_literal]. rewrite IH. reflexivity.
    + destruct (c =? 39) eqn:E39.
      * apply Z.eqb_eq in E39. subst c.
        cbn [app read_sql_literal]. rewrite IH. reflexivity.
      * cbn [app read_sql_literal]. rewrite E39, E92, IH. reflexivity.
Qed.

Lemma plain_escape (s : pystr) :
  plain s = true -> flat_map escape_char s = s.
Proof.
  induction s as [|c s IH]; [reflexivity|].
  cbn [plain forallb flat_map]. intros H.
  apply andb_prop in H. destruct H as [Hc Hs].
  apply negb_true_iff, orb_false_iff in Hc. destruct Hc as [H39 H92].
  unfold escape_char. rewrite H92, H39. cbn [app]. f_equal. apply IH, Hs.
Qed.

Lemma escape_length (s : pystr) :
  length (flat_map escape_char s) = (length s + specials s)%nat.
Proof.
  unfold specials. induction s as [|c s IH]; [reflexivity|].
  cbn [flat_map filter]. rewrite length_app, IH. unfold escape_char.
  destruct (c =? 92) eqn:E92.
  - rewrite orb_true_r. cbn [length]. lia.
  - destruct (c =? 39) eqn:E39; cbn [orb length]; lia.
Qed.

Lemma specials_plain (s : pystr) : specials s = 0%nat <-> plain s = true.
Proof.
  unfold specials, plain. induction s as [|c s IH]; [split; reflexivity|].
  cbn [filter forallb].
  destruct ((c =? 39) || (c =? 92)); cbn [negb andb length].
  - split; discriminate.
  - exact IH.
Qed.

(** X1: what MySQL reads from an escaped value is the value itself.
    Behind an opening quote, the escaped text followed by a closing quote
    is read as a string that ends at that quote, never before and never
    running past it, and whose content is the original value; hence two
    different values never escape to the same text. *)
Theorem escape_sql_string_reads_back :
  (forall value rest,
     starts_with [39] rest = false ->
     read_sql_literal (escape_sql_string value ++ lit "'" ++ rest)
     = Some (value, rest)) /\
  (forall a b, escape_sql_string a = escape_sql_string b -> a = b).
Proof.
  assert (R : forall value rest,
             starts_with [39] rest = false ->
             read_sql_literal (escape_sql_string value ++ lit "'" ++ rest)
             = Some (value, rest)).
  { intros value rest H. rewrite escape_sql_string_chars.
    change (lit "'" ++ rest) with (39 :: rest).
    apply read_sql_literal_escaped, H. }
  split; [exact R|].
  intros a b H.
  pose proof (R a [] eq_refl) as Ha. pose proof (R b [] eq_refl) as Hb.
  rewrite H, Hb in Ha. congruence.
Qed.

Lemma escape_sql_string_reads_back_witness :
  starts_with [39] (lit ", '2025'") = false /\
  read_sql_literal
    (escape_sql_string (lit "O'Brien\n" ++ [92]) ++ lit "'" ++ lit ", '2025'")
  = Some (lit "O'Brien\n" ++ [92], lit ", '2025'").
Proof.
  split; [reflexivity|].
  apply (proj1 escape_sql_string_reads_back). reflexivity.
Defined.

(** X2: escaping lengthens a value by its number of single quotes and
    backslashes, and leaves a value unchanged exactly when it holds
    neither. *)
Theorem escape_sql_string_length (value : pystr) :
  length (escape_sql_string value) = (length value + specials value)%nat /\
  (escape_sql_string value = value <-> plain value = true).
Proof.
  rewrite escape_sql_string_chars. split.
  - apply escape_length.
  - split.
    + intros H. apply specials_plain.
      pose proof (escape_length value) as L. rewrite H in L. lia.
    + apply plain_escape.
Qed.

(** ** Statements, read back *)

Lemma str_of_int_nonempty (z : Z) : truthy (str_of_int z) = true.
Proof.
  unfold str_of_int. destruct z as [|p|p]; cbn [Z.to_int].
  - reflexivity.
  - pose proof (DecimalPos.Unsigned.to_uint_nonnil p) as H.
    destruct (Pos.to_uint p); [contradiction H; reflexivity| | | | | | | | | |];
      reflexivity.
  - reflexivity.
Qed.

Lemma read_number_comma (z : Z) (rest : pystr) :
  read_number (str_of_int z ++ lit ", " ++ rest) = Some (z, lit ", " ++ rest).
Proof.
  unfold read_number. change (lit ", " ++ rest) with (44 :: 32 :: rest).
  rewrite until_app by apply str_of_int_no_comma.
  rewrite str_of_int_nonempty, read_int_str_of_int, skipn_length_app.
  reflexivity.
Qed.

Lemma read_number_quote (z : Z) (rest : pystr) :
  read_number (str_of_int z ++ lit ", '" ++ rest)
  = Some (z, lit ", '" ++ rest).
Proof.
  change (lit ", '" ++ rest) with (lit ", " ++ 39 :: rest).
  apply read_number_comma.
Qed.

Lemma read_sql_literal_separator (s rest : pystr) :
  read_sql_literal (flat_map escape_char s ++ lit "', '" ++ rest)
  = Some (s, lit ", '" ++ rest).
Proof.
  change (lit "', '" ++ rest) with (39 :: lit ", '" ++ rest).
  apply read_sql_literal_escaped. reflexivity.
Qed.

Lemma read_sql_literal_separator_plain (s rest : pystr) :
  plain s = true ->
  read_sql_literal (s ++ lit "', '" ++ rest) = Some (s, lit ", '" ++ rest).
Proof.
  intros H. rewrite <- (plain_escape s H) at 1.
  apply read_sql_literal_separator.
Qed.

Lemma read_sql_literal_tail (s : pystr) :
  plain s = true ->
  read_sql_literal (s ++ lit "', '0000-00-00 00:00:00');")
  = Some (s, lit ", '0000-00-00 00:00:00');").
Proof.
  intros H. rewrite <- (plain_escape s H) at 1.
  replace (lit "', '0000-00-00 00:00:00');")
    with (39 :: lit ", '0000-00-00 00:00:00');")
    by (vm_compute; reflexivity).
  apply read_sql_literal_escaped. vm_compute. reflexivity.
Qed.

Lemma read_statement_end :
  match expect (lit ", '") (lit ", '0000-00-00 00:00:00');") with
  | Some s => read_sql_literal s
  | None => None
  end = Some (lit "0000-00-00 00:00:00", lit ");").
Proof. vm_compute. reflexivity. Qed.

Lemma read_statement_insert (meta_id entry_id : Z)
    (meta_key meta_value date_created : pystr) :
  plain meta_key = true -> plain date_created = true ->
  read_statement
    (insert_statement meta_id entry_id meta_key meta_value date_created)
  = Some {| row_meta_id := meta_id; row_entry_id := entry_id;
            row_meta_key := meta_key; row_meta_value := meta_value;
            row_date_created := date_created;
            row_date_updated := lit "0000-00-00 00:00:00" |}.
Proof.
  intros Hk Hd. rewrite insert_statement_head. unfold read_statement.
  rewrite expect_app, read_number_comma, expect_app, read_number_quote,
    expect_app.
  rewrite (read_sql_literal_separator_plain _ _ Hk), expect_app.
  rewrite escape_sql_string_chars, read_sql_literal_separator, expect_app.
  rewrite (read_sql_literal_tail _ Hd).
  destruct (expect (lit ", '") (lit ", '0000-00-00 00:00:00');"))
    as [s|] eqn:E; pose proof read_statement_end as T; rewrite E in T;
    [|discriminate T].
  rewrite T. reflexivity.
Qed.

(** X3: a statement of [generate_insert_query], read as MySQL reads it,
    inserts one row whose identifiers, key, value and creation timestamp
    are the arguments and whose update timestamp is the zero date; this
    holds for every value, whatever quotes and backslashes it contains,
    given a key and a timestamp that contain none. *)
Theorem generate_insert_query_reads_back (rt : runtime)
    (meta_id entry_id : Z) (meta_key meta_value date_created : pystr)
    (t : nat) :
  plain meta_key = true -> plain date_created = true ->
  exists statement,
    generate_insert_query rt meta_id entry_id meta_key meta_value
      (Some date_created) t = Ok (statement, t) /\
    read_statement statement
    = Some {| row_meta_id := meta_id; row_entry_id := entry_id;
              row_meta_key := meta_key; row_meta_value := meta_value;
              row_date_created := date_created;
              row_date_updated := lit "0000-00-00 00:00:00" |}.
Proof.
  intros Hk Hd. eexists. split.
  - apply generate_insert_query_given.
  - apply read_statement_insert; assumption.
Qed.

Lemma generate_insert_query_reads_back_witness :
  exists statement,
    generate_insert_query Example.rt 7 (-3) (lit "name-1")
      (lit "a:1:{s:1:" ++ [dq] ++ lit "O'Brien\" ++ [dq] ++ lit ";}")
      (Some (lit "2025-07-24 10:30:00")) 0%nat = Ok (statement, 0%nat) /\
    read_statement statement
    = Some {| row_meta_id := 7; row_entry_id := -3;
              row_meta_key := lit "name-1";
              row_meta_value :=
                lit "a:1:{s:1:" ++ [dq] ++ lit "O'Brien\" ++ [dq] ++ lit ";}";
              row_date_created := lit "2025-07-24 10:30:00";
              row_date_updated := lit "0000-00-00 00:00:00" |}.
Proof.
  apply generate_insert_query_reads_back; reflexivity.
Defined.

(** ** The rows of an entry, read back *)

Lemma statements_read_back (meta_id entry_id : Z) (stamp : pystr)
    (fields : list (pystr * pystr)) :
  plain stamp = true ->
  forallb plain (map fst fields) = true ->
  map read_statement (statements meta_id entry_id stamp fields)
  = rows_of meta_id entry_id stamp fields.
Proof.
  intros Hs. revert meta_id.
  induction fields as [|[k v] fields IH]; intros meta_id Hk; [reflexivity|].
  cbn [map fst forallb] in Hk. apply andb_prop in Hk. destruct Hk as [Hk Hr].
  cbn [statements rows_of map].
  rewrite read_statement_insert by assumption.
  rewrite IH by exact Hr. reflexivity.
Qed.

Lemma field_table_keys (entry_id : Z) (v : entry_values)
    (email phone grade dojo_name birth_date gender : pystr)
    (party t_shirt : bool) (t_shirt_size : option pystr) :
  let keys := map fst (field_table entry_id v email phone grade dojo_name
                         birth_date gender party t_shirt t_shirt_size) in
  forallb plain keys = true /\
  distinct keys = true /\
  forallb (fun k => mem k field_keys) keys = true /\
  length keys
  = (12 + (if t_shirt then 2 else 0)
     + (if t_shirt && truthy_opt t_shirt_size then 1 else 0)
     + (if party || t_shirt then 1 else 0))%nat.
Proof.
  cbv [field_table].
  destruct party, t_shirt, (truthy_opt t_shirt_size);
    cbv [andb orb app map fst]; repeat split; vm_compute; reflexivity.
Qed.

Lemma entry_prelude_inversion (rt : runtime)
    (first_name last_name stripe_transaction_id stripe_amount : pystr)
    (t_shirt : bool) (date_created : option pystr) (currency : pystr)
    (t t' : nat) (v : entry_values) :
  entry_prelude rt first_name last_name stripe_transaction_id stripe_amount
    t_shirt date_created currency t = Ok (v, t') ->
  let stamp := effective_stamp rt date_created t in
  let t1 := match date_created with Some _ => t | None => S t end in
  created v = stamp /\
  (if truthy stamp
   then (exists d, strptime_stamp rt stamp = Ok d /\
                   submission_date v = strftime_day rt d) /\ t' = t1
   else submission_date v = strftime_day rt (now rt t1) /\ t' = S t1) /\
  php_serialize_calculation rt (if t_shirt then PyInt 20 else PyInt 0)
    default_currency_symbol = Ok (calculation_value v) /\
  (exists amount,
     float_of_str rt stripe_amount = Ok amount /\
     php_serialize_calculation rt (PyFloat amount) default_currency_symbol
     = Ok (calculation2_value v)) /\
  php_serialize_name first_name last_name = Ok (name_value v) /\
  php_serialize_stripe stripe_transaction_id stripe_amount currency
    default_mode default_product_name default_payment_type default_status
  = Ok (stripe_value v).
Proof.
  intros H. cbv zeta.
  cbv [entry_prelude bind ret lift datetime_now] in H.
  cbv [effective_stamp].
  destruct date_created as [stamp|]; cbv beta iota in H;
    match type of H with
    | context [truthy ?s] => destruct (truthy s)
    end;
    try match type of H with
        | context [strptime_stamp rt ?s] =>
            destruct (strptime_stamp rt s) as [d|]; [|discriminate H]
        end;
    cbv beta iota in H;
    (destruct (php_serialize_calculation rt
                 (if t_shirt then PyInt 20 else PyInt 0)
                 default_currency_symbol); [|discriminate H]);
    cbv beta iota in H;
    (destruct (float_of_str rt stripe_amount) as [amount|];
       [|discriminate H]);
    cbv beta iota in H;
    (destruct (php_serialize_calculation rt (PyFloat amount)
                 default_currency_symbol) eqn:E2; [|discriminate H]);
    cbv beta iota in H;
    (destruct (php_serialize_name first_name last_name); [|discriminate H]);
    cbv beta iota in H;
    (destruct (php_serialize_stripe stripe_transaction_id stripe_amount
                 currency default_mode default_product_name
                 default_payment_type default_status); [|discriminate H]);
    apply ok_pair_inj in H; destruct H as [<- <-];
    cbv [created submission_date calculation_value calculation2_value
         name_value stripe_value];
    repeat split; eauto.
Qed.

(** X4: when an entry is generated with a creation timestamp that holds
    no quote and no backslash, its statements, read as MySQL reads them,
    insert rows whose identifiers count up from the start value, which all
    carry the entry's identifier, that creation timestamp and the zero
    date as update time; the keys of the rows are among the sixteen field
    keys and no key occurs twice; there are twelve rows, two more with the
    t-shirt, one more with the t-shirt and a size, one more with party or
    t-shirt. *)
Theorem entry_rows_read_back (rt : runtime)
    (entry_id meta_id_start : Z)
    (first_name last_name email phone grade dojo_name birth_date gender
       stripe_transaction_id stripe_amount : pystr)
    (party t_shirt : bool) (t_shirt_size date_created : option pystr)
    (currency : pystr) (t t' : nat) (qs : list pystr) :
  generate_entry_inserts rt entry_id meta_id_start first_name last_name email
    phone grade dojo_name birth_date gender stripe_transaction_id
    stripe_amount party t_shirt t_shirt_size date_created currency t
  = Ok (qs, t') ->
  plain (effective_stamp rt date_created t) = true ->
  exists fields,
    map read_statement qs
    = rows_of meta_id_start entry_id (effective_stamp rt date_created t)
        fields /\
    distinct (map fst fields) = true /\
    forallb (fun k => mem k field_keys) (map fst fields) = true /\
    length qs = length fields /\
    length fields
    = (12 + (if t_shirt then 2 else 0)
       + (if t_shirt && truthy_opt t_shirt_size then 1 else 0)
       + (if party || t_shirt then 1 else 0))%nat.
Proof.
  intros H Hp. rewrite generate_entry_inserts_table in H.
  destruct (entry_prelude rt first_name last_name stripe_transaction_id
              stripe_amount t_shirt date_created currency t)
    as [[v t1]|e] eqn:E; [|discriminate H].
  apply ok_pair_inj in H. destruct H as [<- _].
  destruct (@entry_prelude_inversion _ _ _ _ _ _ _ _ _ _ _ E) as [Hc _].
  destruct (field_table_keys entry_id v email phone grade dojo_name
              birth_date gender party t_shirt t_shirt_size)
    as [K1 [K2 [K3 K4]]].
  exists (field_table entry_id v email phone grade dojo_name birth_date
            gender party t_shirt t_shirt_size).
  rewrite Hc. split; [|split; [|split; [|split]]].
  - apply statements_read_back; assumption.
  - exact K2.
  - exact K3.
  - apply statements_length.
  - rewrite length_map in K4. exact K4.
Qed.

Lemma entry_rows_read_back_witness :
  exists qs t' fields,
    generate_entry_inserts Example.rt 668 6031 (lit "Xander") (lit "Beemer")
      (lit "xjbeemer@hotmail.com") (lit "+31 613865831") (lit "6 Dan")
      (lit "Miko Dojo") (lit "02/03/1973") (lit "M")
      (lit "pi_3RnbxeBvS0tjVNMi1g2TFBHk") (lit "350.00") true true
      (Some (lit "L")) None (lit "EUR") 0%nat = Ok (qs, t') /\
    map read_statement qs
    = rows_of 6031 668 (lit "2025-07-24 10:30:00") fields /\
    distinct (map fst fields) = true /\
    length fields = 16%nat.
Proof.
  destruct (generate_entry_inserts Example.rt 668 6031 (lit "Xander")
              (lit "Beemer") (lit "xjbeemer@hotmail.com")
              (lit "+31 613865831") (lit "6 Dan") (lit "Miko Dojo")
              (lit "02/03/1973") (lit "M")
              (lit "pi_3RnbxeBvS0tjVNMi1g2TFBHk") (lit "350.00") true true
              (Some (lit "L")) None (lit "EUR") 0%nat)
    as [[qs t']|e] eqn:E.
  - assert (Hp : plain (effective_stamp Example.rt None 0%nat) = true)
      by (vm_compute; reflexivity).
    destruct (@entry_rows_read_back _ _ _ _ _ _ _ _ _ _ _ _ _ _ _ _ _ _ _ _
                _ E Hp) as [fields [H1 [H2 [_ [_ H5]]]]].
    exists qs, t', fields. split; [reflexivity|].
    split; [exact H1|]. split; [exact H2|exact H5].
  - exfalso. vm_compute in E. discriminate E.
Defined.

(** ** Rows that depend on the flags *)

(** X5: with party and without t-shirt, thirteen statements are
    returned: the ten leading rows, select-5, then checkbox-2 whose value is
    exactly [Fête Finale / Final Party], then stripe-ocs-1, with the
    identifiers [start] to [start + 12]; the size is not looked at. *)
Theorem party_only_rows (rt : runtime) (entry_id meta_id_start : Z)
    (first_name last_name email phone grade dojo_name birth_date gender
       stripe_transaction_id stripe_amount : pystr)
    (t_shirt_size date_created : option pystr) (currency : pystr)
    (t t' : nat) (v : entry_values) :
  entry_prelude rt first_name last_name stripe_transaction_id stripe_amount
    false date_created currency t = Ok (v, t') ->
  generate_entry_inserts rt entry_id meta_id_start first_name last_name email
    phone grade dojo_name birth_date gender stripe_transaction_id
    stripe_amount true false t_shirt_size date_created currency t
  = Ok ([ insert_statement meta_id_start entry_id
            (lit "hidden-1") (str_of_int entry_id) (created v);
          insert_statement (meta_id_start + 1) entry_id
            (lit "hidden-2") (submission_date v) (created v);
          insert_statement (meta_id_start + 2) entry_id
            (lit "calculation-1") (calculation_value v) (created v);
          insert_statement (meta_id_start + 3) entry_id
            (lit "calculation-2") (calculation2_value v) (created v);
          insert_statement (meta_id_start + 4) entry_id
            (lit "name-1") (name_value v) (created v);
          insert_statement (meta_id_start + 5) entry_id
            (lit "email-1") email (created v);
          insert_statement (meta_id_start + 6) entry_id
            (lit "phone-1") phone (created v);
          insert_statement (meta_id_start + 7) entry_id
            (lit "select-1") grade (created v);
          insert_statement (meta_id_start + 8) entry_id
            (lit "text-3") dojo_name (created v);
          insert_statement (meta_id_start + 9) entry_id
            (lit "date-1") birth_date (created v);
          insert_statement (meta_id_start + 10) entry_id
            (lit "select-5") (lit "1") (created v);
          insert_statement (meta_id_start + 11) entry_id
            (lit "checkbox-2") (lit "Fête Finale / Final Party") (created v);
          insert_statement (meta_id_start + 12) entry_id
            (lit "stripe-ocs-1") (stripe_value v) (created v) ],
        t').
Proof.
  intros H. rewrite generate_entry_inserts_table, H.
  cbv [field_table statements app andb orb checkbox_text].
  fold_ids meta_id_start. reflexivity.
Qed.

Lemma party_only_rows_witness :
  lines_returned
    (generate_entry_inserts Example.rt 12 100 (lit "Zoé") (lit "O'Brien")
       (lit "zoe@example.com") empty_str (lit "1 Kyu") (lit "Dojo")
       (lit "01/02/1990") (lit "F") (lit "pi_test") (lit "99.50")
       true false (Some (lit "XL")) (Some (lit "2025-06-15 09:00:00"))
       (lit "USD") 0%nat)
  = Some 13%nat.
Proof.
  destruct (entry_prelude Example.rt (lit "Zoé") (lit "O'Brien")
              (lit "pi_test") (lit "99.50") false
              (Some (lit "2025-06-15 09:00:00")) (lit "USD") 0%nat)
    as [[v t']|e] eqn:E.
  - rewrite (@party_only_rows Example.rt 12 100 (lit "Zoé") (lit "O'Brien")
               (lit "zoe@example.com") empty_str (lit "1 Kyu") (lit "Dojo")
               (lit "01/02/1990") (lit "F") (lit "pi_test") (lit "99.50")
               (Some (lit "XL")) (Some (lit "2025-06-15 09:00:00"))
               (lit "USD") 0%nat t' v E).
    cbv [lines_returned length]. reflexivity.
  - exfalso. vm_compute in E. discriminate E.
Defined.

Lemma gender_label_other (gender : pystr) :
  gender <> lit "M" -> gender <> lit "F" -> gender_label gender = gender.
Proof.
  intros HM HF. unfold gender_label, pystr_eqb.
  destruct (list_eq_dec Z.eq_dec (lit "M") gender) as [E|_];
    [symmetry in E; contradiction|].
  destruct (list_eq_dec Z.eq_dec (lit "F") gender) as [E|_];
    [symmetry in E; contradiction|].
  reflexivity.
Qed.

(** X6: with the t-shirt but no size (none given, or the empty text),
    fifteen statements are returned: the select-3 row is left out and the
    rows behind it move up by one identifier.  The select-2 row holds
    [Masculin / Male] for the gender [M], [Féminin / Female] for [F], and any
    other gender as it is (also [m] and the empty text). *)
Theorem t_shirt_without_size_rows (rt : runtime) (entry_id meta_id_start : Z)
    (first_name last_name email phone grade dojo_name birth_date gender
       stripe_transaction_id stripe_amount : pystr)
    (party : bool) (t_shirt_size date_created : option pystr)
    (currency : pystr) (t t' : nat) (v : entry_values) :
  truthy_opt t_shirt_size = false ->
  entry_prelude rt first_name last_name stripe_transaction_id stripe_amount
    true date_created currency t = Ok (v, t') ->
  generate_entry_inserts rt entry_id meta_id_start first_name last_name email
    phone grade dojo_name birth_date gender stripe_transaction_id
    stripe_amount party true t_shirt_size date_created currency t
  = Ok ([ insert_statement meta_id_start entry_id
            (lit "hidden-1") (str_of_int entry_id) (created v);
          insert_statement (meta_id_start + 1) entry_id
            (lit "hidden-2") (submission_date v) (created v);
          insert_statement (meta_id_start + 2) entry_id
            (lit "calculation-1") (calculation_value v) (created v);
          insert_statement (meta_id_start + 3) entry_id
            (lit "calculation-2") (calculation2_value v) (created v);
          insert_statement (meta_id_start + 4) entry_id
            (lit "name-1") (name_value v) (created v);
          insert_statement (meta_id_start + 5) entry_id
            (lit "email-1") email (created v);
          insert_statement (meta_id_start + 6) entry_id
            (lit "phone-1") phone (created v);
          insert_statement (meta_id_start + 7) entry_id
            (lit "select-1") grade (created v);
          insert_statement (meta_id_start + 8) entry_id
            (lit "text-3") dojo_name (created v);
          insert_statement (meta_id_start + 9) entry_id
            (lit "date-1") birth_date (created v);
          insert_statement (meta_id_start + 10) entry_id
            (lit "select-2") (gender_label gender) (created v);
          insert_statement (meta_id_start + 11) entry_id
            (lit "select-4") (lit "1") (created v);
          insert_statement (meta_id_start + 12) entry_id
            (lit "select-5") (lit "1") (created v);
          insert_statement (meta_id_start + 13) entry_id
            (lit "checkbox-2")
            (if party then lit "Fête Finale / Final Party, T-Shirt"
             else lit "T-Shirt")
            (created v);
          insert_statement (meta_id_start + 14) entry_id
            (lit "stripe-ocs-1") (stripe_value v) (created v) ],
        t') /\
  gender_label (lit "M") = lit "Masculin / Male" /\
  gender_label (lit "F") = lit "Féminin / Female" /\
  gender_label (lit "m") = lit "m" /\
  gender_label empty_str = empty_str /\
  (gender <> lit "M" -> gender <> lit "F" -> gender_label gender = gender).
Proof.
  intros Hs H. split; [|split; [|split; [|split; [|split]]]].
  - rewrite generate_entry_inserts_table, H.
    cbv [field_table andb]. rewrite Hs.
    destruct party; cbv [statements app orb checkbox_text];
      fold_ids meta_id_start; reflexivity.
  - vm_compute. reflexivity.
  - vm_compute. reflexivity.
  - vm_compute. reflexivity.
  - vm_compute. reflexivity.
  - apply gender_label_other.
Qed.

Lemma t_shirt_without_size_rows_witness :
  lines_returned
    (generate_entry_inserts Example.rt 12 100 (lit "Zoé") (lit "O'Brien")
       (lit "zoe@example.com") empty_str (lit "1 Kyu") (lit "Dojo")
       (lit "01/02/1990") (lit "f") (lit "pi_test") (lit "99.50")
       false true (Some empty_str) (Some (lit "2025-06-15 09:00:00"))
       (lit "USD") 0%nat)
  = Some 15%nat.
Proof.
  destruct (entry_prelude Example.rt (lit "Zoé") (lit "O'Brien")
              (lit "pi_test") (lit "99.50") true
              (Some (lit "2025-06-15 09:00:00")) (lit "USD") 0%nat)
    as [[v t']|e] eqn:E.
  - rewrite (proj1 (@t_shirt_without_size_rows Example.rt 12 100 (lit "Zoé")
               (lit "O'Brien") (lit "zoe@example.com") empty_str
               (lit "1 Kyu") (lit "Dojo") (lit "01/02/1990") (lit "f")
               (lit "pi_test") (lit "99.50") false (Some empty_str)
               (Some (lit "2025-06-15 09:00:00")) (lit "USD") 0%nat t' v
               eq_refl E)).
    cbv [lines_returned length]. reflexivity.
  - exfalso. vm_compute in E. discriminate E.
Defined.

(** ** The clock *)

(** X7: a non-empty creation timestamp is used as it is and the clock is
    not read.  An empty one is not replaced: the statements carry an empty
    creation timestamp, while the hidden-2 row holds the day of the one
    clock reading taken.  With no timestamp given, the clock is read once
    and its reading stamps the statements. *)
Theorem generate_entry_inserts_clock (rt : runtime)
    (entry_id meta_id_start : Z)
    (first_name last_name email phone grade dojo_name birth_date gender
       stripe_transaction_id stripe_amount : pystr)
    (party t_shirt : bool) (t_shirt_size date_created : option pystr)
    (currency : pystr) (t t' : nat) (qs : list pystr) :
  generate_entry_inserts rt entry_id meta_id_start first_name last_name email
    phone grade dojo_name birth_date gender stripe_transaction_id
    stripe_amount party t_shirt t_shirt_size date_created currency t
  = Ok (qs, t') ->
  (forall s,
     date_created = Some s -> truthy s = true ->
     t' = t /\
     nth_error qs 0
     = Some (insert_statement meta_id_start entry_id (lit "hidden-1")
               (str_of_int entry_id) s)) /\
  (date_created = Some empty_str ->
   t' = S t /\
   nth_error qs 0
   = Some (insert_statement meta_id_start entry_id (lit "hidden-1")
             (str_of_int entry_id) empty_str) /\
   nth_error qs 1
   = Some (insert_statement (meta_id_start + 1) entry_id (lit "hidden-2")
             (strftime_day rt (now rt t)) empty_str)) /\
  (date_created = None ->
   truthy (strftime_stamp rt (now rt t)) = true ->
   t' = S t /\
   nth_error qs 0
   = Some (insert_statement meta_id_start entry_id (lit "hidden-1")
             (str_of_int entry_id) (strftime_stamp rt (now rt t)))).
Proof.
  intros H. rewrite generate_entry_inserts_table in H.
  destruct (entry_prelude rt first_name last_name stripe_transaction_id
              stripe_amount t_shirt date_created currency t)
    as [[v t1]|e] eqn:E; [|discriminate H].
  apply ok_pair_inj in H. destruct H as [<- <-].
  destruct (@entry_prelude_inversion _ _ _ _ _ _ _ _ _ _ _ E)
    as [Hc [Hd _]].
  cbv [field_table statements app nth_error]. rewrite Hc.
  split; [|split].
  - intros s -> Hs. cbv [effective_stamp] in *. rewrite Hs in Hd.
    destruct Hd as [_ ->]. split; reflexivity.
  - intros ->. cbv [effective_stamp empty_str truthy] in *.
    destruct Hd as [Hday ->]. rewrite Hday. repeat split.
  - intros -> Hs. cbv [effective_stamp] in *. rewrite Hs in Hd.
    destruct Hd as [_ ->]. split; reflexivity.
Qed.

Lemma generate_entry_inserts_clock_witness :
  exists qs t',
    generate_entry_inserts Example.rt 12 100 (lit "Zoé") (lit "O'Brien")
      (lit "zoe@example.com") empty_str (lit "1 Kyu") (lit "Dojo")
      (lit "01/02/1990") (lit "F") (lit "pi_test") (lit "99.50")
      false false None (Some empty_str) (lit "USD") 5%nat = Ok (qs, t') /\
    t' = 6%nat /\
    nth_error qs 1
    = Some (insert_statement 101 12 (lit "hidden-2") (lit "24/07/2025")
              empty_str).
Proof.
  destruct (generate_entry_inserts Example.rt 12 100 (lit "Zoé")
              (lit "O'Brien") (lit "zoe@example.com") empty_str
              (lit "1 Kyu") (lit "Dojo") (lit "01/02/1990") (lit "F")
              (lit "pi_test") (lit "99.50") false false None
              (Some empty_str) (lit "USD") 5%nat)
    as [[qs t']|e] eqn:E.
  - exists qs, t'. split; [reflexivity|].
    destruct (@generate_entry_inserts_clock _ _ _ _ _ _ _ _ _ _ _ _ _ _ _ _
                _ _ _ _ _ E) as [_ [H _]].
    destruct (H eq_refl) as [Ht [_ H1]]. split; [exact Ht|].
    rewrite H1. f_equal.
  - exfalso. vm_compute in E. discriminate E.
Defined.

(** ** Which exception *)

Lemma php_serialize_name_raise (a b : pystr) :
  encodable a && encodable b = false ->
  php_serialize_name a b = Raise UnicodeEncodeError.
Proof.
  intros H. unfold php_serialize_name.
  destruct (encodable a) eqn:Ea.
  - rewrite (php_serialize_string_encodable a Ea). cbn [rbind].
    rewrite (php_serialize_string_not_encodable b H). reflexivity.
  - rewrite (php_serialize_string_not_encodable a Ea). reflexivity.
Qed.

Lemma php_serialize_stripe_raise (transaction_id amount currency : pystr) :
  encodable transaction_id && encodable amount && encodable currency = false ->
  php_serialize_stripe transaction_id amount currency default_mode
    default_product_name default_payment_type default_status
  = Raise UnicodeEncodeError.
Proof.
  intros H.
  destruct encodable_defaults as [D1 [D2 [D3 [D4 [D5 D6]]]]].
  unfold php_serialize_stripe, stripe_parts.
  rewrite (php_serialize_string_encodable _ D1),
          (php_serialize_string_encodable _ D2),
          (php_serialize_string_encodable _ D3).
  cbn [rbind].
  destruct (encodable amount) eqn:Ea;
    [rewrite (php_serialize_string_encodable _ Ea)
    |rewrite (php_serialize_string_not_encodable _ Ea); reflexivity].
  cbn [rbind]. rewrite (php_serialize_string_encodable _ D5). cbn [rbind].
  destruct (encodable currency) eqn:Ec;
    [rewrite (php_serialize_string_encodable _ Ec)
    |rewrite (php_serialize_string_not_encodable _ Ec); reflexivity].
  cbn [rbind].
  destruct (encodable transaction_id) eqn:Ei; [discriminate H|].
  rewrite (php_serialize_string_not_encodable _ Ei). reflexivity.
Qed.

(** The steps of [entry_prelude] behind the timestamp, for a timestamp
    that is accepted. *)
Lemma entry_prelude_after_date (rt : runtime)
    (first_name last_name stripe_transaction_id stripe_amount : pystr)
    (t_shirt : bool) (date_created : option pystr) (currency : pystr)
    (t : nat) :
  (truthy (effective_stamp rt date_created t) = true ->
   exists d, strptime_stamp rt (effective_stamp rt date_created t) = Ok d) ->
  exists c1 day t1,
    entry_prelude rt first_name last_name stripe_transaction_id stripe_amount
      t_shirt date_created currency t
    = match float_of_str rt stripe_amount with
      | Raise e => Raise e
      | Ok amount =>
          match php_serialize_calculation rt (PyFloat amount)
                  default_currency_symbol with
          | Raise e => Raise e
          | Ok c2 =>
              match php_serialize_name first_name last_name with
              | Raise e => Raise e
              | Ok nm =>
                  match php_serialize_stripe stripe_transaction_id
                          stripe_amount currency default_mode
                          default_product_name default_payment_type
                          default_status with
                  | Raise e => Raise e
                  | Ok st =>
                      Ok ({| created := effective_stamp rt date_created t;
                             submission_date := day;
                             calculation_value := c1;
                             calculation2_value := c2;
                             name_value := nm;
                             stripe_value := st |}, t1)
                  end
              end
          end
      end.
Proof.
  intros Hd.
  assert (C1 : exists v,
             php_serialize_calculation rt
               (if t_shirt then PyInt 20 else PyInt 0)
               default_currency_symbol = Ok v).
  { destruct t_shirt; eapply php_serialize_calculation_ok; reflexivity. }
  destruct C1 as [c1 C1]. exists c1.
  cbv [entry_prelude bind ret lift datetime_now]. rewrite C1.
  destruct date_created as [stamp|]; cbv [effective_stamp] in *;
    cbv beta iota;
    match goal with
    | |- context [truthy ?s] => destruct (truthy s) eqn:Ht
    end;
    try (destruct (Hd eq_refl) as [d Hp]; rewrite Hp);
    cbv beta iota;
    eexists; eexists;
    destruct (float_of_str rt stripe_amount) as [amount|]; try reflexivity;
    cbv beta iota;
    destruct (php_serialize_calculation rt (PyFloat amount)
                default_currency_symbol); try reflexivity;
    cbv beta iota;
    destruct (php_serialize_name first_name last_name); try reflexivity;
    cbv beta iota;
    destruct (php_serialize_stripe stripe_transaction_id stripe_amount
                currency default_mode default_product_name
                default_payment_type default_status); reflexivity.
Qed.

(** X8: which exception ends a generation, the first failing step
    deciding.  A non-empty creation timestamp that [strptime] rejects
    raises its error whatever the other fields are.  With the timestamp
    accepted: an amount that [float] rejects raises that error; an amount
    that converts to an infinity raises [OverflowError] and one that converts
    to a NaN raises [ValueError]; with a finite amount, a lone surrogate in
    first name, last name, transaction id, amount or currency raises
    [UnicodeEncodeError].  In each case no statement is returned. *)
Theorem generate_entry_inserts_raises (rt : runtime)
    (entry_id meta_id_start : Z)
    (first_name last_name email phone grade dojo_name birth_date gender
       stripe_transaction_id stripe_amount : pystr)
    (party t_shirt : bool) (t_shirt_size date_created : option pystr)
    (currency : pystr) (t : nat) :
  let stamp := effective_stamp rt date_created t in
  let generated :=
    generate_entry_inserts rt entry_id meta_id_start first_name last_name
      email phone grade dojo_name birth_date gender stripe_transaction_id
      stripe_amount party t_shirt t_shirt_size date_created currency t in
  (forall e,
     truthy stamp = true -> strptime_stamp rt stamp = Raise e ->
     generated = Raise e) /\
  ((truthy stamp = true -> exists d, strptime_stamp rt stamp = Ok d) ->
   (forall e, float_of_str rt stripe_amount = Raise e -> generated = Raise e) /\
   (forall neg,
      float_of_str rt stripe_amount = Ok (PyInf neg) ->
      generated = Raise OverflowError) /\
   (float_of_str rt stripe_amount = Ok PyNan -> generated = Raise ValueError) /\
   (forall neg m e,
      float_of_str rt stripe_amount = Ok (PyFin neg m e) ->
      encodable first_name && encodable last_name
      && (encodable stripe_transaction_id && encodable stripe_amount
          && encodable currency) = false ->
      generated = Raise UnicodeEncodeError)).
Proof.
  cbv zeta. split.
  - intros e Ht Hp. rewrite generate_entry_inserts_table.
    cbv [entry_prelude bind ret lift datetime_now].
    destruct date_created as [stamp|]; cbv [effective_stamp] in *;
      cbv beta iota; rewrite Ht, Hp; reflexivity.
  - intros Hd.
    destruct (entry_prelude_after_date rt first_name last_name
                stripe_transaction_id stripe_amount t_shirt date_created
                currency t Hd) as [c1 [day [t1 P]]].
    rewrite generate_entry_inserts_table, P. clear P.
    split; [|split; [|split]].
    + intros e ->. reflexivity.
    + intros neg ->. reflexivity.
    + intros ->. reflexivity.
    + intros neg m e -> H.
      destruct (php_serialize_calculation_ok rt (PyFloat (PyFin neg m e))
                  (n := if neg then - Z.shiftl (Z.of_N m) e
                        else Z.shiftl (Z.of_N m) e) eq_refl) as [c2 ->].
      destruct (encodable first_name && encodable last_name) eqn:En.
      * apply andb_prop in En. destruct En as [Ef El].
        destruct (php_serialize_name_ok _ _ Ef El) as [nm ->].
        cbn [andb] in H. rewrite (php_serialize_stripe_raise _ _ _ H).
        reflexivity.
      * rewrite (php_serialize_name_raise _ _ En). reflexivity.
Qed.

Lemma generate_entry_inserts_raises_witness :
  generate_entry_inserts Example.rt 12 100 (lit "Zoé") (lit "O'Brien")
    (lit "zoe@example.com") empty_str (lit "1 Kyu") (lit "Dojo")
    (lit "01/02/1990") (lit "F") (lit "pi_test") (lit "1e999")
    false false None (Some (lit "2025-06-15 09:00:00")) (lit "USD") 0%nat
  = Raise OverflowError /\
  generate_entry_inserts Example.rt 12 100 (lit "Zoé") (lit "O'Brien")
    (lit "zoe@example.com") empty_str (lit "1 Kyu") (lit "Dojo")
    (lit "01/02/1990") (lit "F") (lit "pi_test") (lit "1e999")
    false false None (Some (lit "15/06/2025")) (lit "USD") 0%nat
  = Raise ValueError.
Proof.
  split.
  - refine (proj1 (proj2 (proj2
      (@generate_entry_inserts_raises Example.rt 12 100 (lit "Zoé")
         (lit "O'Brien") (lit "zoe@example.com") empty_str (lit "1 Kyu")
         (lit "Dojo") (lit "01/02/1990") (lit "F") (lit "pi_test")
         (lit "1e999") false false None (Some (lit "2025-06-15 09:00:00"))
         (lit "USD") 0%nat) _)) false _).
    + intros _. eexists. vm_compute. reflexivity.
    + vm_compute. reflexivity.
  - refine (proj1
      (@generate_entry_inserts_raises Example.rt 12 100 (lit "Zoé")
         (lit "O'Brien") (lit "zoe@example.com") empty_str (lit "1 Kyu")
         (lit "Dojo") (lit "01/02/1990") (lit "F") (lit "pi_test")
         (lit "1e999") false false None (Some (lit "15/06/2025"))
         (lit "USD") 0%nat) ValueError _ _).
    + vm_compute. reflexivity.
    + vm_compute. reflexivity.
Defined.

(** ** Batches, continued *)

Lemma entries_outputs_app (rt : runtime) (a b : list Entry.t) :
  forall t,
    entries_outputs rt (a ++ b) t
    = match entries_outputs rt a t with
      | Ok (qa, t1) =>
          match entries_outputs rt b t1 with
          | Ok (qb, t2) => Ok (qa ++ qb, t2)
          | Raise e => Raise e
          end
      | Raise e => Raise e
      end.
Proof.
  induction a as [|entry a IH]; intros t.
  - cbn [app entries_outputs]. unfold ret.
    destruct (entries_outputs rt b t) as [[qb t2]|e]; reflexivity.
  - cbn [app entries_outputs]. unfold bind, ret.
    destruct (generate_entry_inserts_batch rt entry t) as [[q t0]|e];
      [|reflexivity].
    rewrite IH.
    destruct (entries_outputs rt a t0) as [[qa t1]|e]; [|reflexivity].
    destruct (entries_outputs rt b t1) as [[qb t2]|e]; reflexivity.
Qed.

Lemma with_separators_app (a b : list (list pystr)) :
  with_separators (a ++ b) = with_separators a ++ with_separators b.
Proof.
  unfold with_separators. rewrite map_app, concat_app. reflexivity.
Qed.

Lemma generate_multiple_entries_outputs (rt : runtime)
    (entries : list Entry.t) (t : nat) :
  generate_multiple_entries rt entries t
  = match entries_outputs rt entries t with
    | Ok (outs, t') => Ok (with_separators outs, t')
    | Raise e => Raise e
    end.
Proof.
  unfold generate_multiple_entries. rewrite for_entries_outputs. reflexivity.
Qed.

(** X9: generating a batch in two parts and joining the results is the
    same as generating it at once, the second part starting with the clock
    where the first part left it; if a part raises, so does the whole. *)
Theorem generate_multiple_entries_app (rt : runtime) (a b : list Entry.t)
    (t : nat) :
  generate_multiple_entries rt (a ++ b) t
  = match generate_multiple_entries rt a t with
    | Ok (qa, t1) =>
        match generate_multiple_entries rt b t1 with
        | Ok (qb, t2) => Ok (qa ++ qb, t2)
        | Raise e => Raise e
        end
    | Raise e => Raise e
    end.
Proof.
  rewrite !generate_multiple_entries_outputs, entries_outputs_app.
  destruct (entries_outputs rt a t) as [[qa t1]|e]; [|reflexivity].
  rewrite generate_multiple_entries_outputs.
  destruct (entries_outputs rt b t1) as [[qb t2]|e]; [|reflexivity].
  rewrite with_separators_app. reflexivity.
Qed.

(** X10: a batch is all or nothing.  If the entries before some entry
    are generated and that entry raises, the batch raises the same
    exception and returns no statement, whatever follows the entry. *)
Theorem generate_multiple_entries_raises (rt : runtime)
    (before after : list Entry.t) (entry : Entry.t) (t t1 : nat)
    (outs : list pystr) (e : exn) :
  generate_multiple_entries rt before t = Ok (outs, t1) ->
  generate_entry_inserts_batch rt entry t1 = Raise e ->
  generate_multiple_entries rt (before ++ entry :: after) t = Raise e.
Proof.
  intros Hb He.
  rewrite generate_multiple_entries_outputs in *.
  rewrite entries_outputs_app.
  destruct (entries_outputs rt before t) as [[qa t0]|x]; [|discriminate Hb].
  apply ok_pair_inj in Hb. destruct Hb as [_ <-].
  cbn [entries_outputs]. unfold bind. rewrite He. reflexivity.
Qed.

Lemma generate_multiple_entries_raises_witness :
  generate_multiple_entries Example.rt
    ([Example.plain_entry] ++ Example.john_doe :: [Example.example_entry])
    0%nat
  = Raise ValueError.
Proof.
  destruct (generate_multiple_entries Example.rt [Example.plain_entry] 0%nat)
    as [[outs t1]|e] eqn:E.
  - apply (@generate_multiple_entries_raises Example.rt [Example.plain_entry]
             [Example.example_entry] Example.john_doe 0%nat t1 outs
             ValueError E).
    vm_compute in E. apply ok_pair_inj in E. destruct E as [_ <-].
    vm_compute. reflexivity.
  - exfalso. vm_compute in E. discriminate E.
Defined.

Lemma generate_entry_inserts_batch_fields (rt : runtime) (a b : Entry.t)
    (t : nat) :
  Entry.entry_id a = Entry.entry_id b ->
  Entry.meta_id_start a = Entry.meta_id_start b ->
  Entry.first_name a = Entry.first_name b ->
  Entry.last_name a = Entry.last_name b ->
  Entry.email a = Entry.email b ->
  Entry.phone a = Entry.phone b ->
  Entry.grade a = Entry.grade b ->
  Entry.dojo_name a = Entry.dojo_name b ->
  Entry.birth_date a = Entry.birth_date b ->
  Entry.stripe_transaction_id a = Entry.stripe_transaction_id b ->
  Entry.stripe_amount a = Entry.stripe_amount b ->
  Entry.date_created a = Entry.date_created b ->
  Entry.currency a = Entry.currency b ->
  generate_entry_inserts_batch rt a t = generate_entry_inserts_batch rt b t.
Proof.
  intros H1 H2 H3 H4 H5 H6 H7 H8 H9 H10 H11 H12 H13.
  unfold generate_entry_inserts_batch.
  rewrite !generate_entry_inserts_table.
  rewrite H1, H2, H3, H4, H5, H6, H7, H8, H9, H10, H11, H12, H13.
  reflexivity.
Qed.

(** X11: in a batch the party flag, the t-shirt flag, the t-shirt size
    and the gender of an entry have no effect: two entries that agree on
    the other fields yield the same statements.  A batch that is generated
    has thirteen lines per entry. *)
Theorem generate_multiple_entries_thirteen (rt : runtime) :
  (forall a b t,
     Entry.entry_id a = Entry.entry_id b ->
     Entry.meta_id_start a = Entry.meta_id_start b ->
     Entry.first_name a = Entry.first_name b ->
     Entry.last_name a = Entry.last_name b ->
     Entry.email a = Entry.email b ->
     Entry.phone a = Entry.phone b ->
     Entry.grade a = Entry.grade b ->
     Entry.dojo_name a = Entry.dojo_name b ->
     Entry.birth_date a = Entry.birth_date b ->
     Entry.stripe_transaction_id a = Entry.stripe_transaction_id b ->
     Entry.stripe_amount a = Entry.stripe_amount b ->
     Entry.date_created a = Entry.date_created b ->
     Entry.currency a = Entry.currency b ->
     generate_multiple_entries rt [a] t = generate_multiple_entries rt [b] t) /\
  (forall entries t t' out,
     generate_multiple_entries rt entries t = Ok (out, t') ->
     length out = (13 * length entries)%nat).
Proof.
  split.
  - intros a b t H1 H2 H3 H4 H5 H6 H7 H8 H9 H10 H11 H12 H13.
    rewrite !generate_multiple_entries_outputs. cbn [entries_outputs].
    unfold bind.
    rewrite (generate_entry_inserts_batch_fields rt a b t) by assumption.
    reflexivity.
  - intros entries. induction entries as [|entry rest IH]; intros t t' out H.
    + apply ok_pair_inj in H. destruct H as [<- _]. reflexivity.
    + change (entry :: rest) with ([entry] ++ rest) in H.
      rewrite generate_multiple_entries_app in H.
      rewrite (generate_multiple_entries_outputs rt [entry]) in H.
      cbn [entries_outputs] in H. unfold bind, ret in H.
      destruct (generate_entry_inserts_batch rt entry t) as [[q t0]|e] eqn:E;
        [|discriminate H].
      destruct (generate_multiple_entries rt rest t0) as [[qb t2]|e] eqn:R;
        [|discriminate H].
      apply ok_pair_inj in H. destruct H as [<- _].
      destruct (generate_entry_inserts_batch_rows _ _ _ E) as [L _].
      apply IH in R.
      cbv [with_separators map concat]. rewrite app_nil_r, !length_app, L, R.
      cbn [length]. lia.
Qed.

Lemma generate_multiple_entries_thirteen_witness :
  exists out t',
    generate_multiple_entries Example.rt
      [Example.plain_entry; Example.example_entry] 0%nat = Ok (out, t') /\
    length out = 26%nat.
Proof.
  destruct (generate_multiple_entries Example.rt
              [Example.plain_entry; Example.example_entry] 0%nat)
    as [[out t']|e] eqn:E.
  - exists out, t'. split; [reflexivity|].
    exact (proj2 (generate_multiple_entries_thirteen Example.rt) _ _ _ _ E).
  - exfalso. vm_compute in E. discriminate E.
Defined.

(** ** Serialized values, read back *)

Lemma encode_utf8_ascii_app (a b : pystr) :
  is_ascii a = true ->
  encode_utf8 (a ++ b)
  = match encode_utf8 b with
    | Ok y => Ok (a ++ y)
    | Raise e => Raise e
    end.
Proof.
  intros H. induction a as [|c a IH].
  - cbn [app]. destruct (encode_utf8 b); reflexivity.
  - cbn [is_ascii forallb] in H. apply andb_prop in H. destruct H as [Hc Ha].
    cbn [app encode_utf8]. unfold encode_char. rewrite Hc. cbn [rbind].
    rewrite (IH Ha). destruct (encode_utf8 b); reflexivity.
Qed.

Lemma encode_utf8_ascii (a : pystr) :
  is_ascii a = true -> encode_utf8 a = Ok a.
Proof.
  intros H. rewrite <- (app_nil_r a) at 1.
  rewrite (@encode_utf8_ascii_app a [] H). cbn [encode_utf8].
  rewrite app_nil_r. reflexivity.
Qed.

Lemma encode_utf8_known_app (a b x : pystr) :
  encode_utf8 a = Ok x ->
  encode_utf8 (a ++ b)
  = match encode_utf8 b with
    | Ok y => Ok (x ++ y)
    | Raise e => Raise e
    end.
Proof.
  revert x. induction a as [|c a IH]; intros x H.
  - cbn [encode_utf8] in H. injection H as <-. cbn [app].
    destruct (encode_utf8 b); reflexivity.
  - cbn [app encode_utf8] in *.
    destruct (encode_char c) as [bs|]; [|discriminate H]. cbn [rbind] in *.
    destruct (encode_utf8 a) as [r|]; [|discriminate H]. cbn [rbind] in H.
    injection H as <-. rewrite (IH r eq_refl).
    destruct (encode_utf8 b) as [y|]; cbn [rbind]; [|reflexivity].
    rewrite app_assoc. reflexivity.
Qed.

Lemma str_of_int_ascii (z : Z) : is_ascii (str_of_int z) = true.
Proof.
  apply forallb_impl with (f := int_char); [|apply str_of_int_chars].
  intros x. unfold int_char. intros H. apply Z.ltb_lt.
  apply orb_prop in H. destruct H as [H|H].
  - apply andb_prop in H. destruct H as [_ H]. apply Z.leb_le in H. lia.
  - apply Z.eqb_eq in H. lia.
Qed.

Lemma str_of_int_no_colon (z : Z) :
  forallb (fun x => negb (x =? 58)) (str_of_int z) = true.
Proof.
  apply forallb_impl with (f := int_char); [|apply str_of_int_chars].
  intros x. unfold int_char. intros H.
  destruct (x =? 58) eqn:E; [|reflexivity].
  apply Z.eqb_eq in E. subst x. discriminate H.
Qed.

Lemma firstn_length_app {A : Type} (a b : list A) :
  firstn (length a) (a ++ b) = a.
Proof. induction a as [|x a IH]; cbn; [reflexivity|]. rewrite IH. reflexivity. Qed.

Lemma unserialize_string_serialized (payload rest : list Z) :
  unserialize_string (serialized payload ++ rest) = Some (payload, rest).
Proof.
  unfold serialized, unserialize_string.
  rewrite <- !app_assoc. rewrite expect_app.
  set (tail := payload ++ [dq] ++ rest).
  set (digits := str_of_int (Z.of_nat (length payload))).
  assert (E : lit ":" ++ [dq] ++ tail = [58; dq] ++ tail) by reflexivity.
  assert (U : until 58 (digits ++ [58; dq] ++ tail) = digits)
    by (apply (until_app 58 digits (dq :: tail)), str_of_int_no_colon).
  assert (P : (0 <=? Z.of_nat (length payload)) = true)
    by (apply Z.leb_le, Nat2Z.is_nonneg).
  rewrite E, U. unfold digits.
  rewrite read_int_str_of_int, str_of_int_nonempty, skipn_length_app, P.
  cbn [andb]. rewrite expect_app. unfold tail.
  rewrite Nat2Z.id, firstn_length_app, Z.eqb_refl, skipn_length_app,
    expect_app.
  reflexivity.
Qed.

Lemma php_serialize_string_bytes (value payload : pystr) :
  encode_utf8 value = Ok payload ->
  exists out,
    php_serialize_string value = Ok out /\
    encode_utf8 out = Ok (serialized payload).
Proof.
  intros H. unfold php_serialize_string. rewrite H. cbn [rbind].
  eexists. split; [reflexivity|].
  unfold serialized, quoted.
  rewrite (@encode_utf8_ascii_app (lit "s:") _) by reflexivity.
  rewrite (@encode_utf8_ascii_app (str_of_int _) _) by apply str_of_int_ascii.
  rewrite (@encode_utf8_ascii_app (lit ":") _) by reflexivity.
  change (dq :: value ++ [dq]) with ([dq] ++ value ++ [dq]).
  rewrite (@encode_utf8_ascii_app [dq] _) by reflexivity.
  rewrite (@encode_utf8_known_app _ _ _ H).
  rewrite (@encode_utf8_ascii [dq]) by reflexivity.
  reflexivity.
Qed.

(** X12: the length prefix of [php_serialize_string] is the one PHP's
    reader needs.  Reading the UTF-8 bytes of the result, the reader takes
    as many bytes as the prefix says, finds the closing quote right behind
    them and returns the bytes of the value, also when the value itself
    contains quotes, semicolons or characters of several bytes. *)
Theorem php_serialize_string_reads_back (value payload : pystr) :
  encode_utf8 value = Ok payload ->
  exists out bytes,
    php_serialize_string value = Ok out /\
    encode_utf8 out = Ok bytes /\
    forall rest, unserialize_string (bytes ++ rest) = Some (payload, rest).
Proof.
  intros H. destruct (@php_serialize_string_bytes _ _ H) as [out [Ho Hb]].
  exists out, (serialized payload). split; [exact Ho|]. split; [exact Hb|].
  intros rest. apply unserialize_string_serialized.
Qed.

Lemma php_serialize_string_reads_back_witness :
  exists out bytes,
    php_serialize_string (lit "é" ++ [dq] ++ lit ";€") = Ok out /\
    encode_utf8 out = Ok bytes /\
    forall rest,
      unserialize_string (bytes ++ rest)
      = Some ([195; 169; 34; 59; 226; 130; 172], rest).
Proof.
  apply php_serialize_string_reads_back. vm_compute. reflexivity.
Defined.

Lemma unserialize_value_string (payload rest : list Z) :
  unserialize_value (serialized payload ++ 59 :: rest)
  = Some (PhpString payload, rest).
Proof.
  unfold unserialize_value.
  assert (D : expect (lit "d:") (serialized payload ++ 59 :: rest) = None)
    by reflexivity.
  rewrite D, unserialize_string_serialized.
  change (59 :: rest) with ([59] ++ rest). rewrite expect_app. reflexivity.
Qed.

Lemma unserialize_value_double (text rest : list Z) :
  truthy text = true ->
  forallb (fun x => negb (x =? 59)) text = true ->
  unserialize_value (lit "d:" ++ text ++ 59 :: rest)
  = Some (PhpDouble text, rest).
Proof.
  intros Ht Hs. unfold unserialize_value.
  rewrite expect_app, until_app by exact Hs.
  rewrite Ht, skipn_length_app.
  change (59 :: rest) with ([59] ++ rest). rewrite expect_app. reflexivity.
Qed.

Lemma unserialize_array_header (n : Z) (body : list Z) :
  0 <= n ->
  unserialize_array (lit "a:" ++ str_of_int n ++ lit ":{" ++ body)
  = match unserialize_values (2 * Z.to_nat n) body with
    | Some (vs, rest) =>
        if pystr_eqb rest (lit "}") then Some (pair_up vs) else None
    | None => None
    end.
Proof.
  intros Hn. unfold unserialize_array. rewrite expect_app.
  assert (U : until 58 (str_of_int n ++ lit ":{" ++ body) = str_of_int n)
    by (apply (until_app 58 (str_of_int n) (123 :: body)),
          str_of_int_no_colon).
  assert (P : (0 <=? n) = true) by (apply Z.leb_le, Hn).
  rewrite U, read_int_str_of_int, str_of_int_nonempty, skipn_length_app, P.
  cbn [andb]. rewrite expect_app. reflexivity.
Qed.

Lemma name_bytes_shape (f l : list Z) :
  lit "a:2:{s:10:" ++ quoted (lit "first-name") ++ lit ";" ++ f
  ++ lit ";s:9:" ++ quoted (lit "last-name") ++ lit ";" ++ l ++ lit ";}"
  = lit "a:" ++ str_of_int 2 ++ lit ":{"
    ++ serialized (lit "first-name") ++ 59 :: f
    ++ 59 :: serialized (lit "last-name") ++ 59 :: l ++ 59 :: lit "}".
Proof. vm_compute. reflexivity. Qed.

(** X13: the value [php_serialize_name] returns is an array PHP reads as
    two pairs: the key [first-name] with the bytes of the first name and the
    key [last-name] with the bytes of the last name.  The header count 2 and
    the fixed key lengths 10 and 9 are the ones the reader needs, and names
    that contain quotes, semicolons or braces do not confuse it. *)
Theorem php_serialize_name_reads_back (first_name last_name b_first b_last
    : pystr) :
  encode_utf8 first_name = Ok b_first ->
  encode_utf8 last_name = Ok b_last ->
  exists out bytes,
    php_serialize_name first_name last_name = Ok out /\
    encode_utf8 out = Ok bytes /\
    unserialize_array bytes
    = Some [ (PhpString (lit "first-name"), PhpString b_first);
             (PhpString (lit "last-name"), PhpString b_last) ].
Proof.
  intros Hf Hl.
  destruct (@php_serialize_string_bytes _ _ Hf) as [f [Ef Bf]].
  destruct (@php_serialize_string_bytes _ _ Hl) as [l [El Bl]].
  unfold php_serialize_name. rewrite Ef, El. cbn [rbind].
  eexists. eexists. split; [reflexivity|]. split.
  - rewrite (@encode_utf8_ascii_app (lit "a:2:{s:10:") _) by reflexivity.
    rewrite (@encode_utf8_ascii_app (quoted (lit "first-name")) _) by reflexivity.
    rewrite (@encode_utf8_ascii_app (lit ";") _) by reflexivity.
    rewrite (@encode_utf8_known_app _ _ _ Bf).
    rewrite (@encode_utf8_ascii_app (lit ";s:9:") _) by reflexivity.
    rewrite (@encode_utf8_ascii_app (quoted (lit "last-name")) _) by reflexivity.
    rewrite (@encode_utf8_ascii_app (lit ";") _) by reflexivity.
    rewrite (@encode_utf8_known_app _ _ _ Bl).
    rewrite (@encode_utf8_ascii (lit ";}")) by reflexivity.
    reflexivity.
  - rewrite name_bytes_shape, unserialize_array_header by lia.
    change (2 * Z.to_nat 2)%nat with 4%nat. cbn [unserialize_values].
    rewrite !unserialize_value_string. reflexivity.
Qed.

Lemma php_serialize_name_reads_back_witness :
  exists out bytes,
    php_serialize_name (lit "Zoé") (lit "O'Brien;}") = Ok out /\
    encode_utf8 out = Ok bytes /\
    unserialize_array bytes
    = Some [ (PhpString (lit "first-name"), PhpString [90; 111; 195; 169]);
             (PhpString (lit "last-name"), PhpString (lit "O'Brien;}")) ].
Proof.
  apply php_serialize_name_reads_back; vm_compute; reflexivity.
Defined.

Lemma unserialize_values_string (k : nat) (payload rest : list Z) :
  unserialize_values (S k) (serialized payload ++ 59 :: rest)
  = match unserialize_values k rest with
    | Some (vs, r) => Some (PhpString payload :: vs, r)
    | None => None
    end.
Proof.
  cbn [unserialize_values]. rewrite unserialize_value_string. reflexivity.
Qed.

Lemma unserialize_values_double (k : nat) (text rest : list Z) :
  truthy text = true ->
  forallb (fun x => negb (x =? 59)) text = true ->
  unserialize_values (S k) (lit "d:" ++ text ++ 59 :: rest)
  = match unserialize_values k rest with
    | Some (vs, r) => Some (PhpDouble text :: vs, r)
    | None => None
    end.
Proof.
  intros Ht Hs. cbn [unserialize_values].
  rewrite (@unserialize_value_double text rest Ht Hs). reflexivity.
Qed.

Local Ltac encode_pieces :=
  repeat match goal with
         | H : encode_utf8 ?a = Ok ?x |- context [encode_utf8 (?a ++ ?b)] =>
             rewrite (@encode_utf8_known_app a b x H)
         | |- context [encode_utf8 (?a ++ ?b)] =>
             rewrite (@encode_utf8_ascii_app a b) by (vm_compute; reflexivity)
         end.

Lemma stripe_bytes_shape (v1 v2 v3 v4 v5 v6 v7 v8 v9 : list Z) :
  lit "a:9:{"
  ++ lit "s:4:" ++ quoted (lit "mode") ++ lit ";" ++ v1 ++ lit ";"
  ++ lit "s:12:" ++ quoted (lit "product_name") ++ lit ";" ++ v2 ++ lit ";"
  ++ lit "s:12:" ++ quoted (lit "payment_type") ++ lit ";" ++ v3 ++ lit ";"
  ++ lit "s:6:" ++ quoted (lit "amount") ++ lit ";" ++ v4 ++ lit ";"
  ++ lit "s:8:" ++ quoted (lit "quantity") ++ lit ";" ++ v5 ++ lit ";"
  ++ lit "s:8:" ++ quoted (lit "currency") ++ lit ";" ++ v6 ++ lit ";"
  ++ lit "s:14:" ++ quoted (lit "transaction_id") ++ lit ";" ++ v7 ++ lit ";"
  ++ lit "s:16:" ++ quoted (lit "transaction_link") ++ lit ";" ++ v8 ++ lit ";"
  ++ lit "s:6:" ++ quoted (lit "status") ++ lit ";" ++ v9 ++ lit ";}"
  = lit "a:" ++ str_of_int 9 ++ lit ":{"
    ++ serialized (lit "mode") ++ 59 :: v1
    ++ 59 :: serialized (lit "product_name") ++ 59 :: v2
    ++ 59 :: serialized (lit "payment_type") ++ 59 :: v3
    ++ 59 :: serialized (lit "amount") ++ 59 :: v4
    ++ 59 :: serialized (lit "quantity") ++ 59 :: v5
    ++ 59 :: serialized (lit "currency") ++ 59 :: v6
    ++ 59 :: serialized (lit "transaction_id") ++ 59 :: v7
    ++ 59 :: serialized (lit "transaction_link") ++ 59 :: v8
    ++ 59 :: serialized (lit "status") ++ 59 :: v9 ++ 59 :: lit "}".
Proof. vm_compute. reflexivity. Qed.

(** X14: the value [php_serialize_stripe] returns is an array PHP reads
    as nine pairs, in the order mode, product_name, payment_type, amount,
    quantity, currency, transaction_id, transaction_link, status: the
    header count 9 and the fixed key lengths are the ones the reader needs.
    The quantity is 1 and the link is the dashboard address followed by the
    transaction id. *)
Theorem php_serialize_stripe_reads_back
    (transaction_id amount currency mode product_name payment_type status
       b_id b_amount b_currency b_mode b_product b_payment b_status : pystr) :
  encode_utf8 transaction_id = Ok b_id ->
  encode_utf8 amount = Ok b_amount ->
  encode_utf8 currency = Ok b_currency ->
  encode_utf8 mode = Ok b_mode ->
  encode_utf8 product_name = Ok b_product ->
  encode_utf8 payment_type = Ok b_payment ->
  encode_utf8 status = Ok b_status ->
  exists out bytes,
    php_serialize_stripe transaction_id amount currency mode product_name
      payment_type status = Ok out /\
    encode_utf8 out = Ok bytes /\
    unserialize_array bytes
    = Some [ (PhpString (lit "mode"), PhpString b_mode);
             (PhpString (lit "product_name"), PhpString b_product);
             (PhpString (lit "payment_type"), PhpString b_payment);
             (PhpString (lit "amount"), PhpString b_amount);
             (PhpString (lit "quantity"), PhpString (lit "1"));
             (PhpString (lit "currency"), PhpString b_currency);
             (PhpString (lit "transaction_id"), PhpString b_id);
             (PhpString (lit "transaction_link"),
              PhpString (lit "https://dashboard.stripe.com/payments/"
                         ++ b_id));
             (PhpString (lit "status"), PhpString b_status) ].
Proof.
  intros Hi Ha Hc Hm Hp Ht Hs.
  assert (Hq : encode_utf8 (lit "1") = Ok (lit "1")) by reflexivity.
  assert (Hl : encode_utf8
                 (lit "https://dashboard.stripe.com/payments/"
                  ++ transaction_id)
               = Ok (lit "https://dashboard.stripe.com/payments/" ++ b_id)).
  { rewrite (@encode_utf8_ascii_app
               (lit "https://dashboard.stripe.com/payments/") transaction_id)
      by (vm_compute; reflexivity).
    rewrite Hi. reflexivity. }
  destruct (@php_serialize_string_bytes _ _ Hm) as [p1 [E1 B1]].
  destruct (@php_serialize_string_bytes _ _ Hp) as [p2 [E2 B2]].
  destruct (@php_serialize_string_bytes _ _ Ht) as [p3 [E3 B3]].
  destruct (@php_serialize_string_bytes _ _ Ha) as [p4 [E4 B4]].
  destruct (@php_serialize_string_bytes _ _ Hq) as [p5 [E5 B5]].
  destruct (@php_serialize_string_bytes _ _ Hc) as [p6 [E6 B6]].
  destruct (@php_serialize_string_bytes _ _ Hi) as [p7 [E7 B7]].
  destruct (@php_serialize_string_bytes _ _ Hl) as [p8 [E8 B8]].
  destruct (@php_serialize_string_bytes _ _ Hs) as [p9 [E9 B9]].
  unfold php_serialize_stripe, stripe_parts.
  rewrite E1, E2, E3, E4, E5, E6, E7, E8, E9. cbn [rbind join].
  rewrite <- !app_assoc.
  clear Hi Ha Hc Hm Hp Ht Hs Hq Hl E1 E2 E3 E4 E5 E6 E7 E8 E9.
  eexists. eexists. split; [reflexivity|]. split.
  - encode_pieces.
    rewrite (@encode_utf8_ascii (lit ";}")) by reflexivity.
    reflexivity.
  - rewrite stripe_bytes_shape, unserialize_array_header by lia.
    change (2 * Z.to_nat 9)%nat with 18%nat.
    rewrite !unserialize_values_string.
    reflexivity.
Qed.

Lemma php_serialize_stripe_reads_back_witness :
  exists out bytes,
    php_serialize_stripe (lit "pi_3Rnbxe") (lit "350.00") (lit "€")
      default_mode default_product_name default_payment_type default_status
    = Ok out /\
    encode_utf8 out = Ok bytes /\
    unserialize_array bytes
    = Some [ (PhpString (lit "mode"), PhpString (lit "live"));
             (PhpString (lit "product_name"), PhpString (lit "Plan 1"));
             (PhpString (lit "payment_type"), PhpString (lit "One Time"));
             (PhpString (lit "amount"), PhpString (lit "350.00"));
             (PhpString (lit "quantity"), PhpString (lit "1"));
             (PhpString (lit "currency"), PhpString [226; 130; 172]);
             (PhpString (lit "transaction_id"), PhpString (lit "pi_3Rnbxe"));
             (PhpString (lit "transaction_link"),
              PhpString (lit "https://dashboard.stripe.com/payments/"
                         ++ lit "pi_3Rnbxe"));
             (PhpString (lit "status"), PhpString (lit "COMPLETED")) ].
Proof.
  apply (@php_serialize_stripe_reads_back
           (lit "pi_3Rnbxe") (lit "350.00") (lit "€")
           default_mode default_product_name default_payment_type
           default_status
           (lit "pi_3Rnbxe") (lit "350.00") [226; 130; 172]
           (lit "live") (lit "Plan 1") (lit "One Time") (lit "COMPLETED"));
    vm_compute; reflexivity.
Defined.

Lemma calculation_bytes_shape (text v : list Z) :
  lit "a:2:{s:6:" ++ quoted (lit "result") ++ lit ";d:" ++ text
  ++ lit ";s:17:" ++ quoted (lit "formatting_result") ++ lit ";" ++ v
  ++ lit ";}"
  = lit "a:" ++ str_of_int 2 ++ lit ":{"
    ++ serialized (lit "result") ++ 59 :: lit "d:" ++ text
    ++ 59 :: serialized (lit "formatting_result") ++ 59 :: v
    ++ 59 :: lit "}".
Proof. vm_compute. reflexivity. Qed.

(** X15: the value [php_serialize_calculation] returns is an array PHP
    reads as two pairs: [result] with a double whose text is the amount as
    Python prints it, and [formatting_result] with the string made of the
    symbol, a space and the integral part of the amount.  It holds when the
    text of the amount is not empty and holds no semicolon, which is so for
    every integer amount. *)
Theorem php_serialize_calculation_reads_back (rt : runtime)
    (amount : number) (currency_symbol b_symbol text : pystr) (n : Z) :
  int_of_number amount = Ok n ->
  encode_utf8 currency_symbol = Ok b_symbol ->
  encode_utf8 (format_number rt amount) = Ok text ->
  truthy text = true ->
  forallb (fun x => negb (x =? 59)) text = true ->
  exists out bytes,
    php_serialize_calculation rt amount currency_symbol = Ok out /\
    encode_utf8 out = Ok bytes /\
    unserialize_array bytes
    = Some [ (PhpString (lit "result"), PhpDouble text);
             (PhpString (lit "formatting_result"),
              PhpString (b_symbol ++ lit " " ++ str_of_int n)) ].
Proof.
  intros Hn Hy Hx Ht Hs.
  assert (Hf : encode_utf8 (currency_symbol ++ lit " " ++ str_of_int n)
               = Ok (b_symbol ++ lit " " ++ str_of_int n)).
  { rewrite (@encode_utf8_known_app _ (lit " " ++ str_of_int n) _ Hy).
    rewrite (@encode_utf8_ascii (lit " " ++ str_of_int n)); [reflexivity|].
    unfold is_ascii. rewrite forallb_app. apply andb_true_intro.
    split; [reflexivity | apply str_of_int_ascii]. }
  destruct (@php_serialize_string_bytes _ _ Hf) as [p [E B]].
  unfold php_serialize_calculation. rewrite Hn. cbn [rbind].
  rewrite E. cbn [rbind].
  clear Hn Hy Hf E.
  eexists. eexists. split; [reflexivity|]. split.
  - encode_pieces.
    rewrite (@encode_utf8_ascii (lit ";}")) by reflexivity.
    reflexivity.
  - rewrite calculation_bytes_shape, unserialize_array_header by lia.
    change (2 * Z.to_nat 2)%nat with 4%nat.
    rewrite unserialize_values_string.
    rewrite (@unserialize_values_double _ _ _ Ht Hs).
    rewrite !unserialize_values_string.
    reflexivity.
Qed.

Lemma php_serialize_calculation_reads_back_witness :
  exists out bytes,
    php_serialize_calculation Example.rt (PyInt 20) default_currency_symbol
    = Ok out /\
    encode_utf8 out = Ok bytes /\
    unserialize_array bytes
    = Some [ (PhpString (lit "result"), PhpDouble (lit "20"));
             (PhpString (lit "formatting_result"),
              PhpString ([226; 130; 172] ++ lit " " ++ str_of_int 20)) ].
Proof.
  apply (@php_serialize_calculation_reads_back Example.rt (PyInt 20)
           default_currency_symbol [226; 130; 172] (lit "20") 20);
    vm_compute; reflexivity.
Defined.

(** ** The length prefix *)

Lemma encode_char_length (c : Z) (bs : list Z) :
  encode_char c = Ok bs ->
  (1 <= length bs <= 4)%nat /\ (length bs = 1%nat <-> (c <? 128) = true).
Proof.
  unfold encode_char. intros H.
  destruct (c <? 128).
  - injection H as <-. cbn. split; [lia|]. split; reflexivity.
  - destruct (c <? 2048).
    + injection H as <-. cbn. split; [lia|]. split; intros; discriminate.
    + destruct (is_surrogate c); [discriminate H|].
      destruct (c <? 65536); injection H as <-; cbn;
        (split; [lia|]; split; intros; discriminate).
Qed.

Lemma encode_utf8_length (s bytes : pystr) :
  encode_utf8 s = Ok bytes ->
  (length s <= length bytes <= 4 * length s)%nat /\
  (length bytes = length s <-> is_ascii s = true).
Proof.
  revert bytes. induction s as [|c s IH]; intros bytes H.
  - cbn in H. injection H as <-. cbn. split; [lia|]. split; reflexivity.
  - cbn [encode_utf8] in H.
    destruct (encode_char c) as [bs|] eqn:Ec; [|discriminate H].
    cbn [rbind] in H.
    destruct (encode_utf8 s) as [r|]; [|discriminate H].
    cbn [rbind] in H. injection H as <-.
    destruct (encode_char_length _ Ec) as [Hb Hc].
    destruct (IH r eq_refl) as [Hr Ha].
    rewrite length_app. cbn [length is_ascii forallb].
    fold (is_ascii s). split; [lia|]. split.
    + intros E. apply andb_true_intro. split.
      * apply Hc. lia.
      * apply Ha. lia.
    + intros E. apply andb_prop in E. destruct E as [E1 E2].
      apply Hc in E1. apply Ha in E2. lia.
Qed.

(** X16: the number [php_serialize_string] writes in front of a value
    lies between the number of characters of the value and four times that
    number, and it is the number of characters exactly when every character
    of the value is ASCII. *)
Theorem php_serialize_string_prefix_bounds (value out : pystr) :
  php_serialize_string value = Ok out ->
  exists n : nat,
    out = lit "s:" ++ str_of_int (Z.of_nat n) ++ lit ":" ++ quoted value /\
    (length value <= n <= 4 * length value)%nat /\
    (n = length value <-> is_ascii value = true).
Proof.
  unfold php_serialize_string. intros H.
  destruct (encode_utf8 value) as [bytes|] eqn:E; [|discriminate H].
  cbn [rbind] in H. injection H as <-.
  exists (length bytes). split; [reflexivity|].
  exact (encode_utf8_length _ E).
Qed.

Lemma php_serialize_string_prefix_bounds_witness :
  exists n : nat,
    lit "s:6:" ++ quoted (lit "€ 20")
    = lit "s:" ++ str_of_int (Z.of_nat n) ++ lit ":" ++ quoted (lit "€ 20") /\
    (length (lit "€ 20") <= n <= 4 * length (lit "€ 20"))%nat /\
    (n = length (lit "€ 20") <-> is_ascii (lit "€ 20") = true).
Proof.
  apply (@php_serialize_string_prefix_bounds (lit "€ 20")).
  vm_compute. reflexivity.
Defined.

(** ** The entry points *)

(** X17: what [main] of [forminator_insert_generator.py] prints when the
    generation of its example entry returns: the title, the line
    [-- Generated:] with a reading of the clock taken after the generation
    (a later reading than the one the rows carry as creation time), the
    line [-- Entry ID: 668], an empty line, the sixteen statements, an
    empty line and [-- Total queries generated: 16]. *)
Theorem main_prints (rt : runtime) (t t' : nat) (lines : list pystr) :
  main rt t = Ok (lines, t') ->
  exists queries t1,
    generate_entry_inserts_kw rt Example.example_entry t = Ok (queries, t1) /\
    length queries = 16%nat /\
    (t < t1)%nat /\ t' = S t1 /\
    lines = [ lit "-- Forminator Form Entry Meta INSERT Queries";
              lit "-- Generated: " ++ strftime_stamp rt (now rt t1);
              lit "-- Entry ID: 668";
              empty_str ]
            ++ queries
            ++ [ empty_str; lit "-- Total queries generated: 16" ].
Proof.
  unfold main, bind. intros H.
  destruct (generate_entry_inserts_kw rt Example.example_entry t)
    as [[q t1]|e] eqn:G; [|discriminate H].
  cbv [datetime_now ret] in H.
  apply ok_pair_inj in H. destruct H as [<- <-].
  assert (L : length q = 16%nat /\ (t < t1)%nat).
  { unfold generate_entry_inserts_kw in G.
    rewrite generate_entry_inserts_table in G.
    match type of G with
    | match ?p with _ => _ end = _ => destruct p as [[v t2]|e] eqn:E
    end; [|discriminate G].
    apply ok_pair_inj in G. destruct G as [<- <-].
    rewrite statements_length. split; [vm_compute; reflexivity|].
    destruct (@entry_prelude_inversion _ _ _ _ _ _ _ _ _ _ _ E)
      as [_ [Hd _]].
    change (Entry.date_created Example.example_entry)
      with (@None pystr) in Hd.
    cbv beta iota zeta in Hd.
    destruct (truthy (effective_stamp rt None t));
      destruct Hd as [_ ->]; lia. }
  destruct L as [L1 L2].
  assert (A1 : lit "-- Entry ID: "
               ++ str_of_int (Entry.entry_id Example.example_entry)
               = lit "-- Entry ID: 668") by (vm_compute; reflexivity).
  assert (A2 : lit "-- Total queries generated: " ++ str_of_int (Z.of_nat 16)
               = lit "-- Total queries generated: 16")
    by (vm_compute; reflexivity).
  exists q, t1. rewrite L1, A1, A2.
  split; [reflexivity|]. split; [reflexivity|]. split; [exact L2|].
  split; reflexivity.
Qed.

Lemma main_prints_witness :
  exists queries t1,
    generate_entry_inserts_kw Example.rt Example.example_entry 0%nat
    = Ok (queries, t1) /\
    length queries = 16%nat /\
    (0 < t1)%nat /\ 2%nat = S t1 /\
    match main Example.rt 0%nat with Ok (l, _) => l | Raise _ => [] end
    = [ lit "-- Forminator Form Entry Meta INSERT Queries";
        lit "-- Generated: "
          ++ strftime_stamp Example.rt (now Example.rt t1);
        lit "-- Entry ID: 668";
        empty_str ]
      ++ queries
      ++ [ empty_str; lit "-- Total queries generated: 16" ].
Proof.
  apply (@main_prints Example.rt 0%nat 2%nat
           match main Example.rt 0%nat with Ok (l, _) => l | Raise _ => [] end).
  vm_compute. reflexivity.
Defined.

(** X18: [main] of [generate_entries.py] never prints anything: whatever
    the clock and the runtime, the call [generate_entry_inserts( **example_entry )]
    is refused with a [TypeError] for the keyword [party_participants]
    before the body runs.  Without the keywords that are no parameters the
    call would still be refused, [meta_id_start] being missing. *)
Theorem generate_entries_main_type_error (rt : runtime) (t : nat) :
  generate_entries_main rt t
  = RaisedTypeError (UnexpectedKeyword (lit "party_participants")) /\
  bind_keywords
    (filter (fun kv => mem (fst kv)
                         (required_parameters ++ optional_parameters))
            generate_entries_example)
  = MissingArgument (lit "meta_id_start").
Proof.
  assert (B : bind_keywords generate_entries_example
              = UnexpectedKeyword (lit "party_participants"))
    by (vm_compute; reflexivity).
  split.
  - unfold generate_entries_main. rewrite B. reflexivity.
  - vm_compute. reflexivity.
Qed.
